(** * DressUp AI monitoring scripts: a shallow embedding

    The four scripts under [monitoring/] are embedded as executable
    functions.  Cloud clients are explicit arguments (an oracle of
    responses); [print] appends a line to an explicit standard output;
    a Python exception is a value of [exn] threaded through a small
    state-and-exception monad in which a raise keeps the mutations made
    before it, as in Python. *)

From Stdlib Require Import String Ascii List Bool Arith ZArith QArith Lia.
From Stdlib Require Import DecimalString ListSet Permutation.
Import ListNotations.
Local Close Scope Q_scope.
Local Open Scope list_scope.
Local Open Scope string_scope.

(** ** Python values shared by the four scripts *)

Module Py.

(** The exception classes the scripts can meet.  Every class except
    [KeyboardInterrupt] derives from [Exception]. *)
Inductive exn : Type :=
| FileNotFoundError (msg : string)
| KeyError (key : string)
| UnboundLocalError (var : string)
| TypeError (msg : string)
| YAMLError (msg : string)
| ApiError (msg : string)
| KeyboardInterrupt.

Definition is_Exception (e : exn) : bool :=
  match e with
  | KeyboardInterrupt => false
  | _ => true
  end.

Definition is_FileNotFoundError (e : exn) : bool :=
  match e with
  | FileNotFoundError _ => true
  | _ => false
  end.

(** [str(e)]: a [KeyError] prints the repr of its key. *)
Definition str_exn (e : exn) : string :=
  match e with
  | FileNotFoundError m => m
  | KeyError k => "'" ++ k ++ "'"
  | UnboundLocalError v =>
      "cannot access local variable '" ++ v
      ++ "' where it is not associated with a value"
  | TypeError m => m
  | YAMLError m => m
  | ApiError m => m
  | KeyboardInterrupt => EmptyString
  end.

(** The result of running a statement: it completes with a value or
    raises. *)
Inductive outcome (A : Type) : Type :=
| Ret (a : A)
| Raise (e : exn).
Arguments Ret {A} a.
Arguments Raise {A} e.

(** *** Strings *)

(** The newline and the double quote. *)
Definition nl : string := String (ascii_of_nat 10) EmptyString.
Definition dq : string := String (ascii_of_nat 34) EmptyString.

Definition str_nat (n : nat) : string :=
  NilZero.string_of_uint (Nat.to_uint n).

Definition str_Z (z : Z) : string :=
  NilZero.string_of_int (Z.to_int z).

(** [s.startswith(p)] *)
Fixpoint startswith (p s : string) : bool :=
  match p with
  | EmptyString => true
  | String a p' =>
      match s with
      | EmptyString => false
      | String b s' => Ascii.eqb a b && startswith p' s'
      end
  end.

(** [p in s] for strings *)
Fixpoint contains (p s : string) : bool :=
  startswith p s
  || match s with
     | EmptyString => false
     | String _ s' => contains p s'
     end.

Fixpoint drop (n : nat) (s : string) : string :=
  match n, s with
  | O, _ => s
  | S n', String _ s' => drop n' s'
  | S _, EmptyString => EmptyString
  end.

(** [s.replace(old, new)] for a non-empty [old]: every non-overlapping
    occurrence, leftmost first.  [skip] counts the characters of a
    matched occurrence still to be passed over. *)
Fixpoint replace_from (old new : string) (skip : nat) (s : string) : string :=
  match s with
  | EmptyString => EmptyString
  | String c s' =>
      match skip with
      | S k => replace_from old new k s'
      | O =>
          if startswith old s
          then new ++ replace_from old new (String.length old - 1) s'
          else String c (replace_from old new 0 s')
      end
  end.

Definition replace (old new s : string) : string :=
  replace_from old new 0 s.

(** [s.split(sep)[1]] when [sep] (non-empty) occurs in [s]: the text
    between the first occurrence of [sep] and the next one. *)
Fixpoint until_sep (sep : string) (s : string) : string :=
  match s with
  | EmptyString => EmptyString
  | String c s' =>
      if startswith sep s then EmptyString else String c (until_sep sep s')
  end.

Fixpoint after_sep (sep : string) (s : string) : option string :=
  if startswith sep s then Some (drop (String.length sep) s)
  else match s with
       | EmptyString => None
       | String _ s' => after_sep sep s'
       end.

Definition split_0 (sep s : string) : string := until_sep sep s.

Definition split_1 (sep s : string) : option string :=
  match after_sep sep s with
  | Some rest => Some (until_sep sep rest)
  | None => None
  end.

Fixpoint lstrip (c : ascii) (s : string) : string :=
  match s with
  | EmptyString => EmptyString
  | String a s' => if Ascii.eqb a c then lstrip c s' else s
  end.

Fixpoint rstrip (c : ascii) (s : string) : string :=
  match s with
  | EmptyString => EmptyString
  | String a s' =>
      match rstrip c s' with
      | EmptyString => if Ascii.eqb a c then EmptyString else String a EmptyString
      | r => String a r
      end
  end.

(** [s.strip(c)] for a one-character [c] *)
Definition strip (c : ascii) (s : string) : string := rstrip c (lstrip c s).

(** [s.split(c)[-1]]: the text after the last [c]. *)
Fixpoint rsplit_last_from (c : ascii) (acc : string) (s : string) : string :=
  match s with
  | EmptyString => acc
  | String a s' =>
      if Ascii.eqb a c then rsplit_last_from c s' s'
      else rsplit_last_from c acc s'
  end.

Definition rsplit_last (c : ascii) (s : string) : string :=
  rsplit_last_from c s s.

(** [s.lower()] on ASCII text *)
Definition lower_ascii (a : ascii) : ascii :=
  let n := nat_of_ascii a in
  if (65 <=? n)%nat && (n <=? 90)%nat then ascii_of_nat (n + 32) else a.

Fixpoint lower (s : string) : string :=
  match s with
  | EmptyString => EmptyString
  | String a s' => String (lower_ascii a) (lower s')
  end.

Definition is_lower (a : ascii) : bool :=
  let n := nat_of_ascii a in (97 <=? n)%nat && (n <=? 122)%nat.

Definition is_upper (a : ascii) : bool :=
  let n := nat_of_ascii a in (65 <=? n)%nat && (n <=? 90)%nat.

Definition upper_ascii (a : ascii) : ascii :=
  if is_lower a then ascii_of_nat (nat_of_ascii a - 32) else a.

(** [s.title()] on ASCII text; [in_word] tells whether the previous
    character was a letter. *)
Fixpoint title_from (in_word : bool) (s : string) : string :=
  match s with
  | EmptyString => EmptyString
  | String a s' =>
      let letter := is_lower a || is_upper a in
      String (if in_word then lower_ascii a else upper_ascii a)
             (title_from letter s')
  end.

Definition title (s : string) : string := title_from false s.

(** [', '.join(l)] *)
Fixpoint join (sep : string) (l : list string) : string :=
  match l with
  | [] => EmptyString
  | [x] => x
  | x :: rest => x ++ sep ++ join sep rest
  end.

(** [x in l] for a list of strings *)
Definition mem (x : string) (l : list string) : bool :=
  existsb (String.eqb x) l.

(** [repr] of a list of strings, as an f-string prints it *)
Definition repr_list (l : list string) : string :=
  "[" ++ join ", " (map (fun x => "'" ++ x ++ "'") l) ++ "]".

(** *** Statements

    A statement runs on a state [S] (the objects it may mutate, the
    standard output, the calls issued so far) and completes with a value
    or raises; the state it leaves is kept in both cases. *)

Definition M (S A : Type) : Type := S -> outcome A * S.

Definition ret {S A} (a : A) : M S A := fun s => (Ret a, s).

Definition bind {S A B} (m : M S A) (k : A -> M S B) : M S B :=
  fun s =>
    match m s with
    | (Ret a, s') => k a s'
    | (Raise e, s') => (Raise e, s')
    end.

Definition raise {S A} (e : exn) : M S A := fun s => (Raise e, s).

(** A pure computation that may raise. *)
Definition lift {S A} (o : outcome A) : M S A := fun s => (o, s).

Notation "x <- m ;; k" := (bind m (fun x => k))
  (at level 61, m at next level, right associativity).
Notation "m ;; k" := (bind m (fun _ => k))
  (at level 61, right associativity).

(** [try: body except Exception as e: handler e] *)
Definition try_except {S A} (body : M S A) (handler : exn -> M S A) : M S A :=
  fun s =>
    match body s with
    | (Raise e, s') =>
        if is_Exception e then handler e s' else (Raise e, s')
    | r => r
    end.

Fixpoint for_each {S A} (l : list A) (body : A -> M S unit) : M S unit :=
  match l with
  | [] => ret tt
  | x :: rest => body x ;; for_each rest body
  end.

Definition when {S} (b : bool) (m : M S unit) : M S unit :=
  if b then m else ret tt.

End Py.

(** ** validate-monitoring.py *)

Module Validate.
Import Py.

(** *** Data the validator reads from the cloud *)

(** A log entry's payload, as decoded JSON.  A text payload is a
    [JStr]; numbers are kept to integers. *)
#[local] Unset Elimination Schemes.
Inductive Json : Type :=
| JNull
| JBool (b : bool)
| JNum (z : Z)
| JStr (s : string)
| JList (l : list Json)
| JDict (d : list (string * Json)).
#[local] Set Elimination Schemes.

Record LogEntry : Type := { payload : Json }.

(** [xy_chart] and [scorecard] are message fields: [None] is an unset
    (falsy) message, [Some] a set one, holding the filter strings of its
    time-series queries. *)
Record Widget : Type := {
  xy_chart : option (list string);
  scorecard : option string
}.

Record Tile : Type := { widget : Widget }.

Record Dashboard : Type := {
  display_name : string;
  mosaic_layout : option (list Tile)
}.

Record ProjectBilling : Type := {
  billing_enabled : bool;
  billing_account_name : string
}.

Record ThresholdRule : Type := { threshold_percent : Q }.

Record Budget : Type := {
  budget_display_name : string;
  threshold_rules : list ThresholdRule
}.

Inductive TimeSeries : Type := MkTimeSeries.

(** The calls the validator issues, in order. *)
Inductive ApiCall : Type :=
| ListEntries
| OpenFile (path : string)
| ListMetricDescriptors
| ListTimeSeries (filter : string)
| ListDashboards
| GetProjectBillingInfo (name : string)
| ListBudgets (parent : string).

(** What each collaborator answers during one run.  A [Raise] stands
    for a failure anywhere between building the client and reading the
    last page of the answer; the source handles all of these in the same
    [try] block.  [load_metrics_yaml] is the list of metric names read
    from [log-metrics.yaml], or what opening, parsing or indexing the
    file raises.  [repr_set] is the text a set of strings prints as (its
    order is Python's own) and [format_1f] the [.1f] rendering of a
    rate. *)
Record Env : Type := {
  new_clients : outcome unit;
  list_entries : outcome (list LogEntry);
  load_metrics_yaml : outcome (list string);
  list_metric_descriptors : outcome (list string);
  list_time_series : string -> outcome (list TimeSeries);
  list_dashboards : outcome (list Dashboard);
  get_project_billing_info : outcome ProjectBilling;
  list_budgets : string -> outcome (list Budget);
  write_report_file : string -> outcome unit;
  repr_set : list string -> string;
  format_1f : Q -> string
}.

(** *** The result accumulator, [self.results] *)

Record TestResult : Type := {
  t_name : string;
  t_passed : bool;
  t_details : string
}.

Record CategoryResult : Type := {
  passed : nat;
  failed : nat;
  tests : list TestResult
}.

(** The ['overall'] entry has counters only: it has no ['tests'] key. *)
Record OverallResult : Type := {
  overall_passed : nat;
  overall_failed : nat
}.

Record Results : Type := {
  structured_logging : CategoryResult;
  log_metrics : CategoryResult;
  dashboard : CategoryResult;
  budgets : CategoryResult;
  overall : OverallResult
}.

Definition empty_category : CategoryResult :=
  {| passed := 0; failed := 0; tests := [] |}.

Definition init_results : Results :=
  {| structured_logging := empty_category;
     log_metrics := empty_category;
     dashboard := empty_category;
     budgets := empty_category;
     overall := {| overall_passed := 0; overall_failed := 0 |} |}.

(** A value of [self.results]: a category with a test list, or the
    counters-only entry. *)
Inductive Entry : Type :=
| WithTests (c : CategoryResult)
| CountersOnly (o : OverallResult).

(** [self.results[category]] *)
Definition results_get (category : string) (r : Results) : option Entry :=
  if category =? "structured_logging" then Some (WithTests (structured_logging r))
  else if category =? "log_metrics" then Some (WithTests (log_metrics r))
  else if category =? "dashboard" then Some (WithTests (dashboard r))
  else if category =? "budgets" then Some (WithTests (budgets r))
  else if category =? "overall" then Some (CountersOnly (overall r))
  else None.

(** Write back a category entry after a mutation of it. *)
Definition results_set (category : string) (c : CategoryResult) (r : Results)
  : Results :=
  if category =? "structured_logging" then
    {| structured_logging := c; log_metrics := log_metrics r;
       dashboard := dashboard r; budgets := budgets r; overall := overall r |}
  else if category =? "log_metrics" then
    {| structured_logging := structured_logging r; log_metrics := c;
       dashboard := dashboard r; budgets := budgets r; overall := overall r |}
  else if category =? "dashboard" then
    {| structured_logging := structured_logging r; log_metrics := log_metrics r;
       dashboard := c; budgets := budgets r; overall := overall r |}
  else if category =? "budgets" then
    {| structured_logging := structured_logging r; log_metrics := log_metrics r;
       dashboard := dashboard r; budgets := c; overall := overall r |}
  else r.

Definition set_overall (o : OverallResult) (r : Results) : Results :=
  {| structured_logging := structured_logging r; log_metrics := log_metrics r;
     dashboard := dashboard r; budgets := budgets r; overall := o |}.

(** *** The validator's state and the monad of its methods *)

Record State : Type := {
  results : Results;
  stdout : list string;
  calls : list ApiCall
}.

Definition init_state : State :=
  {| results := init_results; stdout := []; calls := [] |}.

Definition M : Type -> Type := Py.M State.

Definition print (line : string) : M unit :=
  fun s =>
    (Ret tt, {| results := results s;
                stdout := (stdout s ++ [line])%list;
                calls := calls s |}).

(** Issue a call: it is recorded, then answers or raises. *)
Definition api {A} (c : ApiCall) (answer : outcome A) : M A :=
  fun s =>
    (answer, {| results := results s;
                stdout := stdout s;
                calls := (calls s ++ [c])%list |}).

Definition set_results (r : Results) : M unit :=
  fun s => (Ret tt, {| results := r; stdout := stdout s; calls := calls s |}).

Definition get_results : M Results := fun s => (Ret (results s), s).

(** *** [log_test_result] *)

Definition add_test (t : TestResult) (c : CategoryResult) : CategoryResult :=
  {| passed := passed c; failed := failed c; tests := (tests c ++ [t])%list |}.

Definition incr_passed (c : CategoryResult) : CategoryResult :=
  {| passed := S (passed c); failed := failed c; tests := tests c |}.

Definition incr_failed (c : CategoryResult) : CategoryResult :=
  {| passed := passed c; failed := S (failed c); tests := tests c |}.

Definition incr_overall_passed (r : Results) : Results :=
  set_overall {| overall_passed := S (overall_passed (overall r));
                 overall_failed := overall_failed (overall r) |} r.

Definition incr_overall_failed (r : Results) : Results :=
  set_overall {| overall_passed := overall_passed (overall r);
                 overall_failed := S (overall_failed (overall r)) |} r.

(** The append comes first: an unknown category raises [KeyError] on
    the category, the counters-only entry raises [KeyError('tests')],
    and in both cases nothing has been changed yet. *)
Definition log_test_result (category test_name : string) (passed_ : bool)
    (details : string) : M unit :=
  r <- get_results ;;
  match results_get category r with
  | None => raise (KeyError category)
  | Some (CountersOnly _) => raise (KeyError "tests")
  | Some (WithTests c) =>
      let c1 := add_test {| t_name := test_name; t_passed := passed_;
                            t_details := details |} c in
      if passed_ then
        set_results (incr_overall_passed (results_set category (incr_passed c1) r)) ;;
        print ("✅ " ++ test_name)
      else
        set_results (incr_overall_failed (results_set category (incr_failed c1) r)) ;;
        print ("❌ " ++ test_name) ;;
        when (negb (details =? EmptyString)) (print ("   Details: " ++ details))
  end.

(** *** [test_structured_logging] *)

(** Truth value of a decoded JSON value. *)
Definition truthy (j : Json) : bool :=
  match j with
  | JNull => false
  | JBool b => b
  | JNum z => negb (z =? 0)%Z
  | JStr s => negb (s =? EmptyString)
  | JList l => match l with [] => false | _ => true end
  | JDict d => match d with [] => false | _ => true end
  end.

Fixpoint dict_get (k : string) (d : list (string * Json)) : option Json :=
  match d with
  | [] => None
  | (k', v) :: rest => if k =? k' then Some v else dict_get k rest
  end.

(** [hasattr(payload, 'get') and payload.get('structuredData')]: only a
    dict has [get]; the result is the value when it is truthy. *)
Definition structured_data_of (p : Json) : option Json :=
  match p with
  | JDict d =>
      match dict_get "structuredData" d with
      | Some v => if truthy v then Some v else None
      | None => None
      end
  | _ => None
  end.

Definition is_str (field : string) (j : Json) : bool :=
  match j with
  | JStr s => s =? field
  | _ => false
  end.

(** [field in structured_data]: key lookup in a dict, membership in a
    list, substring test in a string, [TypeError] otherwise. *)
Definition py_in (field : string) (v : Json) : outcome bool :=
  match v with
  | JDict d => Ret (match dict_get field d with Some _ => true | None => false end)
  | JList l => Ret (existsb (is_str field) l)
  | JStr s => Ret (contains field s)
  | JNum _ => Raise (TypeError "argument of type 'int' is not iterable")
  | JBool _ => Raise (TypeError "argument of type 'bool' is not iterable")
  | JNull => Raise (TypeError "argument of type 'NoneType' is not iterable")
  end.

(** [[field for field in fields if field not in v]] *)
Fixpoint fields_not_in (fields : list string) (v : Json) : outcome (list string) :=
  match fields with
  | [] => Ret []
  | f :: rest =>
      match py_in f v with
      | Raise e => Raise e
      | Ret b =>
          match fields_not_in rest v with
          | Raise e => Raise e
          | Ret l => Ret (if b then l else f :: l)
          end
      end
  end.

Definition required_fields : list string :=
  ["eventType"; "timestamp"; "functionName"].

Definition test_structured_logging (env : Env) : M unit :=
  print (nl ++ "🔍 Testing Structured Logging...") ;;
  try_except
    (entries <- api ListEntries (list_entries env) ;;
     match entries with
     | sample_entry :: _ =>
         log_test_result "structured_logging" "Structured logs present" true
           ("Found " ++ str_nat (length entries) ++ " structured log entries") ;;
         match structured_data_of (payload sample_entry) with
         | Some structured_data =>
             missing_fields <- lift (fields_not_in required_fields structured_data) ;;
             match missing_fields with
             | [] =>
                 log_test_result "structured_logging" "Log structure validation" true
                   ("All required fields present: " ++ repr_list required_fields)
             | _ =>
                 log_test_result "structured_logging" "Log structure validation" false
                   ("Missing fields: " ++ repr_list missing_fields)
             end
         | None =>
             log_test_result "structured_logging" "Log structure validation" false
               "No structured data found in log payload"
         end
     | [] =>
         log_test_result "structured_logging" "Structured logs present" false
           "No structured logs found. Deploy Cloud Functions first."
     end)
    (fun e =>
       log_test_result "structured_logging" "Structured logging access" false
         ("Error accessing logs: " ++ str_exn e)).

(** *** [test_log_metrics] *)

Definition user_prefix : string := "logging.googleapis.com/user/".

Definition default_metrics : list string :=
  ["session_creation_rate"; "generation_requests_total";
   "generation_success_rate"; "generation_latency_ms";
   "vertex_ai_latency_ms"; "feedback_ratings"; "error_rate"].

(** The [try] around reading [log-metrics.yaml] has a handler for
    [FileNotFoundError] only; anything else leaves the method. *)
Definition load_expected_metrics (env : Env) : M (list string) :=
  fun s =>
    match api (OpenFile "log-metrics.yaml") (load_metrics_yaml env) s with
    | (Raise e, s') =>
        if is_FileNotFoundError e then
          (print "⚠️  log-metrics.yaml not found, using default metric list" ;;
           ret default_metrics) s'
        else (Raise e, s')
    | r => r
    end.

Definition user_metrics_of (types : list string) : list string :=
  map (replace user_prefix EmptyString) (filter (startswith user_prefix) types).

Definition log_metrics_access (e : exn) : M unit :=
  log_test_result "log_metrics" "Log metrics access" false
    ("Error accessing metrics: " ++ str_exn e).

(** Test 1.  The value is the local [found_metrics] as the [try]
    statement leaves it: [None] while the name is unbound, which is the
    case when the listing raised; it is bound as soon as the listing has
    been read, also when a later statement of the block raises. *)
Definition check_metrics_exist (env : Env) (expected_metrics : list string)
  : M (option (list string)) :=
  listing <- try_except
    (metrics <- api ListMetricDescriptors (list_metric_descriptors env) ;;
     ret (Some metrics))
    (fun e => log_metrics_access e ;; ret None) ;;
  match listing with
  | None => ret None
  | Some metrics =>
      let user_metrics := user_metrics_of metrics in
      let found_metrics := filter (fun m => mem m user_metrics) expected_metrics in
      let missing_metrics :=
        filter (fun m => negb (mem m user_metrics)) expected_metrics in
      try_except
        (log_test_result "log_metrics" "Log metrics existence"
           (0 <? length found_metrics)%nat
           ("Found: " ++ str_nat (length found_metrics)
            ++ ", Missing: " ++ str_nat (length missing_metrics)) ;;
         when (negb (length missing_metrics =? 0)%nat)
           (print ("   Missing metrics: " ++ join ", " (firstn 5 missing_metrics)) ;;
            when (5 <? length missing_metrics)%nat
              (print ("   ... and " ++ str_nat (length missing_metrics - 5)
                      ++ " more"))))
        log_metrics_access ;;
      ret (Some found_metrics)
  end.

Definition test_log_metrics (env : Env) : M unit :=
  print (nl ++ "📊 Testing Log-Based Metrics...") ;;
  expected_metrics <- load_expected_metrics env ;;
  found_metrics <- check_metrics_exist env expected_metrics ;;
  match found_metrics with
  | None => raise (UnboundLocalError "found_metrics")
  | Some [] => ret tt
  | Some (first :: _) =>
      try_except
        (let test_metric := user_prefix ++ first in
         let filter_ := "metric.type=" ++ dq ++ test_metric ++ dq in
         time_series <- api (ListTimeSeries filter_) (list_time_series env filter_) ;;
         log_test_result "log_metrics" "Metric data availability"
           (0 <? length time_series)%nat
           ("Found " ++ str_nat (length time_series) ++ " time series for " ++ first))
        (fun e =>
           log_test_result "log_metrics" "Metric data query" false
             ("Error querying metric data: " ++ str_exn e))
  end.

(** *** [test_dashboard] *)

Definition app_name : string := "DressUp AI".

Definition is_some {A} (o : option A) : bool :=
  match o with Some _ => true | None => false end.

(** One tile's contribution to [widget_types]. *)
Definition widget_types_of (t : Tile) : list string :=
  ((if is_some (xy_chart (widget t)) then ["xy_chart"] else [])
   ++ (if is_some (scorecard (widget t)) then ["scorecard"] else []))%list.

(** One tile's contribution to [metric_references]. *)
Definition metric_references_of (t : Tile) : list string :=
  ((match xy_chart (widget t) with
    | Some data_sets => filter (contains user_prefix) data_sets
    | None => []
    end)
   ++ (match scorecard (widget t) with
       | Some filter_str => if contains user_prefix filter_str then [filter_str] else []
       | None => []
       end))%list.

Definition test_dashboard (env : Env) : M unit :=
  print (nl ++ "📈 Testing Monitoring Dashboard...") ;;
  try_except
    (dashboards <- api ListDashboards (list_dashboards env) ;;
     let dressup_dashboards :=
       filter (fun d => contains app_name (display_name d)) dashboards in
     log_test_result "dashboard" "Dashboard existence"
       (0 <? length dressup_dashboards)%nat
       ("Found " ++ str_nat (length dressup_dashboards) ++ " DressUp AI dashboard(s)") ;;
     match dressup_dashboards with
     | [] => ret tt
     | dashboard_ :: _ =>
         match mosaic_layout dashboard_ with
         | Some tiles =>
             let widget_types := flat_map widget_types_of tiles in
             log_test_result "dashboard" "Dashboard widget configuration"
               (0 <? length widget_types)%nat
               ("Found " ++ str_nat (length widget_types) ++ " widgets: "
                ++ repr_set env widget_types) ;;
             let metric_references := flat_map metric_references_of tiles in
             log_test_result "dashboard" "Dashboard metric references"
               (0 <? length metric_references)%nat
               ("Found " ++ str_nat (length metric_references) ++ " metric references")
         | None =>
             log_test_result "dashboard" "Dashboard layout validation" false
               "Dashboard has no mosaic layout"
         end
     end)
    (fun e =>
       log_test_result "dashboard" "Dashboard access" false
         ("Error accessing dashboard: " ++ str_exn e)).

(** *** [test_budget_alerts] *)

Definition test_budget_alerts (env : Env) (project_id : string) : M unit :=
  print (nl ++ "💰 Testing Budget Alerts...") ;;
  try_except
    (project_billing <- api (GetProjectBillingInfo ("projects/" ++ project_id))
                            (get_project_billing_info env) ;;
     if negb (billing_enabled project_billing) then
       log_test_result "budgets" "Billing enabled" false
         "Billing is not enabled for this project"
     else
       log_test_result "budgets" "Billing enabled" true
         "Project has billing enabled" ;;
       try_except
         (let billing_account := billing_account_name project_billing in
          budget_list <- api (ListBudgets billing_account)
                             (list_budgets env billing_account) ;;
          let dressup_budgets :=
            filter (fun b => contains app_name (budget_display_name b)) budget_list in
          log_test_result "budgets" "Budget alerts existence"
            (0 <? length dressup_budgets)%nat
            ("Found " ++ str_nat (length dressup_budgets) ++ " DressUp AI budget(s)") ;;
          for_each dressup_budgets (fun budget =>
            let threshold_count := length (threshold_rules budget) in
            log_test_result "budgets"
              ("Budget threshold configuration - " ++ budget_display_name budget)
              (4 <=? threshold_count)%nat
              ("Has " ++ str_nat threshold_count ++ " threshold rules")))
         (fun e =>
            log_test_result "budgets" "Budget alerts access" false
              ("Error accessing budgets: " ++ str_exn e)))
    (fun e =>
       log_test_result "budgets" "Billing API access" false
         ("Error accessing billing API: " ++ str_exn e)).

(** *** [test_end_to_end_flow] *)

Definition pipeline_components : list (string * string) :=
  [("Cloud Functions", "structured_logging");
   ("Log-based Metrics", "log_metrics");
   ("Monitoring Dashboard", "dashboard");
   ("Budget Alerts", "budgets")].

(** [self.results[category]['passed'] > 0] *)
Definition category_passed (r : Results) (category : string) : outcome nat :=
  match results_get category r with
  | None => Raise (KeyError category)
  | Some (WithTests c) => Ret (passed c)
  | Some (CountersOnly o) => Ret (overall_passed o)
  end.

Fixpoint working_components_of (r : Results) (l : list (string * string))
  : outcome (list string) :=
  match l with
  | [] => Ret []
  | (component_name, category) :: rest =>
      match category_passed r category with
      | Raise e => Raise e
      | Ret n =>
          match working_components_of r rest with
          | Raise e => Raise e
          | Ret w => Ret (if (0 <? n)%nat then component_name :: w else w)
          end
      end
  end.

Definition test_end_to_end_flow : M unit :=
  print (nl ++ "🔄 Testing End-to-End Monitoring Flow...") ;;
  r <- get_results ;;
  working_components <- lift (working_components_of r pipeline_components) ;;
  log_test_result "overall" "Monitoring pipeline completeness"
    (3 <=? length working_components)%nat
    ("Working components: " ++ join ", " working_components).

(** *** [generate_validation_report] *)

Record CategoryReport : Type := {
  c_status : string;
  c_success_rate : string;
  c_passed : nat;
  c_failed : nat;
  c_tests : list TestResult
}.

(** The timestamp of the report is left out: it is read from the clock
    and nothing depends on it. *)
Record Report : Type := {
  project_id : string;
  overall_status : string;
  success_rate : string;
  total_tests : nat;
  passed_tests : nat;
  failed_tests : nat;
  categories : list (string * CategoryReport)
}.

Definition Q_of_nat (n : nat) : Q := inject_Z (Z.of_nat n).

(** [(passed / total * 100) if total > 0 else 0].  Python divides in
    double precision; the quotient is taken exactly here. *)
Definition rate (passed_ total : nat) : Q :=
  if (0 <? total)%nat then (Q_of_nat passed_ / Q_of_nat total * 100)%Q else 0%Q.

(** ['PASS' if success_rate >= 75 else 'FAIL'] *)
Definition status_of (r : Q) : string :=
  if Qle_bool 75%Q r then "PASS" else "FAIL".

Definition category_report (env : Env) (c : CategoryResult) : CategoryReport :=
  let category_total := passed c + failed c in
  let category_success := rate (passed c) category_total in
  {| c_status := status_of category_success;
     c_success_rate := format_1f env category_success ++ "%";
     c_passed := passed c;
     c_failed := failed c;
     c_tests := tests c |}.

Definition generate_validation_report (env : Env) (pid : string) (r : Results)
  : Report :=
  let total := overall_passed (overall r) + overall_failed (overall r) in
  let success := rate (overall_passed (overall r)) total in
  {| project_id := pid;
     overall_status := status_of success;
     success_rate := format_1f env success ++ "%";
     total_tests := total;
     passed_tests := overall_passed (overall r);
     failed_tests := overall_failed (overall r);
     categories :=
       [("structured_logging", category_report env (structured_logging r));
        ("log_metrics", category_report env (log_metrics r));
        ("dashboard", category_report env (dashboard r));
        ("budgets", category_report env (budgets r))] |}.

(** *** [run_validation] *)

Fixpoint str_mul (s : string) (n : nat) : string :=
  match n with
  | O => EmptyString
  | S k => s ++ str_mul s k
  end.

Definition print_category (entry : string * CategoryReport) : M unit :=
  let (category, data) := entry in
  let status_emoji := if c_status data =? "PASS" then "🟢" else "🔴" in
  let category_name := title (replace "_" " " category) in
  print (status_emoji ++ " " ++ category_name ++ ": " ++ c_success_rate data
         ++ " (" ++ str_nat (c_passed data) ++ "/"
         ++ str_nat (c_passed data + c_failed data) ++ ")").

(** The summary [run_validation] prints once it has the report. *)
Definition print_summary (report : Report) : M unit :=
  print (nl ++ str_mul "=" 60) ;;
  print "📋 VALIDATION SUMMARY" ;;
  print (str_mul "=" 60) ;;
  print ("Overall Status: "
         ++ (if overall_status report =? "PASS" then "🟢 PASS" else "🔴 FAIL")) ;;
  print ("Success Rate: " ++ success_rate report) ;;
  print ("Tests Passed: " ++ str_nat (passed_tests report) ++ "/"
         ++ str_nat (total_tests report)) ;;
  print EmptyString ;;
  for_each (categories report) print_category ;;
  print EmptyString ;;
  if overall_status report =? "PASS" then
    print "🎉 Monitoring pipeline validation successful!" ;;
    print "✅ Your DressUp AI monitoring system is ready for production."
  else
    print "⚠️  Monitoring pipeline needs attention." ;;
    print "📋 Review failed tests and ensure all components are properly deployed.".

Definition run_validation (env : Env) (pid : string) : M Report :=
  print "🔍 Starting DressUp AI Monitoring Validation" ;;
  print ("📍 Project: " ++ pid) ;;
  print (str_mul "=" 60) ;;
  test_structured_logging env ;;
  test_log_metrics env ;;
  test_dashboard env ;;
  test_budget_alerts env pid ;;
  test_end_to_end_flow ;;
  r <- get_results ;;
  let report := generate_validation_report env pid r in
  print_summary report ;;
  ret report.

(** *** [main] *)

(** The parsed command line. *)
Record Args : Type := {
  arg_project_id : string;
  arg_report_file : option string;
  arg_verbose : bool
}.

(** The body of the [try] statement of [main], up to [sys.exit]. *)
Definition validate_and_save (env : Env) (args : Args) : M Report :=
  lift (new_clients env) ;;
  report <- run_validation env (arg_project_id args) ;;
  match arg_report_file args with
  | Some path =>
      when (negb (path =? EmptyString))
        (api (OpenFile path) (write_report_file env path) ;;
         print (nl ++ "📄 Validation report saved to: " ++ path))
  | None => ret tt
  end ;;
  ret report.

(** [0 if report['overall_status'] == 'PASS' else 1] *)
Definition exit_status (report : Report) : Z :=
  if overall_status report =? "PASS" then 0%Z else 1%Z.

(** The process exit status, with the final state of the run.  The
    traceback of the verbose mode goes to standard error and is left
    out. *)
Definition main (env : Env) (args : Args) : Z * State :=
  match validate_and_save env args init_state with
  | (Ret report, s) => (exit_status report, s)
  | (Raise KeyboardInterrupt, s) =>
      (1%Z, snd (print (nl ++ "⚠️  Validation interrupted by user") s))
  | (Raise e, s) =>
      (1%Z, snd (print ("❌ Validation failed with error: " ++ str_exn e) s))
  end.

End Validate.

(** ** The metrics catalog, [log-metrics.yaml]

    A key the scripts read with [d[key]] or test with [key in d] is an
    [option]: [None] is an absent key. *)

Module Catalog.

Record DescriptorConfig : Type := {
  metricKind : option string;
  valueType : option string
}.

Record MetricConfig : Type := {
  name : option string;
  description : option string;
  filter : option string;
  valueExtractor : option string;
  labelExtractors : option (list (string * string));
  metricDescriptor : option DescriptorConfig
}.

Record Config : Type := {
  metrics : option (list MetricConfig);
  dashboardMetrics : option (list (string * list string))
}.

(** [config.get('metrics', [])] *)
Definition metrics_or_empty (c : Config) : list MetricConfig :=
  match metrics c with
  | Some l => l
  | None => []
  end.

End Catalog.

(** ** create-log-metrics.py *)

Module LogMetrics.
Import Py Catalog.

Inductive MetricKind : Type :=
| METRIC_KIND_UNSPECIFIED | DELTA | GAUGE | CUMULATIVE.

Inductive ValueType : Type :=
| VALUE_TYPE_UNSPECIFIED | INT64 | DOUBLE | DISTRIBUTION.

(** The request object [LogMetric]. *)
Record LogMetric : Type := {
  m_name : string;
  m_description : string;
  m_filter : string;
  value_extractor : string;
  label_extractors : list (string * string);
  metric_kind : MetricKind;
  value_type : ValueType
}.

(** [kind_map.get(s, GAUGE)] and [type_map.get(s, INT64)] *)
Definition kind_of (s : string) : MetricKind :=
  if s =? "GAUGE" then GAUGE
  else if s =? "DELTA" then DELTA
  else if s =? "CUMULATIVE" then CUMULATIVE
  else GAUGE.

Definition type_of (s : string) : ValueType :=
  if s =? "INT64" then INT64
  else if s =? "DOUBLE" then DOUBLE
  else if s =? "DISTRIBUTION" then DISTRIBUTION
  else INT64.

(** [d[key]] *)
Definition item (key : string) (v : option string) : outcome string :=
  match v with
  | Some x => Ret x
  | None => Raise (KeyError key)
  end.

(** The metric object built at the head of [create_log_metric]; a
    missing ['name'], ['description'] or ['filter'] raises [KeyError]. *)
Definition build_metric (mc : MetricConfig) : outcome LogMetric :=
  match item "name" (name mc) with
  | Raise e => Raise e
  | Ret n =>
  match item "description" (description mc) with
  | Raise e => Raise e
  | Ret d =>
  match item "filter" (filter mc) with
  | Raise e => Raise e
  | Ret f =>
      Ret {| m_name := n;
             m_description := d;
             m_filter := f;
             value_extractor :=
               match valueExtractor mc with Some v => v | None => EmptyString end;
             label_extractors :=
               match labelExtractors mc with Some l => l | None => [] end;
             metric_kind :=
               match metricDescriptor mc with
               | Some {| metricKind := Some k |} => kind_of k
               | _ => METRIC_KIND_UNSPECIFIED
               end;
             value_type :=
               match metricDescriptor mc with
               | Some {| valueType := Some t |} => type_of t
               | _ => VALUE_TYPE_UNSPECIFIED
               end |}
  end end end.

(** The calls issued to the logging endpoint. *)
Inductive ApiCall : Type :=
| CreateLogMetric (parent : string) (metric : LogMetric)
| UpdateLogMetric (metric_name : string) (metric : LogMetric).

(** How a run of [main] ends: [sys.exit], the end of the script (status
    0), or an exception nobody handles. *)
Inductive termination : Type :=
| Exit (code : Z)
| Uncaught (e : exn).

Section Client.

(** The client: a cloud state and the two calls, each answering or
    raising and leaving a new cloud state. *)
Variable Cloud : Type.
Variable create_log_metric_api :
  string -> LogMetric -> Cloud -> outcome LogMetric * Cloud.
Variable update_log_metric_api :
  string -> LogMetric -> Cloud -> outcome LogMetric * Cloud.

Record State : Type := {
  cloud : Cloud;
  stdout : list string;
  calls : list ApiCall
}.

Definition print (line : string) : M State unit :=
  fun s =>
    (Ret tt, {| cloud := cloud s;
                stdout := (stdout s ++ [line])%list;
                calls := calls s |}).

Definition client_create (parent : string) (metric : LogMetric)
  : M State LogMetric :=
  fun s =>
    let (answer, c) := create_log_metric_api parent metric (cloud s) in
    (answer, {| cloud := c;
                stdout := stdout s;
                calls := (calls s ++ [CreateLogMetric parent metric])%list |}).

Definition client_update (metric_name : string) (metric : LogMetric)
  : M State LogMetric :=
  fun s =>
    let (answer, c) := update_log_metric_api metric_name metric (cloud s) in
    (answer, {| cloud := c;
                stdout := stdout s;
                calls := (calls s ++ [UpdateLogMetric metric_name metric])%list |}).

(** ["already exists" in str(e).lower()] *)
Definition already_exists (e : exn) : bool :=
  contains "already exists" (lower (str_exn e)).

(** The value is the function's return value: [None] on the paths that
    print a failure and fall off the end. *)
Definition create_log_metric (project_id : string) (metric_config : MetricConfig)
  : M State (option LogMetric) :=
  metric <- lift (build_metric metric_config) ;;
  let project_name := "projects/" ++ project_id in
  try_except
    (result <- client_create project_name metric ;;
     print ("✅ Created metric: " ++ m_name metric) ;;
     ret (Some result))
    (fun e =>
       if already_exists e then
         print ("⚠️  Metric already exists: " ++ m_name metric) ;;
         try_except
           (let metric_name := project_name ++ "/metrics/" ++ m_name metric in
            result <- client_update metric_name metric ;;
            print ("📝 Updated metric: " ++ m_name metric) ;;
            ret (Some result))
           (fun update_e =>
              print ("❌ Failed to update metric " ++ m_name metric ++ ": "
                     ++ str_exn update_e) ;;
              ret None)
       else
         print ("❌ Failed to create metric " ++ m_name metric ++ ": " ++ str_exn e) ;;
         ret None).

(** The two counters of [main]. *)
Record Counts : Type := {
  successful_metrics : nat;
  failed_metrics : nat
}.

(** The body of the loop over the catalog. *)
Definition process_metric (project_id : string) (n : Counts)
    (metric_config : MetricConfig) : M State Counts :=
  try_except
    (create_log_metric project_id metric_config ;;
     ret {| successful_metrics := S (successful_metrics n);
            failed_metrics := failed_metrics n |})
    (fun e =>
       print ("❌ Failed to create metric "
              ++ (match name metric_config with Some x => x | None => "unknown" end)
              ++ ": " ++ str_exn e) ;;
       ret {| successful_metrics := successful_metrics n;
              failed_metrics := S (failed_metrics n) |}).

Fixpoint process_all (project_id : string) (n : Counts)
    (l : list MetricConfig) : M State Counts :=
  match l with
  | [] => ret n
  | metric_config :: rest =>
      n' <- process_metric project_id n metric_config ;;
      process_all project_id n' rest
  end.

Definition print_listing (metric_config : MetricConfig) : M State unit :=
  n <- lift (item "name" (name metric_config)) ;;
  d <- lift (item "description" (description metric_config)) ;;
  print ("   • " ++ n ++ ": " ++ d).

Definition print_dashboard_category (entry : string * list string)
  : M State unit :=
  let (category, metrics_) := entry in
  print ("   " ++ Py.title category ++ ":") ;;
  for_each metrics_ (fun metric => print ("     - " ++ metric)).

(** [main] from the creation loop on, with the counters it ends with. *)
Definition create_and_report (project_id : string) (config : Config)
  : M State Counts :=
  let metrics_config := metrics_or_empty config in
  print ("📊 Creating " ++ str_nat (length metrics_config)
         ++ " log-based metrics...") ;;
  print EmptyString ;;
  n <- process_all project_id
         {| successful_metrics := 0; failed_metrics := 0 |} metrics_config ;;
  print EmptyString ;;
  print "📈 Summary:" ;;
  print ("   ✅ Successfully created/updated: "
         ++ str_nat (successful_metrics n) ++ " metrics") ;;
  when (0 <? failed_metrics n)%nat
    (print ("   ❌ Failed: " ++ str_nat (failed_metrics n) ++ " metrics")) ;;
  print EmptyString ;;
  print "🔗 View metrics in Cloud Console:" ;;
  print ("   https://console.cloud.google.com/logs/metrics?project=" ++ project_id) ;;
  print EmptyString ;;
  print "📋 Created metrics for monitoring:" ;;
  for_each metrics_config print_listing ;;
  match dashboardMetrics config with
  | Some dashboard_metrics =>
      print EmptyString ;;
      print "📊 Dashboard metric categories:" ;;
      for_each dashboard_metrics print_dashboard_category
  | None => ret tt
  end ;;
  print EmptyString ;;
  print "🚀 Next steps:" ;;
  print "   1. Deploy Cloud Functions with structured logging" ;;
  print "   2. Generate some test traffic to populate metrics" ;;
  print "   3. Create monitoring dashboard" ;;
  print "   4. Set up alerting policies" ;;
  print "   5. Configure budget alerts for Vertex AI" ;;
  ret n.

Definition config_path : string := "log-metrics.yaml".

(** [main]: [argv] is [sys.argv], [load] what reading the catalog
    gives, [new_client] what building the client gives, [c0] the cloud
    the run starts on. *)
Definition main (argv : list string) (load : outcome Config)
    (new_client : outcome unit) (c0 : Cloud) : termination * State :=
  let s0 := {| cloud := c0; stdout := []; calls := [] |} in
  match argv with
  | [_; project_id] =>
      let (_, s1) :=
        (print "🔧 Setting up advanced log-based metrics for DressUp AI" ;;
         print ("📍 Project: " ++ project_id) ;;
         print ("📄 Config: " ++ config_path) ;;
         print EmptyString) s0 in
      match load with
      | Raise (FileNotFoundError _) =>
          (Exit 1,
           snd ((print ("❌ Configuration file not found: " ++ config_path) ;;
                 print "Make sure you're running this script from the monitoring directory.")
                  s1))
      | Raise (YAMLError m) =>
          (Exit 1,
           snd (print ("❌ Failed to parse YAML configuration: " ++ m) s1))
      | Raise e => (Uncaught e, s1)
      | Ret config =>
          match new_client with
          | Raise e =>
              if is_Exception e then
                (Exit 1,
                 snd ((print ("❌ Failed to initialize Google Cloud Logging client: "
                              ++ str_exn e) ;;
                       print "Make sure you have the google-cloud-logging package installed:" ;;
                       print "pip install google-cloud-logging") s1))
              else (Uncaught e, s1)
          | Ret _ =>
              match create_and_report project_id config s1 with
              | (Ret _, s2) => (Exit 0, s2)
              | (Raise e, s2) => (Uncaught e, s2)
              end
          end
      end
  | _ =>
      (Exit 1, snd (print "Usage: python3 create-log-metrics.py <project_id>" s0))
  end.

End Client.

Arguments cloud {Cloud} s.
Arguments stdout {Cloud} s.
Arguments calls {Cloud} s.
Arguments print {Cloud} line s.

End LogMetrics.

(** ** create-budget-alerts.py *)

Module Budgets.
Import Py.

Inductive Basis : Type :=
| BASIS_UNSPECIFIED | CURRENT_SPEND | FORECASTED_SPEND.

(** A threshold is kept as the decimal written in the source. *)
Record ThresholdRule : Type := {
  threshold_percent : Q;
  spend_basis : Basis
}.

Record Money : Type := {
  currency_code : string;
  units : Z
}.

Record Filter : Type := {
  projects : list string;
  services : list string
}.

Record AllUpdatesRule : Type := {
  monitoring_notification_channels : list string;
  disable_default_iam_recipients : bool
}.

Record Budget : Type := {
  display_name : string;
  budget_filter : Filter;
  amount : Money;
  threshold_rules : list ThresholdRule;
  all_updates_rule : AllUpdatesRule
}.

Definition default_services : list string :=
  ["services/aiplatform.googleapis.com";
   "services/cloudfunctions.googleapis.com";
   "services/storage.googleapis.com";
   "services/logging.googleapis.com";
   "services/monitoring.googleapis.com"].

Definition current_spend (p : Q) : ThresholdRule :=
  {| threshold_percent := p; spend_basis := CURRENT_SPEND |}.

(** The budget object [create_budget] builds before it submits it. *)
Definition build_budget (project_id : string) (budget_amount : Z)
    (display_name_ : string) (services_ : option (list string))
    (notification_channels : option (list string)) : Budget :=
  let services_ :=
    match services_ with
    | None => default_services
    | Some l => l
    end in
  let budget_filter_ :=
    {| projects := ["projects/" ++ project_id]; services := services_ |} in
  let amount_ := {| currency_code := "USD"; units := budget_amount |} in
  let threshold_rules_ :=
    [current_spend 0.5; current_spend 0.75; current_spend 0.9;
     current_spend 1.0; current_spend 1.1] in
  let all_updates_rule_ :=
    {| monitoring_notification_channels :=
         match notification_channels with
         | Some (c :: l) => c :: l
         | _ => []
         end;
       disable_default_iam_recipients := false |} in
  {| display_name := display_name_;
     budget_filter := budget_filter_;
     amount := amount_;
     threshold_rules := threshold_rules_;
     all_updates_rule := all_updates_rule_ |}.

Inductive ApiCall : Type :=
| CreateBudget (parent : string) (budget : Budget).

Section Client.

(** The budgets client: a cloud state and the create call, answering
    with the resource name of the new budget or raising. *)
Variable Cloud : Type.
Variable create_budget_api : string -> Budget -> Cloud -> outcome string * Cloud.

Record State : Type := {
  cloud : Cloud;
  stdout : list string;
  calls : list ApiCall
}.

Definition print (line : string) : M State unit :=
  fun s =>
    (Ret tt, {| cloud := cloud s;
                stdout := (stdout s ++ [line])%list;
                calls := calls s |}).

Definition client_create_budget (parent : string) (budget : Budget)
  : M State string :=
  fun s =>
    let (answer, c) := create_budget_api parent budget (cloud s) in
    (answer, {| cloud := c;
                stdout := stdout s;
                calls := (calls s ++ [CreateBudget parent budget])%list |}).

Definition create_budget (billing_account project_id : string)
    (budget_amount : Z) (display_name_ : string)
    (services_ : option (list string))
    (notification_channels : option (list string)) : M State string :=
  let budget :=
    build_budget project_id budget_amount display_name_ services_
      notification_channels in
  let parent := "billingAccounts/" ++ billing_account in
  try_except
    (client_create_budget parent budget)
    (fun e =>
       print ("❌ Failed to create budget '" ++ display_name_ ++ "': " ++ str_exn e) ;;
       raise e).

(** One of the three [try] blocks of [main]; [label] is the word its
    messages use for the budget. *)
Definition create_one (label : string) (billing_account project_id : string)
    (budget_amount : Z) (display_name_ : string)
    (services_ : option (list string)) (budgets_created : nat) : M State nat :=
  try_except
    (print ("🔧 Creating " ++ label ++ " budget ($" ++ str_Z budget_amount ++ ")...") ;;
     budget_name <- create_budget billing_account project_id budget_amount
                      display_name_ services_ None ;;
     print ("✅ Created " ++ label ++ " budget: " ++ rsplit_last "/"%char budget_name) ;;
     ret (S budgets_created))
    (fun e =>
       print ("❌ Failed to create " ++ label ++ " budget: " ++ str_exn e) ;;
       ret budgets_created).

(** The three budgets of [main], with the number created. *)
Definition create_budgets (billing_account project_id : string)
    (daily_budget monthly_budget : Z) : M State nat :=
  n1 <- create_one "daily" billing_account project_id daily_budget
          ("DressUp AI - Daily Budget ($" ++ str_Z daily_budget ++ ")") None 0 ;;
  n2 <- create_one "monthly" billing_account project_id monthly_budget
          ("DressUp AI - Monthly Budget ($" ++ str_Z monthly_budget ++ ")") None n1 ;;
  create_one "Vertex AI" billing_account project_id (monthly_budget / 2)
    ("DressUp AI - Vertex AI Budget ($" ++ str_Z (monthly_budget / 2) ++ ")")
    (Some ["services/aiplatform.googleapis.com"]) n2.

End Client.

Arguments cloud {Cloud} s.
Arguments stdout {Cloud} s.
Arguments calls {Cloud} s.
Arguments print {Cloud} line s.

End Budgets.

(** ** create-dashboard.py *)

Module DashboardConfig.
Import Py Catalog.

(** The dashboard layout, [dashboard-config.json].  Every key is read
    with [get] and a default, so every key is optional. *)
Record TimeSeriesFilter : Type := { ts_filter : option string }.

Record TimeSeriesQuery : Type := { timeSeriesFilter : option TimeSeriesFilter }.

Record DataSet : Type := { timeSeriesQuery : option TimeSeriesQuery }.

Record XyChart : Type := { dataSets : option (list DataSet) }.

Record Scorecard : Type := { sc_timeSeriesQuery : option TimeSeriesQuery }.

Record Widget : Type := {
  xyChart : option XyChart;
  scorecard : option Scorecard
}.

Record Tile : Type := { widget : option Widget }.

Record MosaicLayout : Type := { tiles : option (list Tile) }.

Record Config : Type := {
  displayName : option string;
  mosaicLayout : option MosaicLayout
}.

(** [q.get('timeSeriesFilter', {}).get('filter', '')] for
    [q = x.get('timeSeriesQuery', {})] *)
Definition filter_of (q : option TimeSeriesQuery) : string :=
  match q with
  | Some {| timeSeriesFilter := Some {| ts_filter := Some f |} |} => f
  | _ => EmptyString
  end.

Definition user_prefix : string := "logging.googleapis.com/user/".

(** The metric name a filter string refers to, by the convention
    [metric.type="logging.googleapis.com/user/<name>"]. *)
Definition referenced_metric (filter_str : string) : option string :=
  if contains "metric.type=" filter_str then
    match split_1 "metric.type=" filter_str with
    | Some rest =>
        let metric_part := strip (ascii_of_nat 34) (split_0 " " rest) in
        if startswith user_prefix metric_part
        then Some (replace user_prefix EmptyString metric_part)
        else None
    | None => None
    end
  else None.

(** The filter strings of one tile, in the order the loop reads them:
    the chart's data sets, then the scorecard. *)
Definition tile_filters (t : Tile) : list string :=
  let xy_data_sets :=
    match widget t with
    | Some {| xyChart := Some {| dataSets := Some l |} |} => l
    | _ => []
    end in
  let scorecard_query :=
    match widget t with
    | Some {| scorecard := Some sc |} => sc_timeSeriesQuery sc
    | _ => None
    end in
  (map (fun d => filter_of (timeSeriesQuery d)) xy_data_sets
   ++ [filter_of scorecard_query])%list.

Definition tiles_of (d : Config) : list Tile :=
  match mosaicLayout d with
  | Some {| tiles := Some l |} => l
  | _ => []
  end.

(** A Python set of strings, kept as a list without repetition in the
    order of first insertion.  Python iterates a set in an order of its
    own; nothing proved below depends on the order. *)
Definition str_set : Type := set string.

Definition set_add_str (x : string) (s : str_set) : str_set :=
  set_add string_dec x s.

(** [referenced_metrics] after the loop over the tiles. *)
Definition add_reference (acc : str_set) (filter_str : string) : str_set :=
  match referenced_metric filter_str with
  | Some metric_name => set_add_str metric_name acc
  | None => acc
  end.

Definition referenced_metrics (d : Config) : str_set :=
  fold_left add_reference (flat_map tile_filters (tiles_of d)) [].

(** [{metric['name'] for metric in metrics_config.get('metrics', [])}];
    an entry without a name raises [KeyError]. *)
Fixpoint defined_metrics_from (acc : str_set) (l : list MetricConfig)
  : outcome str_set :=
  match l with
  | [] => Ret acc
  | m :: rest =>
      match name m with
      | Some n => defined_metrics_from (set_add_str n acc) rest
      | None => Raise (KeyError "name")
      end
  end.

Definition defined_metrics (c : Catalog.Config) : outcome str_set :=
  defined_metrics_from [] (metrics_or_empty c).

Definition issue_of (metric : string) : string :=
  "Dashboard references undefined metric: " ++ metric.

Definition validate_metrics_references (dashboard_config : Config)
    (metrics_config : Catalog.Config) : outcome (list string) :=
  let referenced := referenced_metrics dashboard_config in
  match defined_metrics metrics_config with
  | Raise e => Raise e
  | Ret defined =>
      Ret (map issue_of (List.filter (fun m => negb (mem m defined)) referenced))
  end.

End DashboardConfig.

(** ** Vocabulary of the statements about the validator *)

Module ValidateSpec.
Import Py Validate.

Definition four_categories : list string :=
  ["structured_logging"; "log_metrics"; "dashboard"; "budgets"].

(** One call of [log_test_result], by its arguments. *)
Record Logged : Type := {
  l_category : string;
  l_name : string;
  l_passed : bool;
  l_details : string
}.

Definition log_call (c : Logged) : M unit :=
  log_test_result (l_category c) (l_name c) (l_passed c) (l_details c).

(** The state after a sequence of calls. *)
Definition after_calls (history : list Logged) (s : State) : State :=
  fold_left (fun st c => snd (log_call c st)) history s.

Definition entry_of (c : Logged) : TestResult :=
  {| t_name := l_name c; t_passed := l_passed c; t_details := l_details c |}.

(** [self.results[category]['tests']], empty where there is none. *)
Definition tests_of (category : string) (r : Results) : list TestResult :=
  match results_get category r with
  | Some (WithTests c) => tests c
  | _ => []
  end.

Definition counted (c : CategoryResult) : Prop :=
  passed c + failed c = length (tests c).

(** The counters agree with each other and with the test lists. *)
Definition consistent (r : Results) : Prop :=
  overall_passed (overall r)
  = passed (structured_logging r) + passed (log_metrics r)
    + passed (dashboard r) + passed (budgets r)
  /\ overall_failed (overall r)
     = failed (structured_logging r) + failed (log_metrics r)
       + failed (dashboard r) + failed (budgets r)
  /\ counted (structured_logging r) /\ counted (log_metrics r)
  /\ counted (dashboard r) /\ counted (budgets r).

(** How the report scores [p] passed and [f] failed tests: no test at
    all is a rate of zero and FAIL; otherwise PASS exactly from 75
    percent on. *)
Definition scored (env : Env) (p f : nat) (status rate_text : string) : Prop :=
  (p + f = 0 -> status = "FAIL" /\ rate_text = format_1f env 0%Q ++ "%")
  /\ (0 < p + f ->
      (status = "PASS" <-> (75 # 100 <= Q_of_nat p / Q_of_nat (p + f))%Q)
      /\ (status = "FAIL" <-> ~ (75 # 100 <= Q_of_nat p / Q_of_nat (p + f))%Q)).

Definition scored_category (env : Env) (c : CategoryResult) (cr : CategoryReport)
  : Prop :=
  scored env (passed c) (failed c) (c_status cr) (c_success_rate cr)
  /\ c_passed cr = passed c /\ c_failed cr = failed c /\ c_tests cr = tests c.

(** What one call does to the results. *)
Definition logged (category : string) (t : TestResult) (r : Results) : Results :=
  match results_get category r with
  | Some (WithTests c) =>
      if t_passed t
      then incr_overall_passed (results_set category (incr_passed (add_test t c)) r)
      else incr_overall_failed (results_set category (incr_failed (add_test t c)) r)
  | _ => r
  end.

(** Statements that only print: they complete and leave the results
    and the calls alone. *)
Definition prints_only (m : M unit) : Prop :=
  forall s, exists s',
    m s = (Ret tt, s') /\ results s' = results s /\ calls s' = calls s.

Definition state_of (r : Results) : State :=
  {| results := r; stdout := []; calls := [] |}.


(** [run_validation] from the report on. *)
Definition report_and_summary (env : Env) (pid : string) : M Report :=
  r <- get_results ;;
  let report := generate_validation_report env pid r in
  print_summary report ;;
  ret report.

Definition end_to_end_header : string :=
  nl ++ "🔄 Testing End-to-End Monitoring Flow...".


(** *** Sample projects *)

Definition sample_test (n : string) (p : bool) : TestResult :=
  {| t_name := n; t_passed := p; t_details := EmptyString |}.

(** Three categories with one passing test each and one category with
    two failing tests. *)
Definition three_of_four : Results :=
  {| structured_logging :=
       {| passed := 1; failed := 0; tests := [sample_test "a" true] |};
     log_metrics :=
       {| passed := 1; failed := 0; tests := [sample_test "b" true] |};
     dashboard :=
       {| passed := 1; failed := 0; tests := [sample_test "c" true] |};
     budgets :=
       {| passed := 0; failed := 2;
          tests := [sample_test "d" false; sample_test "e" false] |};
     overall := {| overall_passed := 3; overall_failed := 2 |} |}.

Definition sample_entry : LogEntry :=
  {| payload :=
       JDict [("structuredData",
               JDict [("eventType", JStr "generation");
                      ("timestamp", JStr "2025-01-01T00:00:00Z");
                      ("functionName", JStr "generate")])] |}.

Definition sample_dashboard : Dashboard :=
  {| display_name := "DressUp AI - Operations";
     mosaic_layout :=
       Some [ {| widget :=
                   {| xy_chart :=
                        Some ["metric.type=" ++ dq
                              ++ "logging.googleapis.com/user/error_rate" ++ dq];
                      scorecard := None |} |} ] |}.

Definition five_rules : list ThresholdRule :=
  [ {| threshold_percent := 0.5 |}; {| threshold_percent := 0.75 |};
    {| threshold_percent := 0.9 |}; {| threshold_percent := 1.0 |};
    {| threshold_percent := 1.1 |} ].

(** A project on which every check succeeds. *)
Definition healthy : Env :=
  {| new_clients := Ret tt;
     list_entries := Ret [sample_entry];
     load_metrics_yaml := Ret ["error_rate"; "feedback_ratings"];
     list_metric_descriptors :=
       Ret ["logging.googleapis.com/user/error_rate";
            "logging.googleapis.com/user/feedback_ratings";
            "compute.googleapis.com/instance/cpu/utilization"];
     list_time_series := fun _ => Ret [MkTimeSeries];
     list_dashboards := Ret [sample_dashboard];
     get_project_billing_info :=
       Ret {| billing_enabled := true;
              billing_account_name := "billingAccounts/0X0X0X-0X0X0X-0X0X0X" |};
     list_budgets := fun _ =>
       Ret [ {| budget_display_name := "DressUp AI - Daily Budget ($50)";
                threshold_rules := five_rules |} ];
     write_report_file := fun _ => Ret tt;
     repr_set := fun l => "{" ++ join ", " (map (fun x => "'" ++ x ++ "'") (nodup string_dec l)) ++ "}";
     format_1f := fun _ => "n/a" |}.

(** The same project when listing the metric descriptors fails. *)
Definition listing_fails : Env :=
  {| new_clients := new_clients healthy;
     list_entries := list_entries healthy;
     load_metrics_yaml := load_metrics_yaml healthy;
     list_metric_descriptors := Raise (ApiError "503 Service Unavailable");
     list_time_series := list_time_series healthy;
     list_dashboards := list_dashboards healthy;
     get_project_billing_info := get_project_billing_info healthy;
     list_budgets := list_budgets healthy;
     write_report_file := write_report_file healthy;
     repr_set := repr_set healthy;
     format_1f := format_1f healthy |}.



Definition sample_history : list Logged :=
  [ {| l_category := "structured_logging"; l_name := "Structured logs present";
       l_passed := true; l_details := "Found 3 structured log entries" |};
    {| l_category := "budgets"; l_name := "Billing enabled";
       l_passed := false; l_details := "Billing is not enabled for this project" |} ].

Definition sample_call : Logged :=
  {| l_category := "dashboard"; l_name := "Dashboard existence";
     l_passed := true; l_details := "Found 1 DressUp AI dashboard(s)" |}.

Definition sample_args : Args :=
  {| arg_project_id := "dressup-prod";
     arg_report_file := None;
     arg_verbose := false |}.

End ValidateSpec.

(** ** Vocabulary of the statements about the log-metric provisioner *)

Module LogMetricsSpec.
Import Py Catalog LogMetrics.

(** A catalog entry with the three required keys only. *)
Definition entry (n d f : string) : MetricConfig :=
  {| name := Some n; description := Some d; filter := Some f;
     valueExtractor := None; labelExtractors := None;
     metricDescriptor := None |}.

Definition catalog (l : list MetricConfig) : Config :=
  {| metrics := Some l; dashboardMetrics := None |}.

Definition parent_of (pid : string) : string := "projects/" ++ pid.

Definition metric_path (pid : string) (metric : LogMetric) : string :=
  parent_of pid ++ "/metrics/" ++ m_name metric.

(** The lines the provisioner prints about one metric. *)
Definition created_line (metric : LogMetric) : string :=
  "✅ Created metric: " ++ m_name metric.

Definition exists_line (metric : LogMetric) : string :=
  "⚠️  Metric already exists: " ++ m_name metric.

Definition updated_line (metric : LogMetric) : string :=
  "📝 Updated metric: " ++ m_name metric.

Definition update_failed_line (metric : LogMetric) (e : exn) : string :=
  "❌ Failed to update metric " ++ m_name metric ++ ": " ++ str_exn e.

Definition create_failed_line (metric : LogMetric) (e : exn) : string :=
  "❌ Failed to create metric " ++ m_name metric ++ ": " ++ str_exn e.

Definition listing_line (metric : LogMetric) : string :=
  "   • " ++ m_name metric ++ ": " ++ m_description metric.

Definition counts (ok ko : nat) : Counts :=
  {| successful_metrics := ok; failed_metrics := ko |}.

(** What [main] prints for the dashboard categories of the catalog. *)
Definition category_lines (entry : string * list string) : list string :=
  ("   " ++ title (fst entry) ++ ":")
  :: map (fun metric => "     - " ++ metric) (snd entry).

Definition dashboard_lines (dm : option (list (string * list string)))
  : list string :=
  match dm with
  | Some l => EmptyString :: "📊 Dashboard metric categories:"
              :: flat_map category_lines l
  | None => []
  end.

Definition next_steps : list string :=
  [EmptyString; "🚀 Next steps:";
   "   1. Deploy Cloud Functions with structured logging";
   "   2. Generate some test traffic to populate metrics";
   "   3. Create monitoring dashboard";
   "   4. Set up alerting policies";
   "   5. Configure budget alerts for Vertex AI"].

(** Everything the creation part of [main] prints when the first of two
    metrics is created and the second one is found and updated. *)
Definition created_and_updated_lines (pid : string) (a b : LogMetric)
    (dm : option (list (string * list string))) : list string :=
  ["📊 Creating 2 log-based metrics..."; EmptyString;
   created_line a;
   exists_line b;
   updated_line b;
   EmptyString;
   "📈 Summary:";
   "   ✅ Successfully created/updated: 2 metrics";
   EmptyString;
   "🔗 View metrics in Cloud Console:";
   "   https://console.cloud.google.com/logs/metrics?project=" ++ pid;
   EmptyString;
   "📋 Created metrics for monitoring:";
   listing_line a;
   listing_line b]
  ++ dashboard_lines dm ++ next_steps.

(** Statements that only print: they complete, having appended
    [lines] to the standard output and nothing else. *)
Definition appends (Cloud : Type) (m : M (State Cloud) unit)
    (lines : list string) : Prop :=
  forall s,
    m s = (Ret tt, {| cloud := cloud s; stdout := (stdout s ++ lines)%list;
                      calls := calls s |}).

(** *** A logging endpoint that remembers the metric names it holds *)

Definition Names : Type := list string.

Definition names_create (parent : string) (metric : LogMetric) (c : Names)
  : outcome LogMetric * Names :=
  if mem (m_name metric) c
  then (Raise (ApiError ("409 Resource Already Exists: " ++ parent ++ "/metrics/"
                         ++ m_name metric)), c)
  else (Ret metric, m_name metric :: c).

Definition names_update (metric_name : string) (metric : LogMetric) (c : Names)
  : outcome LogMetric * Names :=
  (Ret metric, c).

(** *** Endpoints that refuse *)

Definition denied_create (parent : string) (metric : LogMetric) (c : unit)
  : outcome LogMetric * unit :=
  (Raise (ApiError "403 Permission denied on resource project"), c).

Definition conflict_create (parent : string) (metric : LogMetric) (c : unit)
  : outcome LogMetric * unit :=
  (Raise (ApiError "409 Metric already exists"), c).

Definition failing_update (metric_name : string) (metric : LogMetric) (c : unit)
  : outcome LogMetric * unit :=
  (Raise (ApiError "500 Internal error"), c).

Definition entry_a : MetricConfig :=
  entry "session_creation_rate" "Sessions created" "jsonPayload.eventType=session".

Definition entry_b : MetricConfig :=
  entry "error_rate" "Errors logged" "severity>=ERROR".

Definition no_counts : Counts :=
  {| successful_metrics := 0; failed_metrics := 0 |}.

(** The state [main] starts the creation part in, on the cloud [c]. *)
Definition start {Cloud : Type} (c : Cloud) : State Cloud :=
  {| cloud := c; stdout := []; calls := [] |}.

Definition metric_a : LogMetric :=
  {| m_name := "session_creation_rate";
     m_description := "Sessions created";
     m_filter := "jsonPayload.eventType=session";
     value_extractor := EmptyString;
     label_extractors := [];
     metric_kind := METRIC_KIND_UNSPECIFIED;
     value_type := VALUE_TYPE_UNSPECIFIED |}.

Definition metric_b : LogMetric :=
  {| m_name := "error_rate";
     m_description := "Errors logged";
     m_filter := "severity>=ERROR";
     value_extractor := EmptyString;
     label_extractors := [];
     metric_kind := METRIC_KIND_UNSPECIFIED;
     value_type := VALUE_TYPE_UNSPECIFIED |}.

End LogMetricsSpec.

(** ** Vocabulary of the statements about the budget provisioner *)

Module BudgetsSpec.
Import Py Budgets.

Definition five_percentages : list Q := [0.5; 0.75; 0.9; 1.0; 1.1]%Q.

(** Exactly the five thresholds, in order, each on current spend. *)
Definition has_five_rules (b : Budget) : Prop :=
  length (threshold_rules b) = 5
  /\ map threshold_percent (threshold_rules b) = five_percentages
  /\ Forall (fun r => spend_basis r = CURRENT_SPEND) (threshold_rules b).

Definition submits_five (c : ApiCall) : Prop :=
  match c with
  | CreateBudget _ b => has_five_rules b
  end.

(** A statement all of whose calls submit budgets of five rules. *)
Definition calls_submit_five {Cloud A : Type} (m : M (State Cloud) A) : Prop :=
  forall s, exists new,
    calls (snd (m s)) = (calls s ++ new)%list /\ Forall submits_five new.

End BudgetsSpec.

(** ** Vocabulary of the statements about the dashboard provisioner *)

Module DashboardSpec.
Import Py Catalog DashboardConfig.




(** *** A sample layout and catalog *)

Definition user_filter (m : string) : string :=
  "metric.type=" ++ dq ++ "logging.googleapis.com/user/" ++ m ++ dq
  ++ " resource.type=" ++ dq ++ "cloud_function" ++ dq.

Definition query (f : string) : option TimeSeriesQuery :=
  Some {| timeSeriesFilter := Some {| ts_filter := Some f |} |}.

Definition chart_tile (filters : list string) : Tile :=
  {| widget :=
       Some {| xyChart :=
                 Some {| dataSets :=
                           Some (map (fun f => {| timeSeriesQuery := query f |})
                                   filters) |};
               scorecard := None |} |}.

Definition scorecard_tile (f : string) : Tile :=
  {| widget :=
       Some {| xyChart := None;
               scorecard := Some {| sc_timeSeriesQuery := query f |} |} |}.

(** Two widgets refer to [latency_p99], which the catalog lacks. *)
Definition sample_layout : Config :=
  {| displayName := Some "DressUp AI - Operations";
     mosaicLayout :=
       Some {| tiles :=
                 Some [chart_tile [user_filter "error_rate";
                                   user_filter "latency_p99"];
                       scorecard_tile (user_filter "latency_p99");
                       scorecard_tile (user_filter "feedback_ratings")] |} |}.

Definition named (n : string) : MetricConfig :=
  {| name := Some n; description := Some "d"; filter := Some "f";
     valueExtractor := None; labelExtractors := None;
     metricDescriptor := None |}.

Definition sample_catalog : Catalog.Config :=
  {| metrics := Some [named "error_rate"; named "feedback_ratings"];
     dashboardMetrics := None |}.

End DashboardSpec.

(** ** Vocabulary of the statements about a whole validation run *)

Module RunSpec.
Import Py Validate ValidateSpec.

(** Every run of the statement [m] relates the results it starts from
    to the results it leaves, whether it returns or raises. *)
Definition steps (R : Results -> Results -> Prop) {A : Type} (m : M A) : Prop :=
  forall s, R (results s) (results (snd (m s))).

Definition keeps_consistent (r r' : Results) : Prop :=
  consistent r -> consistent r'.

(** The entries of the categories other than [c] are the same. *)
Definition same_except (c : string) (r r' : Results) : Prop :=
  forall other, In other four_categories -> other <> c ->
    results_get other r' = results_get other r.

(** No error of class [Exception] leaves the statement: it returns, or
    an interrupt passes through. *)
Definition contained (m : M unit) : Prop :=
  forall s, fst (m s) = Ret tt \/ fst (m s) = Raise KeyboardInterrupt.

(** The tests of the budget category when billing is enabled and the
    budgets can be listed. *)
Definition dressup_budgets_of (budget_list : list Budget) : list Budget :=
  List.filter (fun b => contains app_name (budget_display_name b)) budget_list.

Definition threshold_check (b : Budget) : Logged :=
  {| l_category := "budgets";
     l_name := "Budget threshold configuration - " ++ budget_display_name b;
     l_passed := (4 <=? length (threshold_rules b))%nat;
     l_details := "Has " ++ str_nat (length (threshold_rules b)) ++ " threshold rules" |}.

Definition budget_checks (budget_list : list Budget) : list Logged :=
  [ {| l_category := "budgets"; l_name := "Billing enabled"; l_passed := true;
       l_details := "Project has billing enabled" |};
    {| l_category := "budgets"; l_name := "Budget alerts existence";
       l_passed := (0 <? length (dressup_budgets_of budget_list))%nat;
       l_details := "Found " ++ str_nat (length (dressup_budgets_of budget_list))
                    ++ " DressUp AI budget(s)" |} ]
  ++ map threshold_check (dressup_budgets_of budget_list).




(** The results after the calls [h] of [log_test_result], in order. *)
Definition logged_all (h : list Logged) (r : Results) : Results :=
  fold_left (fun acc c => logged (l_category c) (entry_of c) acc) h r.

(** The statement [m] returns [a], having changed the results by [f]
    and issued the calls [cs], from every state. *)
Definition runs {A : Type} (m : M A) (a : A) (f : Results -> Results)
    (cs : list ApiCall) : Prop :=
  forall s, exists s',
    m s = (Ret a, s')
    /\ results s' = f (results s)
    /\ calls s' = (calls s ++ cs)%list.

(** The statement [m] raises [e], having changed the results by [f]
    and issued the calls [cs], from every state. *)
Definition fails {A : Type} (m : M A) (e : exn) (f : Results -> Results)
    (cs : list ApiCall) : Prop :=
  forall s, exists s',
    m s = (Raise e, s')
    /\ results s' = f (results s)
    /\ calls s' = (calls s ++ cs)%list.

Definition unchanged (r : Results) : Results := r.

(** One recorded test, as [log_test_result] is called for it. *)
Definition check (category n : string) (p : bool) (d : string) : Logged :=
  {| l_category := category; l_name := n; l_passed := p; l_details := d |}.

(** The single test recorded when the billing lookup fails. *)
Definition billing_access_check (e : exn) : Logged :=
  check "budgets" "Billing API access" false
    ("Error accessing billing API: " ++ str_exn e).

(** The tests recorded when billing is enabled and listing the budgets
    fails. *)
Definition budget_access_checks (e : exn) : list Logged :=
  [check "budgets" "Billing enabled" true "Project has billing enabled";
   check "budgets" "Budget alerts access" false
     ("Error accessing budgets: " ++ str_exn e)].

(** The expected metric names a run works with: the catalog's, or the
    default list when the file does not exist; none when reading the
    file raises anything else. *)
Definition expected_metrics_of (env : Env) : option (list string) :=
  match load_metrics_yaml env with
  | Ret names => Some names
  | Raise e => if is_FileNotFoundError e then Some default_metrics else None
  end.





Definition metrics_access_check (e : exn) : Logged :=
  check "log_metrics" "Log metrics access" false
    ("Error accessing metrics: " ++ str_exn e).


(** The same project with another answer of one collaborator. *)
Definition with_billing (o : outcome ProjectBilling) (env : Env) : Env :=
  {| new_clients := new_clients env;
     list_entries := list_entries env;
     load_metrics_yaml := load_metrics_yaml env;
     list_metric_descriptors := list_metric_descriptors env;
     list_time_series := list_time_series env;
     list_dashboards := list_dashboards env;
     get_project_billing_info := o;
     list_budgets := list_budgets env;
     write_report_file := write_report_file env;
     repr_set := repr_set env;
     format_1f := format_1f env |}.

Definition with_budgets (o : outcome (list Budget)) (env : Env) : Env :=
  {| new_clients := new_clients env;
     list_entries := list_entries env;
     load_metrics_yaml := load_metrics_yaml env;
     list_metric_descriptors := list_metric_descriptors env;
     list_time_series := list_time_series env;
     list_dashboards := list_dashboards env;
     get_project_billing_info := get_project_billing_info env;
     list_budgets := fun _ => o;
     write_report_file := write_report_file env;
     repr_set := repr_set env;
     format_1f := format_1f env |}.

Definition with_catalog (o : outcome (list string)) (env : Env) : Env :=
  {| new_clients := new_clients env;
     list_entries := list_entries env;
     load_metrics_yaml := o;
     list_metric_descriptors := list_metric_descriptors env;
     list_time_series := list_time_series env;
     list_dashboards := list_dashboards env;
     get_project_billing_info := get_project_billing_info env;
     list_budgets := list_budgets env;
     write_report_file := write_report_file env;
     repr_set := repr_set env;
     format_1f := format_1f env |}.

Definition sample_billing : ProjectBilling :=
  {| billing_enabled := true;
     billing_account_name := "billingAccounts/0X0X0X-0X0X0X-0X0X0X" |}.

Definition sample_budgets : list Budget :=
  [ {| budget_display_name := "DressUp AI - Daily Budget ($50)";
       threshold_rules := five_rules |} ].

Definition quota_error : exn := ApiError "429 Quota exceeded".

(** The dashboards whose display name holds the application's name. *)
Definition dressup_dashboards_of (dashboards : list Dashboard) : list Dashboard :=
  List.filter (fun d => contains app_name (display_name d)) dashboards.

(** The tests of the dashboard group once the dashboards are listed:
    existence, then two tests about the layout of the first matching
    dashboard, or one failed test when it has no layout. *)
Definition dashboard_checks (env : Env) (dashboards : list Dashboard)
  : list Logged :=
  check "dashboard" "Dashboard existence"
    (0 <? length (dressup_dashboards_of dashboards))%nat
    ("Found " ++ str_nat (length (dressup_dashboards_of dashboards))
     ++ " DressUp AI dashboard(s)")
  :: match dressup_dashboards_of dashboards with
     | [] => []
     | first :: _ =>
         match mosaic_layout first with
         | Some tiles =>
             [check "dashboard" "Dashboard widget configuration"
                (0 <? length (flat_map widget_types_of tiles))%nat
                ("Found " ++ str_nat (length (flat_map widget_types_of tiles))
                 ++ " widgets: " ++ repr_set env (flat_map widget_types_of tiles));
              check "dashboard" "Dashboard metric references"
                (0 <? length (flat_map metric_references_of tiles))%nat
                ("Found " ++ str_nat (length (flat_map metric_references_of tiles))
                 ++ " metric references")]
         | None =>
             [check "dashboard" "Dashboard layout validation" false
                "Dashboard has no mosaic layout"]
         end
     end.

Definition has_key (d : list (string * Json)) (k : string) : bool :=
  match dict_get k d with
  | Some _ => true
  | None => false
  end.

(** The test about the structure of a log entry whose structured data
    is the object [d]. *)
Definition structure_check (d : list (string * Json)) : Logged :=
  match List.filter (fun f => negb (has_key d f)) required_fields with
  | [] =>
      check "structured_logging" "Log structure validation" true
        ("All required fields present: " ++ repr_list required_fields)
  | missing =>
      check "structured_logging" "Log structure validation" false
        ("Missing fields: " ++ repr_list missing)
  end.

Definition present_check (n : nat) : Logged :=
  check "structured_logging" "Structured logs present" true
    ("Found " ++ str_nat n ++ " structured log entries").

End RunSpec.

(** ** Vocabulary of the statements about a whole batch of metrics *)

Module BatchSpec.
Import Py Catalog LogMetrics LogMetricsSpec.

(** The entry lacks one of the keys [create_log_metric] reads with
    [metric_config[key]]. *)
Definition malformed (mc : MetricConfig) : bool :=
  match build_metric mc with
  | Raise _ => true
  | Ret _ => false
  end.

Definition well_formed (mc : MetricConfig) : bool := negb (malformed mc).

(** The entry has the two keys the final listing prints. *)
Definition listable (mc : MetricConfig) : bool :=
  match name mc, description mc with
  | Some _, Some _ => true
  | _, _ => false
  end.

Definition required_keys : list string := ["name"; "description"; "filter"].

(** [metric_config.get('name', 'unknown')] *)
Definition name_or_unknown (mc : MetricConfig) : string :=
  match name mc with
  | Some n => n
  | None => "unknown"
  end.

Definition rejected_line (mc : MetricConfig) (e : exn) : string :=
  "❌ Failed to create metric " ++ name_or_unknown mc ++ ": " ++ str_exn e.

(** The endpoint call never lets an interrupt through. *)
Definition never_interrupts {Cloud : Type}
    (call : string -> LogMetric -> Cloud -> outcome LogMetric * Cloud) : Prop :=
  forall a m c, fst (call a m c) <> Raise KeyboardInterrupt.

Definition summary_line (n : nat) : string :=
  "   ✅ Successfully created/updated: " ++ str_nat n ++ " metrics".

(** An entry with a name and a description but no filter. *)
Definition entry_without_filter : MetricConfig :=
  {| name := Some "cleanup_efficiency"; description := Some "Files cleaned";
     filter := None; valueExtractor := None; labelExtractors := None;
     metricDescriptor := None |}.

Definition nameless_entry : MetricConfig :=
  {| name := None; description := Some "No name"; filter := Some "severity>=ERROR";
     valueExtractor := None; labelExtractors := None;
     metricDescriptor := None |}.

(** What the final listing prints for a listable entry. *)
Definition listing_of (mc : MetricConfig) : string :=
  "   • " ++ match name mc with Some n => n | None => EmptyString end
  ++ ": " ++ match description mc with Some d => d | None => EmptyString end.

(** The first key the final listing misses, if any. *)
Fixpoint first_unlistable (l : list MetricConfig) : option string :=
  match l with
  | [] => None
  | mc :: rest =>
      match name mc, description mc with
      | None, _ => Some "name"
      | Some _, None => Some "description"
      | Some _, Some _ => first_unlistable rest
      end
  end.

End BatchSpec.

(** ** create-budget-alerts.py: the billing lookup and [main] *)

Module BudgetsMain.
Import Py Budgets.

(** What [get_project_billing_info] answers. *)
Record ProjectBillingInfo : Type := {
  billing_enabled : bool;
  billing_account_name : string
}.

(** The parsed command line; the two amounts have defaults 50 and
    1500. *)
Record Args : Type := {
  project_id : string;
  daily_budget : Z;
  monthly_budget : Z;
  email : option string
}.

(** [create_notification_channel]: the instructions it returns. *)
Definition create_notification_channel (email_ : string) : string :=
  nl ++ "To create an email notification channel manually:" ++ nl
  ++ nl
  ++ "1. Go to Cloud Console Monitoring" ++ nl
  ++ "2. Navigate to Alerting > Notification Channels" ++ nl
  ++ "3. Click " ++ dq ++ "ADD NEW" ++ dq ++ " and select " ++ dq ++ "Email" ++ dq ++ nl
  ++ "4. Enter email: " ++ email_ ++ nl
  ++ "5. Copy the channel ID and use it when creating budgets" ++ nl.

Section Client.

Variable Cloud : Type.
Variable create_budget_api : string -> Budget -> Cloud -> outcome string * Cloud.

(** What building the billing client and looking the project up gives,
    and what building the budgets client gives. *)
Variable billing_lookup : outcome ProjectBillingInfo.
Variable new_client : outcome unit.

(** [get_billing_account_id].  The plain [Exception] it raises when
    billing is disabled is an error of class [Exception] with that
    message. *)
Definition get_billing_account_id (project_id_ : string)
  : M (State Cloud) string :=
  try_except
    (project_billing <- lift billing_lookup ;;
     if negb (billing_enabled project_billing) then
       raise (ApiError ("Billing is not enabled for project " ++ project_id_))
     else
       ret (rsplit_last "/"%char (billing_account_name project_billing)))
    (fun e =>
       print ("❌ Failed to get billing account: " ++ str_exn e) ;;
       raise e).

(** The closing advice of [main], printed when a budget was created. *)
Definition advice (project_id_ : string) : list string :=
  ["💡 Budget Alert Configuration:";
   "   • Threshold alerts at: 50%, 75%, 90%, 100%, 110%";
   "   • Based on current spend (not forecasted)";
   "   • Notifications sent to project billing administrators";
   EmptyString;
   "🎯 Services Monitored:";
   "   • Vertex AI (primary cost driver)";
   "   • Cloud Functions (execution and storage)";
   "   • Cloud Storage (file storage)";
   "   • Cloud Logging (log ingestion and storage)";
   "   • Cloud Monitoring (metrics and dashboards)";
   EmptyString;
   "📈 Cost Optimization Recommendations:";
   "   • Monitor Vertex AI token usage and optimize prompts";
   "   • Implement response caching for repeated requests";
   "   • Set Cloud Function memory and timeout limits";
   "   • Use lifecycle policies for Cloud Storage cleanup";
   "   • Monitor log retention and sampling policies";
   EmptyString;
   "🔗 View and Manage Budgets:";
   "   https://console.cloud.google.com/billing/budgets?project=" ++ project_id_;
   EmptyString;
   "🚀 Next Steps:";
   "   1. Deploy monitoring infrastructure";
   "   2. Generate test traffic to validate costs";
   "   3. Monitor daily spend against budgets";
   "   4. Set up cost anomaly detection alerts";
   "   5. Create automated scaling policies"].

(** [if args.email:] *)
Definition email_given (args : Args) : option string :=
  match email args with
  | Some e => if e =? EmptyString then None else Some e
  | None => None
  end.

Definition print_header (args : Args) : M (State Cloud) unit :=
  print "💰 Creating advanced budget alerts for DressUp AI" ;;
  print ("📍 Project: " ++ project_id args) ;;
  print ("💵 Daily Budget: $" ++ str_Z (daily_budget args)) ;;
  print ("💵 Monthly Budget: $" ++ str_Z (monthly_budget args)) ;;
  match email_given args with
  | Some e => print ("📧 Email Notifications: " ++ e)
  | None => ret tt
  end ;;
  print EmptyString ;;
  print "🔍 Getting billing account information...".

(** [main] from the creation of the budgets on. *)
Definition create_and_summarize (args : Args) (billing_account : string)
  : M (State Cloud) nat :=
  print EmptyString ;;
  budgets_created <- create_budgets Cloud create_budget_api billing_account
                       (project_id args) (daily_budget args) (monthly_budget args) ;;
  print EmptyString ;;
  print "📊 Budget Creation Summary:" ;;
  print ("   ✅ Successfully created: " ++ str_nat budgets_created ++ " budgets") ;;
  print EmptyString ;;
  when (0 <? budgets_created)%nat
    (for_each (advice (project_id args)) print) ;;
  match email_given args with
  | Some e =>
      print EmptyString ;;
      print "📧 Email Notification Setup:" ;;
      print (create_notification_channel e)
  | None => ret tt
  end ;;
  ret budgets_created.

(** [main], with the state it ends in, from the cloud [c0]. *)
Definition main (args : Args) (c0 : Cloud) : LogMetrics.termination * State Cloud :=
  let s0 := {| cloud := c0; stdout := []; calls := [] |} in
  let s1 := snd (print_header args s0) in
  match get_billing_account_id (project_id args) s1 with
  | (Raise e, s2) =>
      if is_Exception e then
        (LogMetrics.Exit 1,
         snd (print ("❌ Failed to get billing account: " ++ str_exn e) s2))
      else (LogMetrics.Uncaught e, s2)
  | (Ret billing_account, s2) =>
      let s3 := snd (print ("✅ Found billing account: " ++ billing_account) s2) in
      match new_client with
      | Raise e =>
          if is_Exception e then
            (LogMetrics.Exit 1,
             snd (print ("❌ Failed to initialize client: " ++ str_exn e) s3))
          else (LogMetrics.Uncaught e, s3)
      | Ret _ =>
          let s4 := snd (print "✅ Connected to Billing Budgets API" s3) in
          match create_and_summarize args billing_account s4 with
          | (Ret _, s5) => (LogMetrics.Exit 0, s5)
          | (Raise e, s5) => (LogMetrics.Uncaught e, s5)
          end
      end
  end.

End Client.

(** *** Vocabulary of the statements about the budgets of [main] *)

Fixpoint has_char (c : ascii) (s : string) : bool :=
  match s with
  | EmptyString => false
  | String a s' => Ascii.eqb a c || has_char c s'
  end.

Definition answered {A : Type} (o : outcome A) : nat :=
  match o with
  | Ret _ => 1
  | Raise _ => 0
  end.

(** The endpoint never lets an interrupt through. *)
Definition never_interrupts {Cloud : Type}
    (call : string -> Budget -> Cloud -> outcome string * Cloud) : Prop :=
  forall a b c, fst (call a b c) <> Raise KeyboardInterrupt.

Definition daily_of (pid : string) (daily : Z) : Budget :=
  build_budget pid daily
    ("DressUp AI - Daily Budget ($" ++ str_Z daily ++ ")") None None.

Definition monthly_of (pid : string) (monthly : Z) : Budget :=
  build_budget pid monthly
    ("DressUp AI - Monthly Budget ($" ++ str_Z monthly ++ ")") None None.

Definition vertex_of (pid : string) (monthly : Z) : Budget :=
  build_budget pid (monthly / 2)
    ("DressUp AI - Vertex AI Budget ($" ++ str_Z (monthly / 2) ++ ")")
    (Some ["services/aiplatform.googleapis.com"]) None.

(** Endpoints for the examples: one that numbers the budgets it
    accepts, one that refuses display names it has already seen. *)
Definition numbering (parent : string) (b : Budget) (n : nat) : outcome string * nat :=
  (Ret (parent ++ "/budgets/" ++ str_nat n), S n).

Definition refusing (parent : string) (b : Budget) (c : unit) : outcome string * unit :=
  (Raise (ApiError "409 Budget with this display name already exists"), c).

(** The statement returns from every state. *)
Definition completes {S A : Type} (m : M S A) : Prop :=
  forall s, exists a s', m s = (Ret a, s').

Definition parent_of (billing_account : string) : string :=
  "billingAccounts/" ++ billing_account.

Definition failure_line (e : exn) : string :=
  "❌ Failed to get billing account: " ++ str_exn e.

Definition sample_args : Args :=
  {| project_id := "dressup-prod"; daily_budget := 50; monthly_budget := 1501;
     email := None |}.

Definition sample_lookup : outcome ProjectBillingInfo :=
  Ret {| billing_enabled := true;
         billing_account_name := "billingAccounts/0X0X0X-0X0X0X-0X0X0X" |}.

Definition disabled_lookup : outcome ProjectBillingInfo :=
  Ret {| billing_enabled := false; billing_account_name := EmptyString |}.

End BudgetsMain.

(** ** Vocabulary of the statements about the extraction of metric names *)

Module ExtractSpec.
Import Py Catalog DashboardConfig.

(** A filter written by the convention: the metric type first, then
    the rest of the filter, [tail]. *)
Definition conventional_filter (m tail : string) : string :=
  "metric.type=" ++ dq ++ user_prefix ++ m ++ dq ++ tail.

(** The rest of a filter: nothing, or a space and more text. *)
Definition separated (tail : string) : Prop :=
  tail = EmptyString \/ exists t, tail = " " ++ t.

(** A metric name the extraction returns as it is. *)
Definition plain_name (m : string) : Prop :=
  BudgetsMain.has_char " " m = false
  /\ BudgetsMain.has_char (ascii_of_nat 34) m = false
  /\ contains user_prefix m = false
  /\ contains "metric.type=" m = false.

End ExtractSpec.

(** ** create-dashboard.py: [create_dashboard] and [main] *)

Module DashboardMain.
Import Py Catalog DashboardConfig.

(** The parsed [dashboard-config.json]: the keys the validation reads
    and the optional filters, which the tool hands on as they are. *)
Record DashboardFile : Type := {
  config : DashboardConfig.Config;
  dashboardFilters : option Validate.Json
}.

(** The request object [Dashboard]; [d_name] is the resource name, set
    by the service. *)
Record Dashboard : Type := {
  d_name : string;
  display_name : string;
  mosaic_layout : MosaicLayout;
  dashboard_filters : option Validate.Json
}.

(** The object built at the head of [create_dashboard]; a missing
    ['displayName'] or ['mosaicLayout'] raises [KeyError]. *)
Definition build_dashboard (dashboard_config : DashboardFile) : outcome Dashboard :=
  match displayName (config dashboard_config) with
  | None => Raise (KeyError "displayName")
  | Some n =>
      match mosaicLayout (config dashboard_config) with
      | None => Raise (KeyError "mosaicLayout")
      | Some l =>
          Ret {| d_name := EmptyString;
                 display_name := n;
                 mosaic_layout := l;
                 dashboard_filters := dashboardFilters dashboard_config |}
      end
  end.

(** What reading a JSON file gives: the value, a [json.JSONDecodeError]
    or another exception. *)
Inductive json_load (A : Type) : Type :=
| JsonLoaded (a : A)
| JSONDecodeError (msg : string)
| JsonRaise (e : exn).

Arguments JsonLoaded {A} a.
Arguments JSONDecodeError {A} msg.
Arguments JsonRaise {A} e.

(** The call issued to the dashboards endpoint. *)
Inductive ApiCall : Type :=
| CreateDashboard (parent : string) (dashboard : Dashboard).

(** [if metrics_config.get('metrics'):] *)
Definition has_metrics (metrics_config : Catalog.Config) : bool :=
  match metrics metrics_config with
  | Some (_ :: _) => true
  | _ => false
  end.

(** [sum(1 for tile in tiles if key in tile.get('widget', {}))] *)
Definition count_widgets (has_key : Widget -> bool) (l : list Tile) : nat :=
  length (List.filter
            (fun t => match widget t with
                      | Some w => has_key w
                      | None => false
                      end) l).

Definition has_xyChart (w : Widget) : bool :=
  match xyChart w with Some _ => true | None => false end.

Definition has_scorecard (w : Widget) : bool :=
  match scorecard w with Some _ => true | None => false end.

Definition dashboard_config_path : string := "dashboard-config.json".
Definition metrics_config_path : string := "log-metrics.yaml".

Section Client.

Variable Cloud : Type.
Variable create_dashboard_api :
  string -> Dashboard -> Cloud -> outcome Dashboard * Cloud.

Record State : Type := {
  cloud : Cloud;
  stdout : list string;
  calls : list ApiCall
}.

Definition print (line : string) : M State unit :=
  fun s =>
    (Ret tt, {| cloud := cloud s;
                stdout := (stdout s ++ [line])%list;
                calls := calls s |}).

Definition client_create (parent : string) (dashboard : Dashboard)
  : M State Dashboard :=
  fun s =>
    let (answer, c) := create_dashboard_api parent dashboard (cloud s) in
    (answer, {| cloud := c;
                stdout := stdout s;
                calls := (calls s ++ [CreateDashboard parent dashboard])%list |}).

Definition create_dashboard (project_id : string) (dashboard_config : DashboardFile)
  : M State Dashboard :=
  dashboard <- lift (build_dashboard dashboard_config) ;;
  let project_name := "projects/" ++ project_id in
  try_except
    (client_create project_name dashboard)
    (fun e =>
       print ("❌ Failed to create dashboard: " ++ str_exn e) ;;
       raise e).

(** The validation step of [main]. *)
Definition validate_step (dashboard_config : DashboardFile)
    (metrics_config : Catalog.Config) : M State unit :=
  when (has_metrics metrics_config)
    (print "🔍 Validating metric references..." ;;
     issues <- lift (validate_metrics_references (config dashboard_config)
                       metrics_config) ;;
     match issues with
     | _ :: _ =>
         print "⚠️  Validation issues found:" ;;
         for_each issues (fun issue => print ("   • " ++ issue)) ;;
         print "   Dashboard will be created but may show empty charts until metrics are available."
     | [] => print "✅ All metric references validated"
     end).

(** The body of the last [try] of [main]. *)
Definition create_and_describe (project_id : string)
    (dashboard_config : DashboardFile) (metrics_config : Catalog.Config)
  : M State unit :=
  print "🔧 Creating dashboard..." ;;
  dashboard <- create_dashboard project_id dashboard_config ;;
  let dashboard_id := rsplit_last "/"%char (d_name dashboard) in
  let dashboard_url :=
    "https://console.cloud.google.com/monitoring/dashboards/custom/"
    ++ dashboard_id ++ "?project=" ++ project_id in
  print "✅ Dashboard created successfully!" ;;
  print EmptyString ;;
  print "📊 Dashboard Details:" ;;
  display <- lift (LogMetrics.item "displayName"
                     (displayName (config dashboard_config))) ;;
  print ("   Name: " ++ display) ;;
  print ("   ID: " ++ dashboard_id) ;;
  print ("   Resource Name: " ++ d_name dashboard) ;;
  print EmptyString ;;
  print "🔗 View Dashboard:" ;;
  print ("   " ++ dashboard_url) ;;
  print EmptyString ;;
  let tiles_ := tiles_of (config dashboard_config) in
  let chart_count := count_widgets has_xyChart tiles_ in
  let scorecard_count := count_widgets has_scorecard tiles_ in
  print "📈 Dashboard Layout:" ;;
  print ("   • " ++ str_nat (length tiles_) ++ " total widgets") ;;
  print ("   • " ++ str_nat chart_count ++ " time series charts") ;;
  print ("   • " ++ str_nat scorecard_count ++ " scorecard widgets") ;;
  print EmptyString ;;
  print "🎯 Monitoring Coverage:" ;;
  print "   • Application Performance (latency, success rate)" ;;
  print "   • User Experience (feedback ratings, confidence scores)" ;;
  print "   • System Health (error rates, cleanup efficiency)" ;;
  print "   • Business Metrics (sessions, uploads, usage)" ;;
  print "   • External Dependencies (Vertex AI performance)" ;;
  print EmptyString ;;
  when (negb (has_metrics metrics_config))
    (print "⚠️  Note: Metrics need to be created first!" ;;
     print "   Run: ./setup-metrics.sh or python3 create-log-metrics.py") ;;
  print "🚀 Next Steps:" ;;
  print "   1. Create log-based metrics (if not done)" ;;
  print "   2. Deploy Cloud Functions with structured logging" ;;
  print "   3. Generate test traffic to populate metrics" ;;
  print "   4. Set up alerting policies" ;;
  print "   5. Configure notification channels".

(** [main] from the validation on, with both files loaded. *)
Definition validate_and_create (project_id : string)
    (dashboard_config : DashboardFile) (metrics_config : Catalog.Config)
    (new_client : outcome unit) (s : State) : LogMetrics.termination * State :=
  match validate_step dashboard_config metrics_config s with
  | (Raise e, s1) => (LogMetrics.Uncaught e, s1)
  | (Ret _, s1) =>
      let s2 := snd (print EmptyString s1) in
      match new_client with
      | Raise e =>
          if is_Exception e then
            (LogMetrics.Exit 1,
             snd (print ("❌ Failed to initialize Cloud Monitoring client: "
                         ++ str_exn e) s2))
          else (LogMetrics.Uncaught e, s2)
      | Ret _ =>
          let s3 := snd (print "✅ Connected to Cloud Monitoring API" s2) in
          match create_and_describe project_id dashboard_config metrics_config s3 with
          | (Ret _, s4) => (LogMetrics.Exit 0, s4)
          | (Raise e, s4) =>
              if is_Exception e then
                (LogMetrics.Exit 1,
                 snd (print ("❌ Failed to create dashboard: " ++ str_exn e) s4))
              else (LogMetrics.Uncaught e, s4)
          end
      end
  end.

(** [main]: [argv] is [sys.argv], [load_dashboard] and [load_metrics]
    what reading the two files gives, [new_client] what building the
    client gives, [c0] the cloud the run starts on. *)
Definition main (argv : list string) (load_dashboard : json_load DashboardFile)
    (load_metrics : outcome Catalog.Config) (new_client : outcome unit)
    (c0 : Cloud) : LogMetrics.termination * State :=
  let s0 := {| cloud := c0; stdout := []; calls := [] |} in
  match argv with
  | [_; project_id] =>
      let s1 :=
        snd ((print "📊 Creating advanced monitoring dashboard for DressUp AI" ;;
              print ("📍 Project: " ++ project_id) ;;
              print ("📄 Dashboard Config: " ++ dashboard_config_path) ;;
              print ("📄 Metrics Config: " ++ metrics_config_path) ;;
              print EmptyString) s0) in
      match load_dashboard with
      | JsonRaise (FileNotFoundError _) =>
          (LogMetrics.Exit 1,
           snd (print ("❌ Dashboard configuration file not found: "
                       ++ dashboard_config_path) s1))
      | JSONDecodeError msg =>
          (LogMetrics.Exit 1,
           snd (print ("❌ Failed to parse dashboard JSON: " ++ msg) s1))
      | JsonRaise e => (LogMetrics.Uncaught e, s1)
      | JsonLoaded dashboard_config =>
          let s2 := snd (print "✅ Loaded dashboard configuration" s1) in
          match load_metrics with
          | Ret metrics_config =>
              validate_and_create project_id dashboard_config metrics_config
                new_client
                (snd (print "✅ Loaded metrics configuration" s2))
          | Raise (FileNotFoundError _) =>
              validate_and_create project_id dashboard_config
                {| metrics := Some []; dashboardMetrics := None |}
                new_client
                (snd ((print ("⚠️  Metrics configuration file not found: "
                              ++ metrics_config_path) ;;
                       print "    Skipping metric validation...") s2))
          | Raise (YAMLError msg) =>
              (LogMetrics.Exit 1,
               snd (print ("❌ Failed to parse metrics YAML: " ++ msg) s2))
          | Raise e => (LogMetrics.Uncaught e, s2)
          end
      end
  | _ =>
      (LogMetrics.Exit 1,
       snd (print "Usage: python3 create-dashboard.py <project_id>" s0))
  end.

End Client.

Arguments cloud {Cloud} s.
Arguments stdout {Cloud} s.
Arguments calls {Cloud} s.
Arguments print {Cloud} line s.

(** *** Vocabulary of the statements about the dashboard tool *)

(** Some entry of the catalog has no name. *)
Definition has_nameless (c : Catalog.Config) : Prop :=
  In None (map name (metrics_or_empty c)).

(** What reading the catalog gave lets the run go on: a catalog whose
    entries are all named, or no file at all. *)
Definition usable (load_metrics : outcome Catalog.Config) : Prop :=
  (exists c, load_metrics = Ret c /\ ~ has_nameless c)
  \/ (exists p, load_metrics = Raise (FileNotFoundError p)).

Definition creating_line : string := "🔧 Creating dashboard...".

Definition create_failure_line (e : exn) : string :=
  "❌ Failed to create dashboard: " ++ str_exn e.

(** How the run ends after the one call to the endpoint. *)
Definition ending {A : Type} (answer : outcome A) : LogMetrics.termination :=
  match answer with
  | Ret _ => LogMetrics.Exit 0
  | Raise e => if is_Exception e then LogMetrics.Exit 1 else LogMetrics.Uncaught e
  end.

(** Endpoints for the examples: one that numbers the dashboards it
    accepts, one that refuses every request. *)
Definition numbering (parent : string) (d : Dashboard) (n : nat)
  : outcome Dashboard * nat :=
  (Ret {| d_name := parent ++ "/dashboards/" ++ str_nat n;
          display_name := display_name d;
          mosaic_layout := mosaic_layout d;
          dashboard_filters := dashboard_filters d |}, S n).

Definition refusing (parent : string) (d : Dashboard) (c : unit)
  : outcome Dashboard * unit :=
  (Raise (ApiError "403 Permission denied"), c).

Definition sample_file : DashboardFile :=
  {| config := DashboardSpec.sample_layout; dashboardFilters := None |}.

Definition sample_dashboard : Dashboard :=
  {| d_name := EmptyString;
     display_name := "DressUp AI - Operations";
     mosaic_layout :=
       {| tiles :=
            Some [DashboardSpec.chart_tile
                    [DashboardSpec.user_filter "error_rate";
                     DashboardSpec.user_filter "latency_p99"];
                  DashboardSpec.scorecard_tile
                    (DashboardSpec.user_filter "latency_p99");
                  DashboardSpec.scorecard_tile
                    (DashboardSpec.user_filter "feedback_ratings")] |};
     dashboard_filters := None |}.

(** What the numbering endpoint answers to the sample, seven dashboards
    in. *)
Definition sample_answer : Dashboard :=
  {| d_name := "projects/dressup-prod/dashboards/7";
     display_name := display_name sample_dashboard;
     mosaic_layout := mosaic_layout sample_dashboard;
     dashboard_filters := None |}.

Definition untitled_file : DashboardFile :=
  {| config := {| displayName := None;
                  mosaicLayout := mosaicLayout DashboardSpec.sample_layout |};
     dashboardFilters := None |}.

Definition nameless_catalog : Catalog.Config :=
  {| metrics :=
       Some [DashboardSpec.named "error_rate";
             {| name := None; description := Some "d"; filter := Some "f";
                valueExtractor := None; labelExtractors := None;
                metricDescriptor := None |}];
     dashboardMetrics := None |}.

Definition sample_argv : list string := ["create-dashboard.py"; "dressup-prod"].

End DashboardMain.

(** * Properties of the validation aggregator *)

Module ValidateFacts.
Import Py Validate ValidateSpec.

(** A category of the four is one of four literal strings. *)
Lemma four_cases (category : string) :
  In category four_categories ->
  category = "structured_logging" \/ category = "log_metrics"
  \/ category = "dashboard" \/ category = "budgets".
Proof.
  unfold four_categories; simpl; intuition auto.
Qed.

Ltac each_category H :=
  apply four_cases in H;
  destruct H as [H | [H | [H | H]]]; subst.

(** On one of the four categories [log_test_result] completes, whatever
    the state. *)
Lemma log_test_result_returns category test_name p details s :
  In category four_categories ->
  fst (log_test_result category test_name p details s) = Ret tt.
Proof.
  intros H. each_category H; destruct p; cbn;
    try reflexivity; destruct (details =? EmptyString); reflexivity.
Qed.

Lemma log_test_result_results category test_name p details s :
  In category four_categories ->
  results (snd (log_test_result category test_name p details s))
  = logged category
      {| t_name := test_name; t_passed := p; t_details := details |}
      (results s).
Proof.
  intros H. each_category H; destruct p; cbn;
    try reflexivity; destruct (details =? EmptyString); reflexivity.
Qed.

Lemma logged_consistent category t r :
  In category four_categories ->
  consistent r -> consistent (logged category t r).
Proof.
  intros H (Hp & Hf & H1 & H2 & H3 & H4).
  unfold counted in *.
  each_category H; unfold logged; cbn; destruct (t_passed t); cbn;
    unfold consistent, counted; cbn; rewrite ?length_app; cbn;
    repeat split; lia.
Qed.

Lemma init_consistent : consistent init_results.
Proof.
  unfold consistent, counted; cbn; repeat split; reflexivity.
Qed.

Lemma after_calls_consistent history :
  Forall (fun c => In (l_category c) four_categories) history ->
  forall s, consistent (results s) ->
  consistent (results (after_calls history s)).
Proof.
  induction 1 as [| c history Hc _ IH]; intros s Hs.
  - exact Hs.
  - change (after_calls (c :: history) s)
      with (after_calls history (snd (log_call c s))).
    apply IH. unfold log_call.
    rewrite log_test_result_results by exact Hc.
    apply logged_consistent; assumption.
Qed.

Lemma logged_tests category t r :
  In category four_categories ->
  tests_of category (logged category t r) = (tests_of category r ++ [t])%list.
Proof.
  intros H. each_category H; unfold logged, tests_of; cbn;
    destruct (t_passed t); reflexivity.
Qed.

Lemma logged_other_tests category other t r :
  In category four_categories -> In other four_categories ->
  other <> category ->
  tests_of other (logged category t r) = tests_of other r.
Proof.
  intros H H' Hne.
  each_category H; each_category H'; try congruence;
    unfold logged, tests_of; cbn; destruct (t_passed t); reflexivity.
Qed.

(** C10.  From the initial state, after any sequence of calls to
    [log_test_result] on the four categories and one more such call,
    the overall passed and failed counters are the sums of the four
    categories' counters and each category's passed plus failed is the
    length of its test list, before and after the call; the call
    completes, appends exactly its own entry to the list of its
    category and leaves the lists of the other three categories as they
    were. *)
Theorem log_test_result_invariant (history : list Logged) (c : Logged) :
  Forall (fun h => In (l_category h) four_categories) history ->
  In (l_category c) four_categories ->
  let s := after_calls history init_state in
  let s' := snd (log_call c s) in
  fst (log_call c s) = Ret tt
  /\ consistent (results s)
  /\ consistent (results s')
  /\ tests_of (l_category c) (results s')
     = (tests_of (l_category c) (results s) ++ [entry_of c])%list
  /\ (forall other, In other four_categories -> other <> l_category c ->
        tests_of other (results s') = tests_of other (results s)).
Proof.
  intros Hh Hc s s'.
  assert (Hs : consistent (results s)).
  { apply after_calls_consistent; [exact Hh | apply init_consistent]. }
  subst s'. unfold log_call.
  rewrite log_test_result_results by exact Hc.
  split; [apply log_test_result_returns; exact Hc |].
  split; [exact Hs |].
  split; [apply (logged_consistent _ _ _ Hc Hs) |].
  split; [apply logged_tests; exact Hc |].
  intros other Ho Hne. apply logged_other_tests; assumption.
Qed.

(** Witness of C10: two calls, then a third one. *)
Lemma log_test_result_invariant_witness :
  let s := after_calls sample_history init_state in
  let s' := snd (log_call sample_call s) in
  fst (log_call sample_call s) = Ret tt
  /\ consistent (results s)
  /\ consistent (results s')
  /\ tests_of "dashboard" (results s') = [entry_of sample_call]
  /\ (forall other, In other four_categories -> other <> "dashboard" ->
        tests_of other (results s') = tests_of other (results s)).
Proof.
  apply (log_test_result_invariant sample_history sample_call).
  - apply Forall_cons; [simpl; auto 10 |].
    apply Forall_cons; [simpl; auto 10 | apply Forall_nil].
  - simpl; auto 10.
Defined.

(** ** Scoring *)

(** The ratio test of the report, on integers: three quarters of the
    total, cross-multiplied. *)
Lemma ratio_cross (p t : nat) :
  0 < t ->
  ((75 # 100 <= Q_of_nat p / Q_of_nat t)%Q <-> 3 * t <= 4 * p).
Proof.
  intros Ht. destruct t as [| n]; [lia |].
  unfold Q_of_nat, Qdiv, Qinv, Qle, Qmult, inject_Z.
  cbn [Z.of_nat Qnum Qden].
  rewrite !Z.mul_1_r, Pos.mul_1_l.
  split; intros H; lia.
Qed.

Lemma rate_cross (p t : nat) :
  0 < t ->
  ((75 <= rate p t)%Q <-> 3 * t <= 4 * p).
Proof.
  intros Ht. unfold rate.
  destruct (Nat.ltb_spec 0 t) as [_ | Hc]; [| lia].
  destruct t as [| n]; [lia |].
  unfold Q_of_nat, Qdiv, Qinv, Qle, Qmult, inject_Z.
  cbn [Z.of_nat Qnum Qden].
  split; intros H; lia.
Qed.

Lemma status_of_pass (q : Q) : status_of q = "PASS" <-> (75 <= q)%Q.
Proof.
  unfold status_of. rewrite <- Qle_bool_iff.
  destruct (Qle_bool 75 q); split; intros H; try reflexivity; discriminate.
Qed.

Lemma status_of_fail (q : Q) : status_of q = "FAIL" <-> ~ (75 <= q)%Q.
Proof.
  unfold status_of. rewrite <- Qle_bool_iff.
  destruct (Qle_bool 75 q); split; intros H;
    try reflexivity; try discriminate; congruence.
Qed.

Lemma rate_zero (p : nat) : rate p 0 = 0%Q.
Proof. reflexivity. Qed.

Lemma scored_rate env p f :
  scored env p f (status_of (rate p (p + f)))
    (format_1f env (rate p (p + f)) ++ "%").
Proof.
  split.
  - intros H0. rewrite H0, rate_zero. split; reflexivity.
  - intros Hpos. split.
    + rewrite status_of_pass, rate_cross, ratio_cross by exact Hpos. reflexivity.
    + rewrite status_of_fail, rate_cross, ratio_cross by exact Hpos. reflexivity.
Qed.

Lemma category_report_scored env c :
  scored_category env c (category_report env c).
Proof.
  unfold scored_category, category_report; cbn.
  split; [apply scored_rate | repeat split].
Qed.

(** C5.  In the report, a category without any recorded test has the
    rate of zero and the status FAIL, and so has the overall status when
    no test was counted at all; with tests, a category and the overall
    status are PASS exactly when passed/(passed+failed) is at least 75
    percent and FAIL otherwise.  The report is a total function of the
    results: there is no division error. *)
Theorem report_scoring (env : Env) (pid : string) (r : Results) :
  let report := generate_validation_report env pid r in
  scored env (overall_passed (overall r)) (overall_failed (overall r))
    (overall_status report) (success_rate report)
  /\ exists sl lm db bu,
      categories report
      = [("structured_logging", sl); ("log_metrics", lm);
         ("dashboard", db); ("budgets", bu)]
      /\ scored_category env (structured_logging r) sl
      /\ scored_category env (log_metrics r) lm
      /\ scored_category env (dashboard r) db
      /\ scored_category env (budgets r) bu.
Proof.
  cbn. split; [apply scored_rate |].
  do 4 eexists. split; [reflexivity |].
  split; [apply category_report_scored |].
  split; [apply category_report_scored |].
  split; apply category_report_scored.
Qed.

(** ** The monad *)

(** A sequence whose second part always raises, raises. *)
Lemma bind_raises {S A B} (m : Py.M S A) (k : A -> Py.M S B) (s : S) :
  (forall a s1, exists e s2, k a s1 = (Raise e, s2)) ->
  exists e s2, bind m k s = (Raise e, s2).
Proof.
  intros Hk. unfold bind. destruct (m s) as [[a | e] s1].
  - apply Hk.
  - exists e, s1. reflexivity.
Qed.

Lemma bind_ret_eq {S A B} (m : Py.M S A) (k : A -> Py.M S B) s a s1 :
  m s = (Ret a, s1) -> bind m k s = k a s1.
Proof.
  intros H. unfold bind. rewrite H. reflexivity.
Qed.

(** ** The completeness step *)

(** Whatever the counters are, the step prints its header and then
    raises on the missing ['tests'] key of the overall entry; the
    results are left as they were. *)
Lemma test_end_to_end_flow_raises (s : State) :
  test_end_to_end_flow s
  = (Raise (KeyError "tests"),
     {| results := results s;
        stdout := (stdout s ++ [end_to_end_header])%list;
        calls := calls s |}).
Proof.
  reflexivity.
Qed.

Lemma run_validation_raises env pid s :
  exists e s', run_validation env pid s = (Raise e, s').
Proof.
  unfold run_validation.
  do 7 (apply bind_raises; intros).
  unfold bind at 1. rewrite test_end_to_end_flow_raises.
  eexists; eexists; reflexivity.
Qed.

(** C2.  With three categories at one passed test and the fourth at
    two failed ones, the completeness step records nothing: the call of
    [log_test_result] on the overall entry raises [KeyError('tests')]
    before any list or counter is touched, in this state and in every
    other.  So no run of [run_validation] returns a report: on the
    sample project, where all four categories have passing tests, the run
    ends with that [KeyError] and [main] exits with status 1. *)
Theorem completeness_test_raises :
  test_end_to_end_flow (state_of three_of_four)
  = (Raise (KeyError "tests"),
     {| results := three_of_four; stdout := [end_to_end_header]; calls := [] |})
  /\ (forall test_name p details s,
        log_test_result "overall" test_name p details s
        = (Raise (KeyError "tests"), s))
  /\ (forall env pid s, exists e s',
        run_validation env pid s = (Raise e, s'))
  /\ (let r := run_validation healthy "dressup-prod" init_state in
      fst r = Raise (KeyError "tests")
      /\ passed (structured_logging (results (snd r))) = 2
      /\ passed (log_metrics (results (snd r))) = 2
      /\ passed (dashboard (results (snd r))) = 3
      /\ passed (budgets (results (snd r))) = 3
      /\ overall (results (snd r))
         = {| overall_passed := 10; overall_failed := 0 |}
      /\ fst (main healthy sample_args) = 1%Z).
Proof.
  split; [reflexivity |].
  split; [reflexivity |].
  split; [apply run_validation_raises |].
  cbv zeta. repeat split; vm_compute; reflexivity.
Qed.

(** ** The exit status *)

Lemma prints_only_print line : prints_only (print line).
Proof.
  intros s. eexists. split; [reflexivity |]. split; reflexivity.
Qed.

Lemma prints_only_seq (m k : M unit) :
  prints_only m -> prints_only k -> prints_only (m ;; k).
Proof.
  intros Hm Hk s.
  destruct (Hm s) as (s1 & E1 & R1 & C1).
  destruct (Hk s1) as (s2 & E2 & R2 & C2).
  exists s2. unfold bind. rewrite E1, E2.
  split; [reflexivity |]. split; congruence.
Qed.

Lemma prints_only_for_each {A} (l : list A) (body : A -> M unit) :
  (forall x, prints_only (body x)) -> prints_only (for_each l body).
Proof.
  intros Hb. induction l as [| x l IH]; cbn [for_each].
  - intros s. exists s. repeat split.
  - apply prints_only_seq; [apply Hb | exact IH].
Qed.

Lemma prints_only_print_category entry : prints_only (print_category entry).
Proof.
  destruct entry as [category data]. apply prints_only_print.
Qed.

Lemma prints_only_summary report : prints_only (print_summary report).
Proof.
  unfold print_summary.
  repeat (apply prints_only_seq; [apply prints_only_print |]).
  apply prints_only_seq;
    [apply prints_only_for_each; apply prints_only_print_category |].
  apply prints_only_seq; [apply prints_only_print |].
  destruct (overall_status report =? "PASS");
    apply prints_only_seq; apply prints_only_print.
Qed.

(** A sequence that returns has run both of its parts. *)
Lemma bind_returns {S A B} (m : Py.M S A) (k : A -> Py.M S B) s b s2 :
  bind m k s = (Ret b, s2) ->
  exists a s1, m s = (Ret a, s1) /\ k a s1 = (Ret b, s2).
Proof.
  unfold bind. destruct (m s) as [[a | e] s1]; intros H.
  - exists a, s1. split; [reflexivity | exact H].
  - discriminate.
Qed.

(** The report [run_validation] returns is the report of the results
    it ends with. *)
Lemma report_and_summary_returns env pid s report s' :
  report_and_summary env pid s = (Ret report, s') ->
  report = generate_validation_report env pid (results s')
  /\ results s' = results s.
Proof.
  unfold report_and_summary, get_results, bind at 1.
  destruct (prints_only_summary
              (generate_validation_report env pid (results s)) s)
    as (s1 & E & R & _).
  unfold bind, ret. rewrite E. intros H. inversion H; subst.
  rewrite R. split; reflexivity.
Qed.

Lemma run_validation_report env pid s report s' :
  run_validation env pid s = (Ret report, s') ->
  report = generate_validation_report env pid (results s').
Proof.
  unfold run_validation. intros H.
  do 8 (apply bind_returns in H; destruct H as (? & ? & _ & H)).
  apply (report_and_summary_returns _ _ _ _ _ H).
Qed.

Lemma validate_and_save_report env args report s :
  validate_and_save env args init_state = (Ret report, s) ->
  report = generate_validation_report env (arg_project_id args) (results s).
Proof.
  unfold validate_and_save. intros H.
  apply bind_returns in H. destruct H as (? & s1 & _ & H).
  apply bind_returns in H. destruct H as (r & s2 & Hrun & H).
  apply bind_returns in H. destruct H as (? & s3 & Hsave & H).
  inversion H; subst.
  apply run_validation_report in Hrun.
  assert (Hres : results s = results s2).
  { destruct (arg_report_file args) as [path |].
    - unfold when in Hsave. destruct (negb (path =? EmptyString)).
      + apply bind_returns in Hsave. destruct Hsave as (? & s4 & Hw & Hp).
        unfold api in Hw. inversion Hw; subst.
        unfold print in Hp. inversion Hp; subst. reflexivity.
      + inversion Hsave; subst. reflexivity.
    - inversion Hsave; subst. reflexivity. }
  rewrite Hres. exact Hrun.
Qed.

Lemma exit_status_pass report :
  exit_status report = 0%Z <-> overall_status report = "PASS".
Proof.
  unfold exit_status.
  destruct (String.eqb_spec (overall_status report) "PASS") as [E | N];
    split; intros H; try reflexivity; try assumption; try discriminate.
  contradiction.
Qed.

Lemma exit_status_cases report :
  exit_status report = 0%Z \/ exit_status report = 1%Z.
Proof.
  unfold exit_status. destruct (overall_status report =? "PASS"); auto.
Qed.

Lemma main_on_raise env args e s :
  validate_and_save env args init_state = (Raise e, s) ->
  fst (main env args) = 1%Z.
Proof.
  intros H. unfold main. rewrite H. destruct e; reflexivity.
Qed.

(** The exit logic of [main] as it is written.  The exit status is 0 or
    1.  Were the run to have its report, the status would be 0 if the
    overall status of the report is PASS and 1 if it is FAIL, the
    overall status being that of the grand totals (PASS exactly from 75
    percent on, FAIL without any test); when an exception reaches
    [main], an interrupt included, the status is 1. *)
Lemma exit_status_of_a_report (env : Env) (args : Args) :
  (fst (main env args) = 0%Z \/ fst (main env args) = 1%Z)
  /\ match validate_and_save env args init_state with
     | (Ret report, s) =>
         fst (main env args) = exit_status report
         /\ scored env (overall_passed (overall (results s)))
              (overall_failed (overall (results s)))
              (overall_status report) (success_rate report)
     | (Raise e, s) => fst (main env args) = 1%Z
     end
  /\ (forall pid r,
        let report := generate_validation_report env pid r in
        (exit_status report = 0%Z <-> overall_status report = "PASS")
        /\ (exit_status report = 1%Z <-> overall_status report = "FAIL")
        /\ scored env (overall_passed (overall r)) (overall_failed (overall r))
             (overall_status report) (success_rate report)).
Proof.
  split; [| split].
  - unfold main. destruct (validate_and_save env args init_state) as [[r | e] s].
    + apply exit_status_cases.
    + right. destruct e; reflexivity.
  - destruct (validate_and_save env args init_state) as [[report | e] s] eqn:E.
    + split.
      * unfold main. rewrite E. reflexivity.
      * rewrite (validate_and_save_report _ _ _ _ E). apply scored_rate.
    + apply (main_on_raise _ _ _ _ E).
  - intros pid r report. split; [apply exit_status_pass |]. split.
    + subst report. unfold exit_status, generate_validation_report, status_of; cbn.
      destruct (Qle_bool 75 _); cbn; split; intros H;
        try reflexivity; discriminate.
    + apply scored_rate.
Qed.

(** As the completeness step raises in every run, the branch of [main]
    that has a report is never taken. *)
Lemma main_exits_1 env args : fst (main env args) = 1%Z.
Proof.
  destruct (validate_and_save env args init_state) as [[report | e] s] eqn:E.
  - exfalso. unfold validate_and_save in E.
    apply bind_returns in E. destruct E as (? & s1 & _ & E).
    apply bind_returns in E. destruct E as (r & s2 & Hrun & _).
    destruct (run_validation_raises env (arg_project_id args) s1) as (e & s' & R).
    congruence.
  - apply (main_on_raise _ _ _ _ E).
Qed.

(** C1.  The exit status does not reflect the overall status.  On the
    sample project, where every check succeeds, the run ends with ten
    passed tests and none failed, totals whose overall status is PASS;
    yet [main] exits with status 1, through its handler of exceptions,
    its last line reporting the [KeyError] of the completeness step.
    So it is in every run: whatever the cloud answers and whatever the
    totals are, no report is computed and the exit status is 1. *)
Theorem passing_run_exits_1 :
  (let r := main healthy sample_args in
   overall (results (snd r)) = {| overall_passed := 10; overall_failed := 0 |}
   /\ overall_status
        (generate_validation_report healthy (arg_project_id sample_args)
           (results (snd r))) = "PASS"
   /\ fst r = 1%Z
   /\ last (stdout (snd r)) EmptyString
      = "❌ Validation failed with error: 'tests'")
  /\ (forall env args,
        fst (main env args) = 1%Z
        /\ forall report s,
             validate_and_save env args init_state <> (Ret report, s)).
Proof.
  split.
  - cbv zeta. repeat split; vm_compute; reflexivity.
  - intros env args. split; [apply main_exits_1 |].
    intros report s E. unfold validate_and_save in E.
    apply bind_returns in E. destruct E as (? & s1 & _ & E).
    apply bind_returns in E. destruct E as (r & s2 & Hrun & _).
    destruct (run_validation_raises env (arg_project_id args) s1) as (e & s' & R).
    congruence.
Qed.

(** ** A failing metric listing *)

(** When the listing of the metric descriptors raises, the handler
    records the failed test and the method then reads [found_metrics],
    which was never bound: it raises instead of returning. *)
Lemma test_log_metrics_unbound env s e names :
  load_metrics_yaml env = Ret names ->
  list_metric_descriptors env = Raise e ->
  is_Exception e = true ->
  exists s',
    test_log_metrics env s = (Raise (UnboundLocalError "found_metrics"), s')
    /\ tests (log_metrics (results s'))
       = (tests (log_metrics (results s))
          ++ [{| t_name := "Log metrics access"; t_passed := false;
                 t_details := "Error accessing metrics: " ++ str_exn e |}])%list.
Proof.
  intros Hload Hlist He.
  unfold test_log_metrics, load_expected_metrics, check_metrics_exist,
    log_metrics_access, try_except, bind, api, print, ret, raise.
  cbn. rewrite Hload, Hlist, He. cbn.
  eexists; split; reflexivity.
Qed.

(** C6.  On a project whose metric-descriptor listing raises, the run
    records the failed test 'Log metrics access' and then stops with
    [UnboundLocalError]: the dashboard and budget categories record no
    test at all, no call to list dashboards or to look up billing is
    issued, and the process exits with status 1. *)
Theorem listing_failure_aborts_run :
  exists s,
    run_validation listing_fails "dressup-prod" init_state
    = (Raise (UnboundLocalError "found_metrics"), s)
    /\ tests (log_metrics (results s))
       = [{| t_name := "Log metrics access"; t_passed := false;
             t_details := "Error accessing metrics: 503 Service Unavailable" |}]
    /\ tests (dashboard (results s)) = []
    /\ tests (budgets (results s)) = []
    /\ calls s = [ListEntries; OpenFile "log-metrics.yaml"; ListMetricDescriptors]
    /\ fst (main listing_fails sample_args) = 1%Z.
Proof.
  eexists. split; [vm_compute; reflexivity |].
  repeat split.
Qed.

(** ** Billing disabled *)




End ValidateFacts.

(** * Properties of the log-metric provisioner *)

Module LogMetricsFacts.
Import Py Catalog LogMetrics LogMetricsSpec.

Section Endpoint.

Variable Cloud : Type.
Variable capi : string -> LogMetric -> Cloud -> outcome LogMetric * Cloud.
Variable uapi : string -> LogMetric -> Cloud -> outcome LogMetric * Cloud.

Ltac step :=
  unfold process_metric, create_log_metric, try_except, bind, lift,
    client_create, client_update, print, ret, counts,
    created_line, exists_line, updated_line, update_failed_line,
    create_failed_line, metric_path, parent_of in *;
  cbv beta.

Ltac finish :=
  cbn [cloud stdout calls]; rewrite <- ?app_assoc; reflexivity.

(** A created metric is printed and counted. *)
Lemma process_created pid n mc metric (s : State Cloud) r c1 :
  build_metric mc = Ret metric ->
  capi (parent_of pid) metric (cloud s) = (Ret r, c1) ->
  process_metric Cloud capi uapi pid n mc s
  = (Ret (counts (S (successful_metrics n)) (failed_metrics n)),
     {| cloud := c1;
        stdout := stdout s ++ [created_line metric];
        calls := calls s ++ [CreateLogMetric (parent_of pid) metric] |}).
Proof.
  intros Hb Hc. step. rewrite Hb. rewrite Hc. reflexivity.
Qed.

(** An existing metric is updated, printed and counted. *)
Lemma process_updated pid n mc metric (s : State Cloud) e c1 r c2 :
  build_metric mc = Ret metric ->
  capi (parent_of pid) metric (cloud s) = (Raise e, c1) ->
  is_Exception e = true ->
  already_exists e = true ->
  uapi (metric_path pid metric) metric c1 = (Ret r, c2) ->
  process_metric Cloud capi uapi pid n mc s
  = (Ret (counts (S (successful_metrics n)) (failed_metrics n)),
     {| cloud := c2;
        stdout := stdout s ++ [exists_line metric] ++ [updated_line metric];
        calls := calls s ++ [CreateLogMetric (parent_of pid) metric]
                 ++ [UpdateLogMetric (metric_path pid metric) metric] |}).
Proof.
  intros Hb Hc He Ha Hu. step. rewrite Hb. rewrite Hc. rewrite He, Ha.
  cbn [cloud stdout calls]. rewrite Hu. finish.
Qed.

(** A failed update is printed, and the entry is counted as a success:
    [create_log_metric] has handled the exception. *)
Lemma process_update_failed pid n mc metric (s : State Cloud) e c1 e' c2 :
  build_metric mc = Ret metric ->
  capi (parent_of pid) metric (cloud s) = (Raise e, c1) ->
  is_Exception e = true ->
  already_exists e = true ->
  uapi (metric_path pid metric) metric c1 = (Raise e', c2) ->
  is_Exception e' = true ->
  process_metric Cloud capi uapi pid n mc s
  = (Ret (counts (S (successful_metrics n)) (failed_metrics n)),
     {| cloud := c2;
        stdout := stdout s ++ [exists_line metric]
                  ++ [update_failed_line metric e'];
        calls := calls s ++ [CreateLogMetric (parent_of pid) metric]
                 ++ [UpdateLogMetric (metric_path pid metric) metric] |}).
Proof.
  intros Hb Hc He Ha Hu He'. step. rewrite Hb. rewrite Hc. rewrite He, Ha.
  cbn [cloud stdout calls]. rewrite Hu. rewrite He'. finish.
Qed.

(** An interrupt during the update leaves the loop. *)
Lemma process_update_interrupted pid n mc metric (s : State Cloud) e c1 e' c2 :
  build_metric mc = Ret metric ->
  capi (parent_of pid) metric (cloud s) = (Raise e, c1) ->
  is_Exception e = true ->
  already_exists e = true ->
  uapi (metric_path pid metric) metric c1 = (Raise e', c2) ->
  is_Exception e' = false ->
  process_metric Cloud capi uapi pid n mc s
  = (Raise e',
     {| cloud := c2;
        stdout := stdout s ++ [exists_line metric];
        calls := calls s ++ [CreateLogMetric (parent_of pid) metric]
                 ++ [UpdateLogMetric (metric_path pid metric) metric] |}).
Proof.
  intros Hb Hc He Ha Hu He'. step. rewrite Hb. rewrite Hc. rewrite He, Ha.
  cbn [cloud stdout calls]. rewrite Hu. rewrite He'. rewrite He'. finish.
Qed.

(** Any other failed creation is printed, and the entry is counted as
    a success as well. *)
Lemma process_create_failed pid n mc metric (s : State Cloud) e c1 :
  build_metric mc = Ret metric ->
  capi (parent_of pid) metric (cloud s) = (Raise e, c1) ->
  is_Exception e = true ->
  already_exists e = false ->
  process_metric Cloud capi uapi pid n mc s
  = (Ret (counts (S (successful_metrics n)) (failed_metrics n)),
     {| cloud := c1;
        stdout := stdout s ++ [create_failed_line metric e];
        calls := calls s ++ [CreateLogMetric (parent_of pid) metric] |}).
Proof.
  intros Hb Hc He Ha. step. rewrite Hb. rewrite Hc. rewrite He, Ha.
  reflexivity.
Qed.

(** The counters after one entry whose three required keys are
    present: the failure counter never moves. *)
Lemma process_counts pid n mc metric (s : State Cloud) :
  build_metric mc = Ret metric ->
  match fst (process_metric Cloud capi uapi pid n mc s) with
  | Ret n' => n' = counts (S (successful_metrics n)) (failed_metrics n)
  | Raise e => is_Exception e = false
  end.
Proof.
  intros Hb.
  destruct (capi (parent_of pid) metric (cloud s)) as [[r | e] c1] eqn:Hc.
  - rewrite (process_created _ _ _ _ _ _ _ Hb Hc). reflexivity.
  - destruct (is_Exception e) eqn:He.
    + destruct (already_exists e) eqn:Ha.
      * destruct (uapi (metric_path pid metric) metric c1) as [[r | e'] c2] eqn:Hu.
        -- rewrite (process_updated _ _ _ _ _ _ _ _ _ Hb Hc He Ha Hu). reflexivity.
        -- destruct (is_Exception e') eqn:He'.
           ++ rewrite (process_update_failed _ _ _ _ _ _ _ _ _ Hb Hc He Ha Hu He').
              reflexivity.
           ++ rewrite (process_update_interrupted _ _ _ _ _ _ _ _ _ Hb Hc He Ha Hu He').
              exact He'.
      * rewrite (process_create_failed _ _ _ _ _ _ _ Hb Hc He Ha). reflexivity.
    + step. rewrite Hb, Hc, He. cbn. rewrite He. exact He.
Qed.

(** *** Statements that only print *)

(** A printing statement, then the rest. *)
Lemma appends_bind {A} (m : M (State Cloud) unit) lines
    (k : unit -> M (State Cloud) A) s :
  appends Cloud m lines ->
  bind m k s
  = k tt {| cloud := cloud s; stdout := stdout s ++ lines; calls := calls s |}.
Proof.
  intros Hm. unfold bind. rewrite Hm. reflexivity.
Qed.

Lemma appends_print line : appends Cloud (print line) [line].
Proof. intros s. reflexivity. Qed.

Lemma appends_seq m k l1 l2 :
  appends Cloud m l1 -> appends Cloud k l2 -> appends Cloud (m ;; k) (l1 ++ l2).
Proof.
  intros Hm Hk s. unfold bind. rewrite Hm, Hk.
  cbn [cloud stdout calls]. rewrite app_assoc. reflexivity.
Qed.

Lemma appends_nothing : appends Cloud (ret tt) [].
Proof.
  intros s. unfold ret. rewrite app_nil_r. destruct s; reflexivity.
Qed.

Lemma appends_for_each {A} (l : list A) body (f : A -> list string) :
  (forall x, appends Cloud (body x) (f x)) ->
  appends Cloud (for_each l body) (flat_map f l).
Proof.
  intros Hb. induction l as [| x l IH]; cbn [for_each flat_map].
  - apply appends_nothing.
  - apply appends_seq; [apply Hb | exact IH].
Qed.

Lemma appends_category entry :
  appends Cloud (print_dashboard_category Cloud entry) (category_lines entry).
Proof.
  destruct entry as [category metrics_]. unfold print_dashboard_category.
  apply (appends_seq _ _ [_]); [apply appends_print |].
  unfold category_lines; cbn [snd].
  induction metrics_ as [| m l IH]; cbn [for_each map].
  - apply appends_nothing.
  - apply (appends_seq _ _ [_]); [apply appends_print | exact IH].
Qed.

Lemma build_metric_fields mc metric :
  build_metric mc = Ret metric ->
  name mc = Some (m_name metric)
  /\ description mc = Some (m_description metric).
Proof.
  unfold build_metric, item.
  destruct (name mc); [| discriminate].
  destruct (description mc); [| discriminate].
  destruct (filter mc); [| discriminate].
  intros H. inversion H; subst. split; reflexivity.
Qed.

Lemma appends_listing mc metric :
  build_metric mc = Ret metric ->
  appends Cloud (print_listing Cloud mc) [listing_line metric].
Proof.
  intros Hb. destruct (build_metric_fields _ _ Hb) as [Hn Hd].
  intros s. unfold print_listing, lift, bind, item. rewrite Hn, Hd.
  reflexivity.
Qed.

Lemma appends_dashboard dm :
  appends Cloud
    (match dm with
     | Some dashboard_metrics =>
         print EmptyString ;;
         print "📊 Dashboard metric categories:" ;;
         for_each dashboard_metrics (print_dashboard_category Cloud)
     | None => ret tt
     end)
    (dashboard_lines dm).
Proof.
  destruct dm as [l |]; cbn [dashboard_lines].
  - apply (appends_seq _ _ [_]); [apply appends_print |].
    apply (appends_seq _ _ [_]); [apply appends_print |].
    apply appends_for_each. apply appends_category.
  - apply appends_nothing.
Qed.

(** The run on a catalog of two entries, the first created and the
    second found and updated. *)
Lemma created_then_updated pid mca mcb a b dm (s0 : State Cloud)
    ra c1 e c2 rb c3 :
  build_metric mca = Ret a ->
  build_metric mcb = Ret b ->
  capi (parent_of pid) a (cloud s0) = (Ret ra, c1) ->
  capi (parent_of pid) b c1 = (Raise e, c2) ->
  is_Exception e = true ->
  already_exists e = true ->
  uapi (metric_path pid b) b c2 = (Ret rb, c3) ->
  create_and_report Cloud capi uapi pid
    {| metrics := Some [mca; mcb]; dashboardMetrics := dm |} s0
  = (Ret (counts 2 0),
     {| cloud := c3;
        stdout := stdout s0 ++ created_and_updated_lines pid a b dm;
        calls := calls s0
                 ++ [CreateLogMetric (parent_of pid) a;
                     CreateLogMetric (parent_of pid) b;
                     UpdateLogMetric (metric_path pid b) b] |}).
Proof.
  intros Ha Hb Hca Hcb He Hex Hu.
  unfold create_and_report, metrics_or_empty.
  cbn [metrics dashboardMetrics length process_all for_each].
  assert (Hlist :
    appends Cloud (print_listing Cloud mca ;; print_listing Cloud mcb ;; ret tt)
      ([listing_line a] ++ [listing_line b] ++ [])).
  { apply (appends_seq _ _ [_]); [apply (appends_listing _ _ Ha) |].
    apply (appends_seq _ _ [_]);
      [apply (appends_listing _ _ Hb) | apply appends_nothing]. }
  repeat (rewrite (appends_bind _ _ _ _ (appends_print _));
          cbn [cloud stdout calls]).
  unfold bind at 1. unfold bind at 1.
  match goal with
  | |- context [process_metric _ _ _ _ ?n mca ?s] =>
      rewrite (process_created pid n mca a s ra c1 Ha Hca)
  end.
  cbn [cloud stdout calls].
  unfold bind at 1.
  match goal with
  | |- context [process_metric _ _ _ _ ?n mcb ?s] =>
      rewrite (process_updated pid n mcb b s e c2 rb c3 Hb Hcb He Hex Hu)
  end.
  unfold ret at 1.
  cbn [cloud stdout calls successful_metrics failed_metrics counts
       Nat.ltb Nat.leb when].
  repeat (first
    [ rewrite (appends_bind _ _ _ _ (appends_print _))
    | rewrite (appends_bind _ _ _ _ appends_nothing)
    | rewrite (appends_bind _ _ _ _ Hlist)
    | rewrite (appends_bind _ _ _ _ (appends_dashboard dm)) ];
    cbn [cloud stdout calls]).
  unfold ret, created_and_updated_lines, next_steps.
  rewrite <- ?app_assoc. reflexivity.
Qed.

(** C4.  An entry whose creation fails with an error whose text holds
    'already exists', in any letter case, makes the loop issue the
    creation call and then exactly one update call, for that metric, and
    the failure counter keeps its value.  On a catalog of two entries
    whose first is created and whose second is found to exist and is
    updated, the run prints one 'Created metric' line for the first, one
    'Updated metric' line for the second, a summary of 2 metrics created
    or updated with no line of failures, and both names in the final
    listing; the counters end at 2 successes and 0 failures. *)
Theorem existing_metric_is_updated_once :
  (forall pid n mc metric (s : State Cloud) e c1,
      build_metric mc = Ret metric ->
      capi (parent_of pid) metric (cloud s) = (Raise e, c1) ->
      is_Exception e = true ->
      already_exists e = true ->
      let r := process_metric Cloud capi uapi pid n mc s in
      calls (snd r)
      = (calls s ++ [CreateLogMetric (parent_of pid) metric;
                     UpdateLogMetric (metric_path pid metric) metric])%list
      /\ match fst r with
         | Ret n' => failed_metrics n' = failed_metrics n
         | Raise e' => is_Exception e' = false
         end)
  /\ (forall pid mca mcb a b dm (s0 : State Cloud) ra c1 e c2 rb c3,
        build_metric mca = Ret a ->
        build_metric mcb = Ret b ->
        capi (parent_of pid) a (cloud s0) = (Ret ra, c1) ->
        capi (parent_of pid) b c1 = (Raise e, c2) ->
        is_Exception e = true ->
        already_exists e = true ->
        uapi (metric_path pid b) b c2 = (Ret rb, c3) ->
        create_and_report Cloud capi uapi pid
          {| metrics := Some [mca; mcb]; dashboardMetrics := dm |} s0
        = (Ret (counts 2 0),
           {| cloud := c3;
              stdout := stdout s0 ++ created_and_updated_lines pid a b dm;
              calls := calls s0
                       ++ [CreateLogMetric (parent_of pid) a;
                           CreateLogMetric (parent_of pid) b;
                           UpdateLogMetric (metric_path pid b) b] |})).
Proof.
  split.
  - intros pid n mc metric s e c1 Hb Hc He Ha r. subst r.
    destruct (uapi (metric_path pid metric) metric c1) as [[ru | e'] c2] eqn:Hu.
    + rewrite (process_updated _ _ _ _ _ _ _ _ _ Hb Hc He Ha Hu).
      split; reflexivity.
    + destruct (is_Exception e') eqn:He'.
      * rewrite (process_update_failed _ _ _ _ _ _ _ _ _ Hb Hc He Ha Hu He').
        split; reflexivity.
      * rewrite (process_update_interrupted _ _ _ _ _ _ _ _ _ Hb Hc He Ha Hu He').
        split; [reflexivity | exact He'].
  - apply created_then_updated.
Qed.

End Endpoint.

(** Witness of C4: the endpoint that already holds [error_rate]. *)
Lemma existing_metric_is_updated_once_witness :
  (let r := process_metric Names names_create names_update "dressup-prod"
              no_counts entry_b (start ["error_rate"]) in
   calls (snd r)
   = [CreateLogMetric "projects/dressup-prod" metric_b;
      UpdateLogMetric "projects/dressup-prod/metrics/error_rate" metric_b]
   /\ fst r = Ret (counts 1 0))
  /\ create_and_report Names names_create names_update "dressup-prod"
       (catalog [entry_a; entry_b]) (start ["error_rate"])
     = (Ret (counts 2 0),
        {| cloud := ["session_creation_rate"; "error_rate"];
           stdout := created_and_updated_lines "dressup-prod" metric_a metric_b None;
           calls := [CreateLogMetric "projects/dressup-prod" metric_a;
                     CreateLogMetric "projects/dressup-prod" metric_b;
                     UpdateLogMetric "projects/dressup-prod/metrics/error_rate"
                       metric_b] |}).
Proof.
  destruct (existing_metric_is_updated_once Names names_create names_update)
    as [Hone Htwo].
  split.
  - pose proof (Hone "dressup-prod" no_counts entry_b metric_b
                  (start ["error_rate"])
                  (ApiError "409 Resource Already Exists: projects/dressup-prod/metrics/error_rate")
                  ["error_rate"] eq_refl eq_refl eq_refl eq_refl) as H.
    split; [exact (proj1 H) | reflexivity].
  - exact (Htwo "dressup-prod" entry_a entry_b metric_a metric_b None
             (start ["error_rate"]) metric_a
             ["session_creation_rate"; "error_rate"]
             (ApiError "409 Resource Already Exists: projects/dressup-prod/metrics/error_rate")
             ["session_creation_rate"; "error_rate"] metric_b
             ["session_creation_rate"; "error_rate"]
             eq_refl eq_refl eq_refl eq_refl eq_refl eq_refl eq_refl).
Defined.

(** C3.  On a catalog of one entry whose creation is refused with
    '403 Permission denied', the run prints the failure and then reports
    1 metric successfully created or updated and no failure; the same
    happens when the creation meets 'already exists' and the update that
    follows fails.  [create_log_metric] handles both errors itself and
    returns, so the loop of [main] counts the entry as a success. *)
Theorem failed_metric_counted_successful :
  (let r := create_and_report unit denied_create failing_update "dressup-prod"
              (catalog [entry_a]) (start tt) in
   fst r = Ret (counts 1 0)
   /\ In (create_failed_line metric_a
            (ApiError "403 Permission denied on resource project"))
         (stdout (snd r))
   /\ In "   ✅ Successfully created/updated: 1 metrics" (stdout (snd r))
   /\ calls (snd r) = [CreateLogMetric "projects/dressup-prod" metric_a])
  /\ (let r := create_and_report unit conflict_create failing_update "dressup-prod"
                 (catalog [entry_a]) (start tt) in
      fst r = Ret (counts 1 0)
      /\ In (update_failed_line metric_a (ApiError "500 Internal error"))
            (stdout (snd r))
      /\ In "   ✅ Successfully created/updated: 1 metrics" (stdout (snd r))
      /\ calls (snd r)
         = [CreateLogMetric "projects/dressup-prod" metric_a;
            UpdateLogMetric "projects/dressup-prod/metrics/session_creation_rate"
              metric_a]).
Proof.
  split; cbv zeta.
  - split; [vm_compute; reflexivity |].
    split; [vm_compute; tauto |].
    split; [vm_compute; tauto |].
    vm_compute; reflexivity.
  - split; [vm_compute; reflexivity |].
    split; [vm_compute; tauto |].
    split; [vm_compute; tauto |].
    vm_compute; reflexivity.
Qed.

End LogMetricsFacts.

(** * Properties of the budget provisioner *)

Module BudgetsFacts.
Import Py Budgets BudgetsSpec.

Section Endpoint.

Variable Cloud : Type.
Variable api : string -> Budget -> Cloud -> outcome string * Cloud.

Lemma build_budget_five pid amount dname services_ channels :
  has_five_rules (build_budget pid amount dname services_ channels).
Proof.
  unfold has_five_rules, build_budget; cbn [threshold_rules].
  split; [reflexivity |]. split; [reflexivity |].
  repeat constructor.
Qed.

(** [create_budget] issues one call, which carries the budget it
    built, whether the call answers or raises. *)
Lemma create_budget_calls ba pid amount dname services_ channels (s : State Cloud) :
  calls (snd (create_budget Cloud api ba pid amount dname services_ channels s))
  = (calls s ++ [CreateBudget ("billingAccounts/" ++ ba)%string
                   (build_budget pid amount dname services_ channels)])%list.
Proof.
  unfold create_budget, try_except, client_create_budget, bind, print, raise.
  destruct (api _ _ (cloud s)) as [[r | e] c]; cbn [snd calls].
  - reflexivity.
  - destruct (is_Exception e); reflexivity.
Qed.

Lemma submit_five_print line : calls_submit_five (Cloud := Cloud) (print line).
Proof.
  intros s. exists []. split; [cbn; rewrite app_nil_r; reflexivity | constructor].
Qed.

Lemma submit_five_ret {A} (a : A) : calls_submit_five (Cloud := Cloud) (ret a).
Proof.
  intros s. exists []. split; [cbn; rewrite app_nil_r; reflexivity | constructor].
Qed.

Lemma submit_five_bind {A B} (m : M (State Cloud) A) (k : A -> M (State Cloud) B) :
  calls_submit_five m -> (forall a, calls_submit_five (k a)) ->
  calls_submit_five (bind m k).
Proof.
  intros Hm Hk s. unfold bind.
  destruct (Hm s) as (n1 & E1 & F1).
  destruct (m s) as [[a | e] s1]; cbn [snd] in *.
  - destruct (Hk a s1) as (n2 & E2 & F2).
    exists (n1 ++ n2)%list. rewrite E2, E1, app_assoc.
    split; [reflexivity | apply Forall_app; split; assumption].
  - exists n1. split; assumption.
Qed.

Lemma submit_five_try {A} (body : M (State Cloud) A) handler :
  calls_submit_five body -> (forall e, calls_submit_five (handler e)) ->
  calls_submit_five (try_except body handler).
Proof.
  intros Hb Hh s. unfold try_except.
  destruct (Hb s) as (n1 & E1 & F1).
  destruct (body s) as [[a | e] s1]; cbn [snd] in *.
  - exists n1. split; assumption.
  - destruct (is_Exception e).
    + destruct (Hh e s1) as (n2 & E2 & F2).
      exists (n1 ++ n2)%list. rewrite E2, E1, app_assoc.
      split; [reflexivity | apply Forall_app; split; assumption].
    + exists n1. split; assumption.
Qed.

Lemma submit_five_create_budget ba pid amount dname services_ channels :
  calls_submit_five (create_budget Cloud api ba pid amount dname services_ channels).
Proof.
  intros s. eexists. split; [apply create_budget_calls |].
  constructor; [apply build_budget_five | constructor].
Qed.

Lemma submit_five_create_one label ba pid amount dname services_ n :
  calls_submit_five (create_one Cloud api label ba pid amount dname services_ n).
Proof.
  unfold create_one. apply submit_five_try.
  - apply submit_five_bind; [apply submit_five_print |].
    intros _. apply submit_five_bind; [apply submit_five_create_budget |].
    intros name. apply submit_five_bind; [apply submit_five_print |].
    intros _. apply submit_five_ret.
  - intros e. apply submit_five_bind; [apply submit_five_print |].
    intros _. apply submit_five_ret.
Qed.

(** C7.  Every budget [create_budget] builds carries exactly five
    threshold rules, at 0.5, 0.75, 0.9, 1.0 and 1.1 in this order, each
    on current spend, whatever the amount, the display name and the
    service list, given or defaulted; the one call it issues submits
    that budget; and every call issued for the three budgets of [main]
    submits a budget of these five rules. *)
Theorem every_budget_has_five_thresholds :
  (forall pid amount dname services_ channels,
      let budget := build_budget pid amount dname services_ channels in
      map threshold_percent (threshold_rules budget) = [0.5; 0.75; 0.9; 1.0; 1.1]%Q
      /\ length (threshold_rules budget) = 5
      /\ Forall (fun r => spend_basis r = CURRENT_SPEND) (threshold_rules budget))
  /\ (forall ba pid amount dname services_ channels (s : State Cloud),
        calls (snd (create_budget Cloud api ba pid amount dname services_ channels s))
        = (calls s ++ [CreateBudget ("billingAccounts/" ++ ba)%string
                         (build_budget pid amount dname services_ channels)])%list)
  /\ (forall ba pid daily monthly (s : State Cloud), exists new,
        calls (snd (create_budgets Cloud api ba pid daily monthly s))
        = (calls s ++ new)%list
        /\ Forall submits_five new).
Proof.
  split; [| split].
  - intros pid amount dname services_ channels budget.
    destruct (build_budget_five pid amount dname services_ channels)
      as (Hlen & Hmap & Hbasis).
    split; [exact Hmap |]. split; [exact Hlen | exact Hbasis].
  - apply create_budget_calls.
  - intros ba pid daily monthly. unfold create_budgets.
    apply submit_five_bind; [apply submit_five_create_one |].
    intros n1. apply submit_five_bind; [apply submit_five_create_one |].
    intros n2. apply submit_five_create_one.
Qed.

End Endpoint.

End BudgetsFacts.

(** * Properties of the dashboard provisioner *)

Module DashboardFacts.
Import Py Catalog DashboardConfig DashboardSpec.


Lemma set_add_str_In (x y : string) (s : str_set) :
  In x (set_add_str y s) <-> x = y \/ In x s.
Proof.
  unfold set_add_str. apply set_add_iff.
Qed.

(** *** The set of referenced names *)







(** *** The set of defined names *)

Lemma defined_metrics_from_names l :
  forall names acc,
    map name l = map Some names ->
    exists s,
      defined_metrics_from acc l = Ret s
      /\ forall x, In x s <-> In x acc \/ In x names.
Proof.
  induction l as [| m l IH]; intros names acc H.
  - destruct names; [| discriminate]. exists acc. split; [reflexivity |].
    intros x. cbn. tauto.
  - destruct names as [| n names]; [discriminate |].
    cbn in H. injection H as Hn Hl.
    cbn [defined_metrics_from]. rewrite Hn.
    destruct (IH names (set_add_str n acc) Hl) as (s & E & Hs).
    exists s. split; [exact E |].
    intros x. rewrite Hs, set_add_str_In. cbn. intuition congruence.
Qed.

(** A catalog entry without a name makes the comprehension raise. *)
Lemma defined_metrics_from_nameless l acc :
  In None (map name l) ->
  defined_metrics_from acc l = Raise (KeyError "name").
Proof.
  revert acc. induction l as [| m l IH]; intros acc H; cbn in *.
  - contradiction.
  - destruct (name m) as [n |].
    + apply IH. destruct H as [E | H]; [discriminate | exact H].
    + reflexivity.
Qed.

(** *** The issues *)






End DashboardFacts.

(** * Properties of a whole validation run *)

Module RunFacts.
Import Py Validate ValidateSpec RunSpec.

(** ** Relations kept by every statement of a method *)

Section Steps.

Variable R : Results -> Results -> Prop.
Hypothesis R_refl : forall r, R r r.
Hypothesis R_trans : forall r1 r2 r3, R r1 r2 -> R r2 r3 -> R r1 r3.

Lemma steps_ret {A} (a : A) : steps R (ret a : M A).
Proof. intros s. apply R_refl. Qed.

Lemma steps_raise {A} e : steps R (raise e : M A).
Proof. intros s. apply R_refl. Qed.

Lemma steps_lift {A} (o : outcome A) : steps R (lift o : M A).
Proof. intros s. apply R_refl. Qed.

Lemma steps_print line : steps R (print line).
Proof. intros s. apply R_refl. Qed.

Lemma steps_api {A} c (answer : outcome A) : steps R (api c answer).
Proof. intros s. apply R_refl. Qed.

Lemma steps_get : steps R get_results.
Proof. intros s. apply R_refl. Qed.

Lemma steps_bind {A B} (m : M A) (k : A -> M B) :
  steps R m -> (forall a, steps R (k a)) -> steps R (bind m k).
Proof.
  intros Hm Hk s. unfold bind.
  pose proof (Hm s) as H1. destruct (m s) as [[a | e] s1]; cbn [snd] in *.
  - apply (R_trans _ _ _ H1), Hk.
  - exact H1.
Qed.

Lemma steps_try {A} (body : M A) handler :
  steps R body -> (forall e, steps R (handler e)) ->
  steps R (try_except body handler).
Proof.
  intros Hb Hh s. unfold try_except.
  pose proof (Hb s) as H1. destruct (body s) as [[a | e] s1]; cbn [snd] in *.
  - exact H1.
  - destruct (is_Exception e); [| exact H1].
    apply (R_trans _ _ _ H1), Hh.
Qed.

Lemma steps_when b (m : M unit) : steps R m -> steps R (when b m).
Proof.
  intros Hm. destruct b; [exact Hm | apply steps_ret].
Qed.

Lemma steps_for_each {A} (l : list A) (body : A -> M unit) :
  (forall x, steps R (body x)) -> steps R (for_each l body).
Proof.
  intros Hb. induction l as [| x l IH]; cbn [for_each].
  - apply steps_ret.
  - apply steps_bind; [apply Hb | intros _; exact IH].
Qed.

Ltac walk :=
  repeat first
    [ apply steps_print | apply steps_api | apply steps_ret
    | apply steps_raise | apply steps_lift | apply steps_get
    | apply steps_when | assumption ].

Lemma steps_structured_logging env :
  (forall n p d, steps R (log_test_result "structured_logging" n p d)) ->
  steps R (test_structured_logging env).
Proof.
  intros Hlog. unfold test_structured_logging.
  apply steps_bind; [walk | intros _].
  apply steps_try; [| intros e; apply Hlog].
  apply steps_bind; [walk | intros entries].
  destruct entries as [| sample_entry rest]; [apply Hlog |].
  apply steps_bind; [apply Hlog | intros _].
  destruct (structured_data_of (payload sample_entry)); [| apply Hlog].
  apply steps_bind; [walk | intros missing].
  destruct missing; apply Hlog.
Qed.

Lemma steps_load_expected env : steps R (load_expected_metrics env).
Proof.
  intros s. unfold load_expected_metrics, api.
  destruct (load_metrics_yaml env) as [names | e]; [apply R_refl |].
  destruct (is_FileNotFoundError e); apply R_refl.
Qed.

Lemma steps_check_metrics env expected :
  (forall n p d, steps R (log_test_result "log_metrics" n p d)) ->
  steps R (check_metrics_exist env expected).
Proof.
  intros Hlog. unfold check_metrics_exist, log_metrics_access.
  apply steps_bind.
  - apply steps_try.
    + apply steps_bind; [walk | intros metrics; walk].
    + intros e. apply steps_bind; [apply Hlog | intros _; walk].
  - intros [metrics |]; [| walk].
    apply steps_bind; [| intros _; walk].
    apply steps_try; [| intros e; apply Hlog].
    apply steps_bind; [apply Hlog | intros _].
    apply steps_when. apply steps_bind; [walk | intros _; walk].
Qed.

Lemma steps_log_metrics env :
  (forall n p d, steps R (log_test_result "log_metrics" n p d)) ->
  steps R (test_log_metrics env).
Proof.
  intros Hlog. unfold test_log_metrics.
  apply steps_bind; [walk | intros _].
  apply steps_bind; [apply steps_load_expected | intros expected].
  apply steps_bind; [apply steps_check_metrics, Hlog |].
  intros [[| first rest] |]; [walk | | walk].
  apply steps_try; [| intros e; apply Hlog].
  apply steps_bind; [walk | intros series; apply Hlog].
Qed.

Lemma steps_dashboard env :
  (forall n p d, steps R (log_test_result "dashboard" n p d)) ->
  steps R (test_dashboard env).
Proof.
  intros Hlog. unfold test_dashboard.
  apply steps_bind; [walk | intros _].
  apply steps_try; [| intros e; apply Hlog].
  apply steps_bind; [walk | intros dashboards].
  apply steps_bind; [apply Hlog | intros _].
  destruct (List.filter _ dashboards) as [| dashboard_ rest]; [walk |].
  destruct (mosaic_layout dashboard_); [| apply Hlog].
  apply steps_bind; [apply Hlog | intros _; apply Hlog].
Qed.

Lemma steps_budget_alerts env pid :
  (forall n p d, steps R (log_test_result "budgets" n p d)) ->
  steps R (test_budget_alerts env pid).
Proof.
  intros Hlog. unfold test_budget_alerts.
  apply steps_bind; [walk | intros _].
  apply steps_try; [| intros e; apply Hlog].
  apply steps_bind; [walk | intros project_billing].
  destruct (negb (billing_enabled project_billing)); [apply Hlog |].
  apply steps_bind; [apply Hlog | intros _].
  apply steps_try; [| intros e; apply Hlog].
  apply steps_bind; [walk | intros budget_list].
  apply steps_bind; [apply Hlog | intros _].
  apply steps_for_each. intros budget. apply Hlog.
Qed.

Lemma steps_end_to_end : steps R test_end_to_end_flow.
Proof.
  intros s. rewrite ValidateFacts.test_end_to_end_flow_raises. apply R_refl.
Qed.

End Steps.

(** ** The counters stay consistent *)

Lemma keeps_consistent_log category n p d :
  In category four_categories ->
  steps keeps_consistent (log_test_result category n p d).
Proof.
  intros Hc s Hs.
  rewrite (ValidateFacts.log_test_result_results _ _ _ _ _ Hc).
  apply ValidateFacts.logged_consistent; assumption.
Qed.

Lemma keeps_consistent_refl r : keeps_consistent r r.
Proof. intros H; exact H. Qed.

Lemma keeps_consistent_trans r1 r2 r3 :
  keeps_consistent r1 r2 -> keeps_consistent r2 r3 -> keeps_consistent r1 r3.
Proof. intros H1 H2 H. apply H2, H1, H. Qed.

Lemma in_four_1 : In "structured_logging" four_categories.
Proof. simpl; auto. Qed.

Lemma in_four_2 : In "log_metrics" four_categories.
Proof. simpl; auto. Qed.

Lemma in_four_3 : In "dashboard" four_categories.
Proof. simpl; auto. Qed.

Lemma in_four_4 : In "budgets" four_categories.
Proof. simpl; auto 10. Qed.

Ltac seq_consistent :=
  apply (steps_bind _ keeps_consistent_trans).

Ltac simple_consistent :=
  first [ apply steps_print | apply steps_api | apply steps_ret
        | apply steps_lift ];
  apply keeps_consistent_refl.

Lemma run_keeps_consistent env pid :
  steps keeps_consistent (run_validation env pid).
Proof.
  pose proof keeps_consistent_refl as Hr.
  pose proof keeps_consistent_trans as Ht.
  unfold run_validation.
  seq_consistent; [simple_consistent | intros _].
  seq_consistent; [simple_consistent | intros _].
  seq_consistent; [simple_consistent | intros _].
  seq_consistent.
  { apply (steps_structured_logging _ Hr Ht).
    intros. apply keeps_consistent_log, in_four_1. }
  intros _. seq_consistent.
  { apply (steps_log_metrics _ Hr Ht).
    intros. apply keeps_consistent_log, in_four_2. }
  intros _. seq_consistent.
  { apply (steps_dashboard _ Hr Ht).
    intros. apply keeps_consistent_log, in_four_3. }
  intros _. seq_consistent.
  { apply (steps_budget_alerts _ Hr Ht).
    intros. apply keeps_consistent_log, in_four_4. }
  intros _ s.
  unfold bind at 1. rewrite ValidateFacts.test_end_to_end_flow_raises.
  apply Hr.
Qed.

Lemma validate_and_save_keeps_consistent env args :
  steps keeps_consistent (validate_and_save env args).
Proof.
  unfold validate_and_save.
  seq_consistent; [simple_consistent | intros _].
  seq_consistent; [apply run_keeps_consistent | intros report].
  seq_consistent; [| intros _; simple_consistent].
  destruct (arg_report_file args) as [path |]; [| simple_consistent].
  apply steps_when; [apply keeps_consistent_refl |].
  seq_consistent; [simple_consistent | intros _; simple_consistent].
Qed.

(** X1.  Whatever the cloud answers, when a run that was not
    interrupted stops (no [KeyboardInterrupt] reached [main]) the
    overall passed and failed counters are the sums of the four
    categories' counters and each category's passed plus failed is the
    number of tests in its list.  An interrupted run is left out: the
    interrupt may fall between the statements of [log_test_result],
    after the test is appended and before it is counted. *)
Theorem uninterrupted_run_leaves_consistent_results (env : Env) (args : Args) :
  fst (validate_and_save env args init_state) <> Raise KeyboardInterrupt ->
  consistent (results (snd (main env args))).
Proof.
  intros Hrun.
  pose proof (validate_and_save_keeps_consistent env args init_state
                ValidateFacts.init_consistent) as H.
  unfold main.
  destruct (validate_and_save env args init_state) as [[report | e] s];
    [exact H |].
  destruct e; try (exfalso; apply Hrun; reflexivity); exact H.
Qed.

Lemma uninterrupted_run_leaves_consistent_results_witness :
  consistent (results (snd (main healthy sample_args))).
Proof.
  apply (uninterrupted_run_leaves_consistent_results healthy sample_args).
  vm_compute. discriminate.
Defined.

(** ** Each group keeps to its own category *)

Lemma same_except_refl c r : same_except c r r.
Proof. intros other _ _. reflexivity. Qed.

Lemma same_except_trans c r1 r2 r3 :
  same_except c r1 r2 -> same_except c r2 r3 -> same_except c r1 r3.
Proof.
  intros H1 H2 other Ho Hne. rewrite (H2 other Ho Hne). apply H1; assumption.
Qed.

Lemma same_except_log c n p d :
  In c four_categories ->
  steps (same_except c) (log_test_result c n p d).
Proof.
  intros Hc s other Ho Hne.
  rewrite (ValidateFacts.log_test_result_results _ _ _ _ _ Hc).
  apply ValidateFacts.four_cases in Hc. apply ValidateFacts.four_cases in Ho.
  destruct Hc as [Hc | [Hc | [Hc | Hc]]]; subst c;
    destruct Ho as [Ho | [Ho | [Ho | Ho]]]; subst other;
    try congruence; unfold ValidateSpec.logged; cbn; destruct p; reflexivity.
Qed.

(** X2.  Each of the four test groups changes the entry of its own
    category only: whatever the cloud answers and whether the group
    returns or raises, the counters and the test lists of the other
    three categories are as they were before. *)
Theorem group_touches_own_category_only (env : Env) (pid : string) :
  steps (same_except "structured_logging") (test_structured_logging env)
  /\ steps (same_except "log_metrics") (test_log_metrics env)
  /\ steps (same_except "dashboard") (test_dashboard env)
  /\ steps (same_except "budgets") (test_budget_alerts env pid).
Proof.
  split; [| split; [| split]].
  - apply (steps_structured_logging _ (same_except_refl _) (same_except_trans _)).
    intros. apply same_except_log, in_four_1.
  - apply (steps_log_metrics _ (same_except_refl _) (same_except_trans _)).
    intros. apply same_except_log, in_four_2.
  - apply (steps_dashboard _ (same_except_refl _) (same_except_trans _)).
    intros. apply same_except_log, in_four_3.
  - apply (steps_budget_alerts _ (same_except_refl _) (same_except_trans _)).
    intros. apply same_except_log, in_four_4.
Qed.

(** ** Which errors leave a group *)

Lemma not_Exception_interrupt e : is_Exception e = false -> e = KeyboardInterrupt.
Proof. destruct e; cbn; intros H; try discriminate; reflexivity. Qed.

(** A [try] whose handler records a test of one of the four categories
    lets no error of class [Exception] through. *)
Lemma try_contained (body : M unit) category n p (d : exn -> string) s :
  In category four_categories ->
  let r := try_except body (fun e => log_test_result category n p (d e)) s in
  fst r = Ret tt \/ fst r = Raise KeyboardInterrupt.
Proof.
  intros Hc. cbv zeta. unfold try_except.
  destruct (body s) as [[[] | e] s1]; [left; reflexivity |].
  destruct (is_Exception e) eqn:He.
  - left. apply ValidateFacts.log_test_result_returns, Hc.
  - right. cbn. rewrite (not_Exception_interrupt _ He). reflexivity.
Qed.

Lemma print_then (line : string) (k : M unit) s :
  (print line ;; k) s
  = k {| results := results s; stdout := (stdout s ++ [line])%list;
         calls := calls s |}.
Proof. reflexivity. Qed.

(** X3.  No error of class [Exception] leaves the structured-logging,
    dashboard or budget group, whatever the cloud answers: each returns
    normally, or an interrupt passes through. *)
Theorem groups_contain_exceptions (env : Env) (pid : string) :
  contained (test_structured_logging env)
  /\ contained (test_dashboard env)
  /\ contained (test_budget_alerts env pid).
Proof.
  split; [| split]; intros s.
  - unfold test_structured_logging. rewrite print_then.
    apply (try_contained _ "structured_logging" _ _
             (fun e => "Error accessing logs: " ++ str_exn e)), in_four_1.
  - unfold test_dashboard. rewrite print_then.
    apply (try_contained _ "dashboard" _ _
             (fun e => "Error accessing dashboard: " ++ str_exn e)), in_four_3.
  - unfold test_budget_alerts. rewrite print_then.
    apply (try_contained _ "budgets" _ _
             (fun e => "Error accessing billing API: " ++ str_exn e)), in_four_4.
Qed.

(** ** Paths through a group *)

Lemma runs_ret {A} (a : A) : runs (ret a : M A) a unchanged [].
Proof.
  intros s. exists s. split; [reflexivity |]. split; [reflexivity |].
  rewrite app_nil_r. reflexivity.
Qed.

Lemma runs_print line : runs (print line) tt unchanged [].
Proof.
  intros s. eexists. split; [reflexivity |]. split; [reflexivity |].
  cbn. rewrite app_nil_r. reflexivity.
Qed.

Lemma runs_api {A} c (a : A) : runs (api c (Ret a)) a unchanged [c].
Proof.
  intros s. eexists. split; [reflexivity |]. split; reflexivity.
Qed.

Lemma fails_api {A} c e : fails (api c (Raise e : outcome A)) e unchanged [c].
Proof.
  intros s. eexists. split; [reflexivity |]. split; reflexivity.
Qed.

Lemma fails_raise {A} e : fails (raise e : M A) e unchanged [].
Proof.
  intros s. exists s. split; [reflexivity |]. split; [reflexivity |].
  rewrite app_nil_r. reflexivity.
Qed.

Lemma log_test_result_calls category n p d s :
  calls (snd (log_test_result category n p d s)) = calls s.
Proof.
  unfold log_test_result, bind, get_results, raise, set_results, print, when, ret.
  destruct (results_get category (results s)) as [[c | o] |]; try reflexivity.
  destruct p; [reflexivity |].
  cbn [snd calls]. destruct (negb (d =? EmptyString)); reflexivity.
Qed.

Lemma runs_log category n p d :
  In category four_categories ->
  runs (log_test_result category n p d) tt
    (logged_all [check category n p d]) [].
Proof.
  intros Hc s.
  pose proof (ValidateFacts.log_test_result_returns category n p d s Hc) as H1.
  pose proof (ValidateFacts.log_test_result_results category n p d s Hc) as H2.
  pose proof (log_test_result_calls category n p d s) as H3.
  destruct (log_test_result category n p d s) as [o s']. cbn [fst snd] in *.
  subst o. exists s'. split; [reflexivity |]. split; [exact H2 |].
  rewrite app_nil_r. exact H3.
Qed.

Lemma runs_bind {A B} (m : M A) (k : A -> M B) a b f g cs ds :
  runs m a f cs -> runs (k a) b g ds ->
  runs (bind m k) b (fun r => g (f r)) (cs ++ ds).
Proof.
  intros Hm Hk s. destruct (Hm s) as (s1 & E1 & R1 & C1).
  destruct (Hk s1) as (s2 & E2 & R2 & C2).
  exists s2. unfold bind. rewrite E1, E2.
  split; [reflexivity |]. split; [congruence |].
  rewrite C2, C1, app_assoc. reflexivity.
Qed.

Lemma fails_bind {A B} (m : M A) (k : A -> M B) a e f g cs ds :
  runs m a f cs -> fails (k a) e g ds ->
  fails (bind m k) e (fun r => g (f r)) (cs ++ ds).
Proof.
  intros Hm Hk s. destruct (Hm s) as (s1 & E1 & R1 & C1).
  destruct (Hk s1) as (s2 & E2 & R2 & C2).
  exists s2. unfold bind. rewrite E1, E2.
  split; [reflexivity |]. split; [congruence |].
  rewrite C2, C1, app_assoc. reflexivity.
Qed.

Lemma fails_first {A B} (m : M A) (k : A -> M B) e f cs :
  fails m e f cs -> fails (bind m k) e f cs.
Proof.
  intros Hm s. destruct (Hm s) as (s1 & E1 & R1 & C1).
  exists s1. unfold bind. rewrite E1. repeat split; assumption.
Qed.

Lemma runs_try {A} (body : M A) handler a f cs :
  runs body a f cs -> runs (try_except body handler) a f cs.
Proof.
  intros Hb s. destruct (Hb s) as (s1 & E1 & R1 & C1).
  exists s1. unfold try_except. rewrite E1. repeat split; assumption.
Qed.

Lemma runs_handler {A} (body : M A) handler e a f g cs ds :
  fails body e f cs -> is_Exception e = true -> runs (handler e) a g ds ->
  runs (try_except body handler) a (fun r => g (f r)) (cs ++ ds).
Proof.
  intros Hb He Hh s. destruct (Hb s) as (s1 & E1 & R1 & C1).
  destruct (Hh s1) as (s2 & E2 & R2 & C2).
  exists s2. unfold try_except. rewrite E1, He, E2.
  split; [reflexivity |]. split; [congruence |].
  rewrite C2, C1, app_assoc. reflexivity.
Qed.


(** The same path, with the change of the results and the calls
    written differently. *)
Lemma runs_as {A} (m : M A) a f g cs ds :
  runs m a f cs -> (forall r, f r = g r) -> cs = ds -> runs m a g ds.
Proof.
  intros Hm Hf Hc s. destruct (Hm s) as (s1 & E1 & R1 & C1).
  exists s1. split; [exact E1 |]. split; [rewrite R1; apply Hf |].
  rewrite C1, Hc. reflexivity.
Qed.

Lemma fails_as {A} (m : M A) e f g cs ds :
  fails m e f cs -> (forall r, f r = g r) -> cs = ds -> fails m e g ds.
Proof.
  intros Hm Hf Hc s. destruct (Hm s) as (s1 & E1 & R1 & C1).
  exists s1. split; [exact E1 |]. split; [rewrite R1; apply Hf |].
  rewrite C1, Hc. reflexivity.
Qed.

Lemma logged_all_app h1 h2 r :
  logged_all (h1 ++ h2) r = logged_all h2 (logged_all h1 r).
Proof.
  unfold logged_all. apply fold_left_app.
Qed.

(** A loop of recorded tests. *)
Lemma runs_for_each {A} (l : list A) (f : A -> Logged) :
  (forall x, In (l_category (f x)) four_categories) ->
  runs (for_each l (fun x => log_call (f x))) tt (logged_all (map f l)) [].
Proof.
  intros Hc. induction l as [| x l IH]; cbn [for_each map].
  - apply runs_ret.
  - apply (runs_as _ _ _ _ _ _
             (runs_bind _ _ _ _ _ _ _ _
                (runs_log _ (l_name (f x)) (l_passed (f x)) (l_details (f x)) (Hc x))
                IH)).
    + intros r. destruct (f x); reflexivity.
    + reflexivity.
Qed.

(** The tests a sequence of calls on one category appends to it. *)
Lemma logged_all_tests c h r :
  In c four_categories ->
  Forall (fun x => l_category x = c) h ->
  tests_of c (logged_all h r) = (tests_of c r ++ map entry_of h)%list.
Proof.
  intros Hc Hh. revert r.
  induction Hh as [| x h Hx _ IH]; intros r; cbn [map].
  - rewrite app_nil_r. reflexivity.
  - change (logged_all (x :: h) r)
      with (logged_all h (logged (l_category x) (entry_of x) r)).
    rewrite IH, Hx, (ValidateFacts.logged_tests _ _ _ Hc), <- app_assoc.
    reflexivity.
Qed.

(** ** The budget group *)

Lemma budget_checks_run env pid pb budget_list :
  get_project_billing_info env = Ret pb ->
  billing_enabled pb = true ->
  list_budgets env (billing_account_name pb) = Ret budget_list ->
  runs (test_budget_alerts env pid) tt (logged_all (budget_checks budget_list))
    [GetProjectBillingInfo ("projects/" ++ pid);
     ListBudgets (billing_account_name pb)].
Proof.
  intros Hpb Hen Hlist. unfold test_budget_alerts. rewrite Hpb.
  eapply runs_as.
  - eapply runs_bind; [apply runs_print |].
    apply runs_try. eapply runs_bind; [apply runs_api |].
    cbv beta. rewrite Hen. cbn [negb].
    eapply runs_bind; [apply runs_log, in_four_4 |].
    apply runs_try. cbv zeta. rewrite Hlist.
    eapply runs_bind; [apply runs_api |].
    eapply runs_bind; [apply runs_log, in_four_4 |].
    apply (runs_for_each (dressup_budgets_of budget_list) threshold_check).
    intros b. apply in_four_4.
  - intros r. unfold unchanged, budget_checks.
    rewrite logged_all_app. reflexivity.
  - reflexivity.
Qed.

Lemma budget_checks_categories budget_list :
  Forall (fun x => l_category x = "budgets") (budget_checks budget_list).
Proof.
  unfold budget_checks. apply Forall_app. split.
  - repeat constructor.
  - apply Forall_forall. intros x Hx. apply in_map_iff in Hx.
    destruct Hx as (b & E & _). subst x. reflexivity.
Qed.

(** X4.  When billing is enabled and the budgets can be listed, the
    budget group returns having issued exactly the billing lookup and
    one listing of budgets, and having appended to the budget category,
    in order: the passed test 'Billing enabled'; 'Budget alerts
    existence', passed exactly when some budget's display name holds
    'DressUp AI'; and one test per such budget, passed exactly when the
    budget has at least four threshold rules. *)
Theorem budget_group_checks_each_budget (env : Env) (pid : string)
    (pb : ProjectBilling) (budget_list : list Budget) (s : State) :
  get_project_billing_info env = Ret pb ->
  billing_enabled pb = true ->
  list_budgets env (billing_account_name pb) = Ret budget_list ->
  let s' := snd (test_budget_alerts env pid s) in
  fst (test_budget_alerts env pid s) = Ret tt
  /\ tests (budgets (results s'))
     = (tests (budgets (results s))
        ++ map entry_of (budget_checks budget_list))%list
  /\ length (tests (budgets (results s')))
     = length (tests (budgets (results s)))
       + 2 + length (dressup_budgets_of budget_list)
  /\ calls s'
     = (calls s ++ [GetProjectBillingInfo ("projects/" ++ pid);
                    ListBudgets (billing_account_name pb)])%list.
Proof.
  intros Hpb Hen Hlist s'. subst s'.
  destruct (budget_checks_run env pid pb budget_list Hpb Hen Hlist s)
    as (s1 & E & R & C).
  rewrite E. cbn [fst snd].
  assert (Ht : tests (budgets (results s1))
               = (tests (budgets (results s))
                  ++ map entry_of (budget_checks budget_list))%list).
  { rewrite R.
    exact (logged_all_tests "budgets" _ (results s) in_four_4
             (budget_checks_categories budget_list)). }
  split; [reflexivity |]. split; [exact Ht |]. split; [| exact C].
  rewrite Ht, length_app, length_map. unfold budget_checks.
  rewrite length_app, length_map. cbn [length]. lia.
Qed.

(** X5.  When the billing lookup raises an error of class [Exception],
    the budget group returns having recorded the single failed test
    'Billing API access' with the error's text and without listing
    budgets; when billing is enabled and listing the budgets raises such
    an error, it returns having recorded the passed 'Billing enabled'
    and the failed 'Budget alerts access'. *)
Theorem budget_group_records_api_errors (env : Env) (pid : string) (e : exn) :
  is_Exception e = true ->
  (get_project_billing_info env = Raise e ->
   runs (test_budget_alerts env pid) tt
     (logged_all [billing_access_check e])
     [GetProjectBillingInfo ("projects/" ++ pid)])
  /\ (forall pb,
        get_project_billing_info env = Ret pb ->
        billing_enabled pb = true ->
        list_budgets env (billing_account_name pb) = Raise e ->
        runs (test_budget_alerts env pid) tt
          (logged_all (budget_access_checks e))
          [GetProjectBillingInfo ("projects/" ++ pid);
           ListBudgets (billing_account_name pb)]).
Proof.
  intros He. split.
  - intros Hpb. unfold test_budget_alerts. rewrite Hpb.
    eapply runs_as.
    + eapply runs_bind; [apply runs_print |].
      eapply runs_handler; [apply fails_first, fails_api | exact He |].
      apply runs_log, in_four_4.
    + intros r. reflexivity.
    + reflexivity.
  - intros pb Hpb Hen Hlist. unfold test_budget_alerts. rewrite Hpb.
    eapply runs_as.
    + eapply runs_bind; [apply runs_print |].
      apply runs_try. eapply runs_bind; [apply runs_api |].
      cbv beta. rewrite Hen. cbn [negb].
      eapply runs_bind; [apply runs_log, in_four_4 |].
      cbv zeta. rewrite Hlist.
      eapply runs_handler; [apply fails_first, fails_api | exact He |].
      apply runs_log, in_four_4.
    + intros r. reflexivity.
    + reflexivity.
Qed.

(** Witness of X4: the sample project. *)
Lemma budget_group_checks_each_budget_witness :
  let s' := snd (test_budget_alerts healthy "dressup-prod" init_state) in
  fst (test_budget_alerts healthy "dressup-prod" init_state) = Ret tt
  /\ tests (budgets (results s')) = map entry_of (budget_checks sample_budgets)
  /\ length (tests (budgets (results s'))) = 3
  /\ calls s'
     = [GetProjectBillingInfo "projects/dressup-prod";
        ListBudgets "billingAccounts/0X0X0X-0X0X0X-0X0X0X"].
Proof.
  exact (budget_group_checks_each_budget healthy "dressup-prod" sample_billing
           sample_budgets init_state eq_refl eq_refl eq_refl).
Defined.

(** Witness of X5: the sample project when the billing lookup, or the
    listing of budgets, is refused. *)
Lemma budget_group_records_api_errors_witness :
  runs (test_budget_alerts (with_billing (Raise quota_error) healthy) "dressup-prod")
    tt (logged_all [billing_access_check quota_error])
    [GetProjectBillingInfo "projects/dressup-prod"]
  /\ runs (test_budget_alerts (with_budgets (Raise quota_error) healthy) "dressup-prod")
       tt (logged_all (budget_access_checks quota_error))
       [GetProjectBillingInfo "projects/dressup-prod";
        ListBudgets "billingAccounts/0X0X0X-0X0X0X-0X0X0X"].
Proof.
  split.
  - exact (proj1 (budget_group_records_api_errors
                    (with_billing (Raise quota_error) healthy) "dressup-prod"
                    quota_error eq_refl) eq_refl).
  - exact (proj2 (budget_group_records_api_errors
                    (with_budgets (Raise quota_error) healthy) "dressup-prod"
                    quota_error eq_refl) sample_billing eq_refl eq_refl eq_refl).
Defined.

(** ** The log-metrics group *)





Lemma runs_load env expected :
  expected_metrics_of env = Some expected ->
  runs (load_expected_metrics env) expected unchanged [OpenFile "log-metrics.yaml"].
Proof.
  unfold expected_metrics_of, load_expected_metrics, api. intros H s.
  destruct (load_metrics_yaml env) as [names | e].
  - inversion H; subst. eexists. split; [reflexivity |]. split; reflexivity.
  - destruct (is_FileNotFoundError e); [| discriminate].
    inversion H; subst. eexists. split; [reflexivity |]. split; reflexivity.
Qed.

Lemma fails_load env e :
  load_metrics_yaml env = Raise e ->
  is_FileNotFoundError e = false ->
  fails (load_expected_metrics env) e unchanged [OpenFile "log-metrics.yaml"].
Proof.
  unfold load_expected_metrics, api. intros H Hn s. rewrite H, Hn.
  eexists. split; [reflexivity |]. split; reflexivity.
Qed.


Lemma runs_check_failed env expected e :
  list_metric_descriptors env = Raise e ->
  is_Exception e = true ->
  runs (check_metrics_exist env expected) None
    (logged_all [metrics_access_check e]) [ListMetricDescriptors].
Proof.
  intros Hlist He. unfold check_metrics_exist, log_metrics_access. rewrite Hlist.
  eapply runs_as.
  - eapply runs_bind.
    + eapply runs_handler; [apply fails_first, fails_api | exact He |].
      eapply runs_bind; [apply runs_log, in_four_2 | apply runs_ret].
    + cbv beta iota. apply runs_ret.
  - intros r. reflexivity.
  - reflexivity.
Qed.

(** X6.  How the log-metrics group fails.  When reading the catalog
    raises anything but [FileNotFoundError], that error leaves the group
    before any test is recorded and before the descriptors are listed.
    When the listing of the descriptors raises an error of class
    [Exception], the group records the failed test 'Log metrics access'
    and then raises [UnboundLocalError] on [found_metrics], whatever the
    catalog holds. *)
Theorem log_metrics_group_failures (env : Env) :
  (forall e,
      load_metrics_yaml env = Raise e ->
      is_FileNotFoundError e = false ->
      fails (test_log_metrics env) e unchanged [OpenFile "log-metrics.yaml"])
  /\ (forall expected e,
        expected_metrics_of env = Some expected ->
        list_metric_descriptors env = Raise e ->
        is_Exception e = true ->
        fails (test_log_metrics env) (UnboundLocalError "found_metrics")
          (logged_all [metrics_access_check e])
          [OpenFile "log-metrics.yaml"; ListMetricDescriptors]).
Proof.
  split.
  - intros e Hload Hn. unfold test_log_metrics.
    eapply fails_as.
    + eapply fails_bind; [apply runs_print |].
      apply fails_first, (fails_load _ _ Hload Hn).
    + intros r. reflexivity.
    + reflexivity.
  - intros expected e Hexp Hlist He. unfold test_log_metrics.
    eapply fails_as.
    + eapply fails_bind; [apply runs_print |].
      eapply fails_bind; [apply (runs_load _ _ Hexp) |].
      eapply fails_bind; [apply (runs_check_failed _ _ _ Hlist He) |].
      apply fails_raise.
    + intros r. reflexivity.
    + reflexivity.
Qed.




(** Witness of X6: a catalog that does not parse, and the sample
    project whose listing of descriptors fails. *)
Lemma log_metrics_group_failures_witness :
  fails (test_log_metrics
           (with_catalog (Raise (YAMLError "mapping values are not allowed here"))
              healthy))
    (YAMLError "mapping values are not allowed here") unchanged
    [OpenFile "log-metrics.yaml"]
  /\ fails (test_log_metrics listing_fails) (UnboundLocalError "found_metrics")
       (logged_all [metrics_access_check (ApiError "503 Service Unavailable")])
       [OpenFile "log-metrics.yaml"; ListMetricDescriptors].
Proof.
  split.
  - exact (proj1 (log_metrics_group_failures
                    (with_catalog
                       (Raise (YAMLError "mapping values are not allowed here"))
                       healthy))
             (YAMLError "mapping values are not allowed here") eq_refl eq_refl).
  - exact (proj2 (log_metrics_group_failures listing_fails)
             ["error_rate"; "feedback_ratings"]
             (ApiError "503 Service Unavailable") eq_refl eq_refl eq_refl).
Defined.


(** ** The exit status in fact *)


(** ** The dashboard group *)

(** X9.  Once the dashboards are listed, the dashboard group returns
    having recorded 'Dashboard existence', passed exactly when some
    display name holds 'DressUp AI', and then, for the first such
    dashboard only: two tests about its tiles when it has a layout, or
    the failed 'Dashboard layout validation' when it has none; without
    such a dashboard nothing more is recorded.  When the listing raises
    an error of class [Exception] the single failed test 'Dashboard
    access' is recorded. *)
Theorem dashboard_group_inspects_first_match (env : Env) :
  (forall dashboards,
      list_dashboards env = Ret dashboards ->
      runs (test_dashboard env) tt (logged_all (dashboard_checks env dashboards))
        [ListDashboards])
  /\ (forall e,
        list_dashboards env = Raise e ->
        is_Exception e = true ->
        runs (test_dashboard env) tt
          (logged_all [check "dashboard" "Dashboard access" false
                         ("Error accessing dashboard: " ++ str_exn e)])
          [ListDashboards]).
Proof.
  split.
  - intros dashboards Hlist. unfold test_dashboard. rewrite Hlist.
    unfold dashboard_checks, dressup_dashboards_of.
    destruct (List.filter (fun d => contains app_name (display_name d)) dashboards)
      as [| first rest] eqn:Hf.
    + eapply runs_as.
      * eapply runs_bind; [apply runs_print |].
        apply runs_try. eapply runs_bind; [apply runs_api |].
        cbv beta zeta. rewrite Hf.
        eapply runs_bind; [apply runs_log, in_four_3 | apply runs_ret].
      * intros r. reflexivity.
      * reflexivity.
    + destruct (mosaic_layout first) as [tiles |] eqn:Hl.
      * eapply runs_as.
        -- eapply runs_bind; [apply runs_print |].
           apply runs_try. eapply runs_bind; [apply runs_api |].
           cbv beta zeta. rewrite Hf.
           eapply runs_bind; [apply runs_log, in_four_3 |].
           rewrite Hl.
           eapply runs_bind; [apply runs_log, in_four_3 |].
           apply runs_log, in_four_3.
        -- intros r. reflexivity.
        -- reflexivity.
      * eapply runs_as.
        -- eapply runs_bind; [apply runs_print |].
           apply runs_try. eapply runs_bind; [apply runs_api |].
           cbv beta zeta. rewrite Hf.
           eapply runs_bind; [apply runs_log, in_four_3 |].
           rewrite Hl. apply runs_log, in_four_3.
        -- intros r. reflexivity.
        -- reflexivity.
  - intros e Hlist He. unfold test_dashboard. rewrite Hlist.
    eapply runs_as.
    + eapply runs_bind; [apply runs_print |].
      eapply runs_handler; [apply fails_first, fails_api | exact He |].
      apply runs_log, in_four_3.
    + intros r. reflexivity.
    + reflexivity.
Qed.

Lemma flat_map_nonempty {A B} (f : A -> list B) (l : list A) :
  (0 <? length (flat_map f l))%nat = true <-> exists x, In x l /\ f x <> [].
Proof.
  rewrite Nat.ltb_lt. induction l as [| x l IH]; cbn.
  - split; [lia | intros (x & [] & _)].
  - rewrite length_app. split.
    + intros H. destruct (f x) as [| y ys] eqn:E.
      * cbn in H. apply IH in H. destruct H as (z & Hz & Hn).
        exists z. split; [right; exact Hz | exact Hn].
      * exists x. split; [left; reflexivity | rewrite E; discriminate].
    + intros (z & [Ez | Hz] & Hn).
      * subst z. destruct (f x); [contradiction | cbn; lia].
      * assert (0 < length (flat_map f l)) by (apply IH; exists z; auto). lia.
Qed.

(** What the two tests about the tiles look at: a tile counts as a
    widget when its chart or its scorecard is set, and as a metric
    reference when one of its filters holds the prefix of user-defined
    metrics. *)
Lemma tile_tests_meaning (tiles : list Tile) :
  ((0 <? length (flat_map widget_types_of tiles))%nat = true
   <-> exists t, In t tiles
                 /\ (is_some (xy_chart (widget t)) = true
                     \/ is_some (scorecard (widget t)) = true))
  /\ ((0 <? length (flat_map metric_references_of tiles))%nat = true
      <-> exists t, In t tiles /\ metric_references_of t <> []).
Proof.
  split; rewrite flat_map_nonempty; [| reflexivity].
  split; intros (t & Ht & H); exists t; (split; [exact Ht |]).
  - unfold widget_types_of in H.
    destruct (is_some (xy_chart (widget t))); [left; reflexivity |].
    destruct (is_some (scorecard (widget t))); [right; reflexivity |].
    contradiction.
  - unfold widget_types_of.
    destruct H as [H | H]; rewrite H; [discriminate |].
    destruct (is_some (xy_chart (widget t))); discriminate.
Qed.

(** Witness of X9: the sample project, and the same when the listing of
    dashboards is refused. *)
Lemma dashboard_group_inspects_first_match_witness :
  runs (test_dashboard healthy) tt
    (logged_all (dashboard_checks healthy [sample_dashboard])) [ListDashboards]
  /\ length (dashboard_checks healthy [sample_dashboard]) = 3.
Proof.
  split; [| reflexivity].
  exact (proj1 (dashboard_group_inspects_first_match healthy)
           [sample_dashboard] eq_refl).
Defined.

(** ** The structured-logging group *)

Lemma fields_not_in_dict (d : list (string * Json)) :
  fields_not_in required_fields (JDict d)
  = Ret (List.filter (fun f => negb (has_key d f)) required_fields).
Proof.
  unfold required_fields, has_key. cbn.
  destruct (dict_get "eventType" d), (dict_get "timestamp" d),
    (dict_get "functionName" d); reflexivity.
Qed.

(** X10.  When log entries are found and the payload of the first one
    is an object whose [structuredData] is a non-empty object, the
    structured-logging group returns having recorded 'Structured logs
    present' as passed and 'Log structure validation', which passes
    exactly when [eventType], [timestamp] and [functionName] are all
    keys of that object; the other entries are not looked at. *)
Theorem structure_test_needs_three_fields (env : Env) (first : LogEntry)
    (rest : list LogEntry) (p d : list (string * Json)) :
  list_entries env = Ret (first :: rest) ->
  payload first = JDict p ->
  dict_get "structuredData" p = Some (JDict d) ->
  d <> [] ->
  runs (test_structured_logging env) tt
    (logged_all [present_check (S (length rest)); structure_check d])
    [ListEntries]
  /\ (l_passed (structure_check d) = true
      <-> forall f, In f required_fields -> has_key d f = true).
Proof.
  intros Hlist Hp Hd Hne. split.
  - unfold test_structured_logging. rewrite Hlist.
    assert (Hsd : structured_data_of (payload first) = Some (JDict d)).
    { unfold structured_data_of. rewrite Hp, Hd.
      destruct d; [contradiction | reflexivity]. }
    unfold structure_check.
    destruct (List.filter (fun f => negb (has_key d f)) required_fields)
      as [| m ms] eqn:Hm.
    + eapply runs_as.
      * eapply runs_bind; [apply runs_print |].
        apply runs_try. eapply runs_bind; [apply runs_api |].
        cbv beta iota.
        eapply runs_bind; [apply runs_log, in_four_1 |].
        rewrite Hsd, fields_not_in_dict, Hm.
        eapply runs_bind; [apply runs_as with (f := unchanged) (cs := []) |].
        -- intros s. exists s. split; [reflexivity |]. split; [reflexivity |].
           rewrite app_nil_r. reflexivity.
        -- intros r. reflexivity.
        -- reflexivity.
        -- cbv beta iota. apply runs_log, in_four_1.
      * intros r. reflexivity.
      * reflexivity.
    + eapply runs_as.
      * eapply runs_bind; [apply runs_print |].
        apply runs_try. eapply runs_bind; [apply runs_api |].
        cbv beta iota.
        eapply runs_bind; [apply runs_log, in_four_1 |].
        rewrite Hsd, fields_not_in_dict, Hm.
        eapply runs_bind; [apply runs_as with (f := unchanged) (cs := []) |].
        -- intros s. exists s. split; [reflexivity |]. split; [reflexivity |].
           rewrite app_nil_r. reflexivity.
        -- intros r. reflexivity.
        -- reflexivity.
        -- cbv beta iota. apply runs_log, in_four_1.
      * intros r. reflexivity.
      * reflexivity.
  - unfold structure_check.
    destruct (List.filter (fun f => negb (has_key d f)) required_fields)
      as [| m ms] eqn:Hm; cbn [check l_passed].
    + split; [intros _ f Hf | reflexivity].
      destruct (has_key d f) eqn:Hk; [reflexivity |].
      assert (Hin : In f (List.filter (fun f => negb (has_key d f)) required_fields))
        by (apply filter_In; split; [exact Hf | rewrite Hk; reflexivity]).
      rewrite Hm in Hin. contradiction.
    + split; [discriminate |]. intros Hall.
      assert (Hin : In m (List.filter (fun f => negb (has_key d f)) required_fields))
        by (rewrite Hm; left; reflexivity).
      apply filter_In in Hin. destruct Hin as [Hf Hk].
      rewrite (Hall m Hf) in Hk. discriminate.
Qed.

(** Witness of X10: the sample project. *)
Lemma structure_test_needs_three_fields_witness :
  runs (test_structured_logging healthy) tt
    (logged_all
       [present_check 1;
        structure_check [("eventType", JStr "generation");
                         ("timestamp", JStr "2025-01-01T00:00:00Z");
                         ("functionName", JStr "generate")]])
    [ListEntries].
Proof.
  exact (proj1 (structure_test_needs_three_fields healthy sample_entry []
                  [("structuredData",
                    JDict [("eventType", JStr "generation");
                           ("timestamp", JStr "2025-01-01T00:00:00Z");
                           ("functionName", JStr "generate")])]
                  [("eventType", JStr "generation");
                   ("timestamp", JStr "2025-01-01T00:00:00Z");
                   ("functionName", JStr "generate")]
                  eq_refl eq_refl eq_refl
                  ltac:(discriminate))).
Defined.

End RunFacts.

(** * Properties of a whole batch of metrics *)

Module BatchFacts.
Import Py Catalog LogMetrics LogMetricsSpec BatchSpec.

Lemma build_metric_raises mc e :
  build_metric mc = Raise e ->
  exists k, e = KeyError k /\ In k required_keys.
Proof.
  unfold build_metric, item, required_keys.
  destruct (name mc); [| intros H; inversion H; exists "name"; simpl; auto].
  destruct (description mc);
    [| intros H; inversion H; exists "description"; simpl; auto].
  destruct (filter mc); [discriminate |].
  intros H; inversion H; exists "filter"; simpl; auto.
Qed.

Lemma malformed_iff mc :
  malformed mc = true
  <-> name mc = None \/ description mc = None \/ filter mc = None.
Proof.
  unfold malformed, build_metric, item.
  destruct (name mc), (description mc), (filter mc); cbn;
    intuition (discriminate || auto).
Qed.

Section Endpoint.

Variable Cloud : Type.
Variable capi : string -> LogMetric -> Cloud -> outcome LogMetric * Cloud.
Variable uapi : string -> LogMetric -> Cloud -> outcome LogMetric * Cloud.

Lemma process_rejected pid n mc e (s : State Cloud) :
  build_metric mc = Raise e ->
  process_metric Cloud capi uapi pid n mc s
  = (Ret (counts (successful_metrics n) (S (failed_metrics n))),
     {| cloud := cloud s;
        stdout := (stdout s ++ [rejected_line mc e])%list;
        calls := calls s |}).
Proof.
  intros Hb.
  destruct (build_metric_raises _ _ Hb) as (k & Ek & _). subst e.
  unfold process_metric, create_log_metric, try_except, bind, lift, print, ret,
    rejected_line, name_or_unknown, counts.
  rewrite Hb. cbn [is_Exception]. reflexivity.
Qed.

(** X11.  An entry that lacks ['name'], ['description'] or ['filter']
    reaches no endpoint: [create_log_metric] raises [KeyError] on the
    first missing key while it builds the request, the loop of [main]
    prints the failure under the entry's name (or 'unknown') and counts
    the entry as failed, and goes on. *)
Theorem entry_without_required_key_is_rejected pid n mc e (s : State Cloud) :
  build_metric mc = Raise e ->
  (exists k, e = KeyError k /\ In k required_keys)
  /\ process_metric Cloud capi uapi pid n mc s
     = (Ret (counts (successful_metrics n) (S (failed_metrics n))),
        {| cloud := cloud s;
           stdout := (stdout s ++ [rejected_line mc e])%list;
           calls := calls s |}).
Proof.
  intros Hb. split.
  - apply (build_metric_raises _ _ Hb).
  - apply process_rejected, Hb.
Qed.

Lemma process_metric_counts pid n mc (s : State Cloud) n' s' :
  process_metric Cloud capi uapi pid n mc s = (Ret n', s') ->
  n' = if malformed mc
       then counts (successful_metrics n) (S (failed_metrics n))
       else counts (S (successful_metrics n)) (failed_metrics n).
Proof.
  intros H. unfold malformed.
  destruct (build_metric mc) as [metric | e] eqn:Hb.
  - pose proof (LogMetricsFacts.process_counts Cloud capi uapi pid n mc metric s Hb)
      as Hc.
    rewrite H in Hc. exact Hc.
  - pose proof (process_rejected pid n mc e s Hb) as E.
    rewrite E in H. inversion H; subst. reflexivity.
Qed.

Lemma process_all_counts pid l :
  forall n (s : State Cloud) n' s',
    process_all Cloud capi uapi pid n l s = (Ret n', s') ->
    failed_metrics n' = failed_metrics n + length (List.filter malformed l)
    /\ successful_metrics n'
       = successful_metrics n + length (List.filter well_formed l)
    /\ successful_metrics n' + failed_metrics n'
       = successful_metrics n + failed_metrics n + length l.
Proof.
  induction l as [| mc l IH]; intros n s n' s' H; cbn [process_all] in H.
  - inversion H; subst. cbn. lia.
  - unfold bind in H.
    destruct (process_metric Cloud capi uapi pid n mc s) as [[n1 | e] s1] eqn:E1;
      [| discriminate].
    apply process_metric_counts in E1.
    destruct (IH n1 s1 n' s' H) as (Hf & Hs & Ht).
    cbn [List.filter]. unfold well_formed in *.
    destruct (malformed mc); subst n1; cbn [negb length] in *;
      cbn [successful_metrics failed_metrics counts] in *; lia.
Qed.

(** X12.  When the loop over the catalog ends, the failure counter has
    grown by the number of entries that lack a required key and the
    success counter by the number of all other entries, whatever the
    endpoint answered for them: the two counters together have grown by
    the length of the catalog. *)
Theorem failed_counts_the_malformed_entries pid l :
  forall n (s : State Cloud) n' s',
    process_all Cloud capi uapi pid n l s = (Ret n', s') ->
    failed_metrics n' = failed_metrics n + length (List.filter malformed l)
    /\ successful_metrics n'
       = successful_metrics n + length (List.filter well_formed l)
    /\ successful_metrics n' + failed_metrics n'
       = successful_metrics n + failed_metrics n + length l.
Proof.
  exact (process_all_counts pid l).
Qed.

(** X13.  A fatal start issues no call: when the command line does not
    have exactly one argument, when reading the catalog raises, or when
    the client cannot be built, [main] ends without any call to the
    endpoint and without touching the cloud, and not with status 0. *)
Theorem fatal_start_issues_no_call (argv : list string) (load : outcome Config)
    (new_client : outcome unit) (c0 : Cloud) :
  length argv <> 2 \/ (exists e, load = Raise e) \/ (exists e, new_client = Raise e) ->
  let r := main Cloud capi uapi argv load new_client c0 in
  calls (snd r) = [] /\ cloud (snd r) = c0 /\ fst r <> Exit 0.
Proof.
  intros H. cbv zeta. unfold main.
  destruct argv as [| a0 [| project_id [| a2 rest]]];
    try (cbn; repeat split; discriminate).
  destruct H as [H | [(e & H) | (e & H)]]; [cbn in H; lia | |].
  - subst load. destruct e; cbn; repeat split; discriminate.
  - subst new_client. destruct load as [config | e'].
    + destruct (is_Exception e) eqn:He; cbn; rewrite ?He; cbn;
        repeat split; discriminate.
    + destruct e'; cbn; repeat split; discriminate.
Qed.

(** *** The batch always ends *)

Hypothesis capi_safe : never_interrupts capi.
Hypothesis uapi_safe : never_interrupts uapi.

Lemma process_metric_returns pid n mc (s : State Cloud) :
  exists n' s', process_metric Cloud capi uapi pid n mc s = (Ret n', s').
Proof.
  destruct (build_metric mc) as [metric | e] eqn:Hb.
  - destruct (capi (parent_of pid) metric (cloud s)) as [[r | e] c1] eqn:Hc.
    + rewrite (LogMetricsFacts.process_created _ _ _ _ _ _ _ _ _ _ Hb Hc).
      eexists; eexists; reflexivity.
    + destruct (is_Exception e) eqn:He.
      * destruct (already_exists e) eqn:Ha.
        -- destruct (uapi (metric_path pid metric) metric c1) as [[r | e'] c2] eqn:Hu.
           ++ rewrite (LogMetricsFacts.process_updated
                         _ _ _ _ _ _ _ _ _ _ _ _ Hb Hc He Ha Hu).
              eexists; eexists; reflexivity.
           ++ destruct (is_Exception e') eqn:He'.
              ** rewrite (LogMetricsFacts.process_update_failed
                            _ _ _ _ _ _ _ _ _ _ _ _ Hb Hc He Ha Hu He').
                 eexists; eexists; reflexivity.
              ** exfalso. apply (uapi_safe (metric_path pid metric) metric c1).
                 rewrite Hu. cbn.
                 rewrite (RunFacts.not_Exception_interrupt _ He'). reflexivity.
        -- rewrite (LogMetricsFacts.process_create_failed
                      _ _ _ _ _ _ _ _ _ _ Hb Hc He Ha).
           eexists; eexists; reflexivity.
      * exfalso. apply (capi_safe (parent_of pid) metric (cloud s)).
        rewrite Hc. cbn.
        rewrite (RunFacts.not_Exception_interrupt _ He). reflexivity.
  - pose proof (process_rejected pid n mc e s Hb) as E.
    rewrite E. eexists; eexists; reflexivity.
Qed.

Lemma process_all_returns pid l :
  forall n (s : State Cloud),
    exists n' s', process_all Cloud capi uapi pid n l s = (Ret n', s').
Proof.
  induction l as [| mc l IH]; intros n s; cbn [process_all].
  - exists n, s. reflexivity.
  - unfold bind.
    destruct (process_metric_returns pid n mc s) as (n1 & s1 & E1). rewrite E1.
    apply IH.
Qed.

Lemma appends_when b line :
  LogMetricsSpec.appends Cloud (when b (print line)) (if b then [line] else []).
Proof.
  destruct b; [apply LogMetricsFacts.appends_print
              | apply LogMetricsFacts.appends_nothing].
Qed.

Lemma appends_listing_of mc :
  listable mc = true ->
  LogMetricsSpec.appends Cloud (print_listing Cloud mc) [listing_of mc].
Proof.
  unfold listable, listing_of, print_listing, lift, bind, item.
  intros H s. destruct (name mc), (description mc); try discriminate.
  reflexivity.
Qed.

Lemma appends_listings l :
  forallb listable l = true ->
  LogMetricsSpec.appends Cloud (for_each l (print_listing Cloud)) (map listing_of l).
Proof.
  induction l as [| mc l IH]; cbn [forallb for_each map]; intros H.
  - apply LogMetricsFacts.appends_nothing.
  - apply andb_true_iff in H. destruct H as [H1 H2].
    apply (LogMetricsFacts.appends_seq _ _ _ [_]);
      [apply appends_listing_of, H1 | apply IH, H2].
Qed.

Lemma create_and_report_returns pid config (s : State Cloud) :
  forallb listable (metrics_or_empty config) = true ->
  exists n' s',
    create_and_report Cloud capi uapi pid config s = (Ret n', s')
    /\ In (summary_line (length (List.filter well_formed (metrics_or_empty config))))
          (stdout s').
Proof.
  intros Hl. unfold create_and_report.
  repeat (rewrite (LogMetricsFacts.appends_bind _ _ _ _ _
                     (LogMetricsFacts.appends_print _ _));
          cbn [cloud stdout calls]).
  match goal with
  | |- context [bind (process_all _ _ _ _ ?n ?l) _ ?s0] =>
      destruct (process_all_returns pid l n s0) as (n' & s1 & E);
      rewrite (ValidateFacts.bind_ret_eq _ _ _ _ _ E);
      destruct (process_all_counts _ _ _ _ _ _ E) as (_ & Hs & _)
  end.
  cbn [successful_metrics plus] in Hs.
  repeat (first
    [ rewrite (LogMetricsFacts.appends_bind _ _ _ _ _
                 (LogMetricsFacts.appends_print _ _))
    | rewrite (LogMetricsFacts.appends_bind _ _ _ _ _ (appends_when _ _))
    | rewrite (LogMetricsFacts.appends_bind _ _ _ _ _ (appends_listings _ Hl))
    | rewrite (LogMetricsFacts.appends_bind _ _ _ _ _
                 (LogMetricsFacts.appends_dashboard _ _)) ];
    cbn [cloud stdout calls]).
  unfold ret. eexists; eexists. split; [reflexivity |].
  cbn [stdout]. rewrite Hs. unfold summary_line.
  rewrite !in_app_iff. cbn [In]. tauto.
Qed.

(** X14.  The exit status does not tell failures.  When the command
    line, the catalog and the client are in order, every entry has a
    name and a description, and the endpoint does not let an interrupt
    through, [main] ends with status 0 whatever the endpoint answers and
    however many entries failed; its summary line carries the number of
    entries that have their three required keys. *)
Theorem batch_exits_0_whatever_failed (prog project_id : string)
    (config : Config) (c0 : Cloud) :
  forallb listable (metrics_or_empty config) = true ->
  let r := main Cloud capi uapi [prog; project_id] (Ret config) (Ret tt) c0 in
  fst r = Exit 0
  /\ In (summary_line (length (List.filter well_formed (metrics_or_empty config))))
        (stdout (snd r)).
Proof.
  intros Hl. cbv zeta. unfold main. cbn [bind print].
  match goal with
  | |- context [create_and_report _ _ _ _ _ ?s0] =>
      destruct (create_and_report_returns project_id config s0 Hl)
        as (n' & s' & E & Hin)
  end.
  rewrite E. split; [reflexivity | exact Hin].
Qed.


Lemma listing_fails l :
  forall k (s : State Cloud),
    first_unlistable l = Some k ->
    exists lines,
      for_each l (print_listing Cloud) s
      = (Raise (KeyError k),
         {| cloud := cloud s; stdout := (stdout s ++ lines)%list;
            calls := calls s |}).
Proof.
  induction l as [| mc l IH]; intros k s H; cbn [first_unlistable for_each] in *.
  - discriminate.
  - unfold bind at 1, print_listing at 1, lift, bind, item.
    destruct (name mc) as [n |]; [| inversion H; subst; exists [];
                                    rewrite app_nil_r; destruct s; reflexivity].
    destruct (description mc) as [d |];
      [| inversion H; subst; exists []; rewrite app_nil_r; destruct s; reflexivity].
    cbn [print].
    set (line := "   • " ++ n ++ ": " ++ d).
    destruct (IH k {| cloud := cloud s;
                      stdout := (stdout s ++ [line])%list;
                      calls := calls s |} H) as (lines & E).
    unfold print. rewrite E. cbn [cloud stdout calls].
    exists ([line] ++ lines)%list.
    rewrite app_assoc. reflexivity.
Qed.


End Endpoint.



Lemma denied_create_safe : never_interrupts denied_create.
Proof. intros a m c. discriminate. Qed.

Lemma failing_update_safe : never_interrupts failing_update.
Proof. intros a m c. discriminate. Qed.

(** Witness of X13: a command line without the project. *)
Lemma fatal_start_issues_no_call_witness :
  let r := main Names names_create names_update ["create-log-metrics.py"]
             (Ret (catalog [entry_a])) (Ret tt) ["error_rate"] in
  calls (snd r) = [] /\ cloud (snd r) = ["error_rate"] /\ fst r <> Exit 0.
Proof.
  apply (fatal_start_issues_no_call Names names_create names_update
           ["create-log-metrics.py"] (Ret (catalog [entry_a])) (Ret tt)
           ["error_rate"]).
  left. cbn. lia.
Defined.

(** Witness of X14: an endpoint that refuses every creation. *)
Lemma batch_exits_0_whatever_failed_witness :
  let r := main unit denied_create failing_update
             ["create-log-metrics.py"; "dressup-prod"]
             (Ret (catalog [entry_a; entry_b])) (Ret tt) tt in
  fst r = Exit 0 /\ In (summary_line 2) (stdout (snd r)).
Proof.
  exact (batch_exits_0_whatever_failed unit denied_create failing_update
           denied_create_safe failing_update_safe
           "create-log-metrics.py" "dressup-prod" (catalog [entry_a; entry_b]) tt
           eq_refl).
Defined.


(** Witness of X11: a nameless entry. *)
Lemma entry_without_required_key_is_rejected_witness :
  process_metric Names names_create names_update "dressup-prod" no_counts
    nameless_entry (start [])
  = (Ret (counts 0 1),
     {| cloud := [];
        stdout := ["❌ Failed to create metric unknown: 'name'"];
        calls := [] |}).
Proof.
  exact (proj2 (entry_without_required_key_is_rejected Names names_create
                  names_update "dressup-prod" no_counts nameless_entry
                  (KeyError "name") (start []) eq_refl)).
Defined.

(** Witness of X12: one entry without filter among three. *)
Lemma failed_counts_the_malformed_entries_witness :
  let r := process_all Names names_create names_update "dressup-prod" no_counts
             [entry_a; entry_without_filter; entry_b] (start ["error_rate"]) in
  fst r = Ret (counts 2 1)
  /\ failed_metrics (counts 2 1)
     = 0 + length (List.filter malformed [entry_a; entry_without_filter; entry_b]).
Proof.
  cbv zeta. split; [vm_compute; reflexivity |].
  assert (E : process_all Names names_create names_update "dressup-prod" no_counts
                [entry_a; entry_without_filter; entry_b] (start ["error_rate"])
              = (Ret (counts 2 1),
                 snd (process_all Names names_create names_update "dressup-prod"
                        no_counts [entry_a; entry_without_filter; entry_b]
                        (start ["error_rate"]))))
    by (vm_compute; reflexivity).
  exact (proj1 (failed_counts_the_malformed_entries Names names_create names_update
                  "dressup-prod" _ _ _ _ _ E)).
Defined.

End BatchFacts.

(** * Properties of the budget provisioner's [main] *)

Module BudgetsMainFacts.
Import Py Budgets BudgetsMain.

(** ** The account identifier *)

Lemma rsplit_last_from_none c s :
  has_char c s = false -> forall acc, rsplit_last_from c acc s = acc.
Proof.
  induction s as [| a s IH]; cbn; intros H acc.
  - reflexivity.
  - apply orb_false_iff in H. destruct H as [Ha Hs].
    rewrite Ha. apply IH, Hs.
Qed.

Lemma account_id_of_name id :
  has_char "/" id = false ->
  rsplit_last "/" ("billingAccounts/" ++ id) = id.
Proof.
  intros H. unfold rsplit_last. cbn.
  apply rsplit_last_from_none, H.
Qed.

(** ** Statements that return *)

Lemma completes_ret {S A} (a : A) : completes (ret a : M S A).
Proof. intros s. exists a, s. reflexivity. Qed.

Lemma completes_bind {S A B} (m : M S A) (k : A -> M S B) :
  completes m -> (forall a, completes (k a)) -> completes (bind m k).
Proof.
  intros Hm Hk s. destruct (Hm s) as (a & s1 & E). unfold bind. rewrite E.
  apply Hk.
Qed.

Lemma completes_when {S} b (m : M S unit) : completes m -> completes (when b m).
Proof.
  intros Hm. destruct b; [exact Hm | apply completes_ret].
Qed.

Lemma completes_for_each {S A} (l : list A) (body : A -> M S unit) :
  (forall x, completes (body x)) -> completes (for_each l body).
Proof.
  intros Hb. induction l as [| x l IH]; cbn [for_each].
  - apply completes_ret.
  - apply completes_bind; [apply Hb | intros _; exact IH].
Qed.

Section Endpoint.

Variable Cloud : Type.
Variable api : string -> Budget -> Cloud -> outcome string * Cloud.

Lemma completes_print line : completes (print (Cloud := Cloud) line).
Proof. intros s. eexists; eexists; reflexivity. Qed.

(** One of the three blocks: the call is issued, and counted when it
    is answered. *)
Lemma create_one_submits label ba pid amount dname services_ n (s : State Cloud) :
  never_interrupts api ->
  let budget := build_budget pid amount dname services_ None in
  let a := api (parent_of ba) budget (cloud s) in
  let r := create_one Cloud api label ba pid amount dname services_ n s in
  fst r = Ret (n + answered (fst a))
  /\ calls (snd r) = (calls s ++ [CreateBudget (parent_of ba) budget])%list
  /\ cloud (snd r) = snd a.
Proof.
  intros Hsafe. cbv zeta.
  pose proof (Hsafe (parent_of ba) (build_budget pid amount dname services_ None)
                (cloud s)) as Hs.
  unfold create_one, create_budget, try_except, client_create_budget, bind, print,
    raise, ret, parent_of in *.
  cbn [cloud stdout calls].
  destruct (api _ _ (cloud s)) as [[name | e] c1]; cbn [fst snd answered] in *.
  - cbn. split; [f_equal; lia |]. split; reflexivity.
  - destruct (is_Exception e) eqn:He.
    + cbn. rewrite He. cbn. split; [f_equal; lia |]. split; reflexivity.
    + exfalso. apply Hs. rewrite (RunFacts.not_Exception_interrupt _ He).
      reflexivity.
Qed.

(** X16.  A refused budget does not block the others.  Whatever the
    endpoint answers, short of an interrupt, [main] submits exactly
    three budgets in this order: the daily one, the monthly one, and the
    Vertex AI one, which has half the monthly amount, rounded down, and
    only the Vertex AI service in scope; the number it reports as
    created is the number of calls the endpoint answered. *)
Theorem three_budgets_are_always_submitted (ba pid : string)
    (daily monthly : Z) (s : State Cloud) :
  never_interrupts api ->
  let a1 := api (parent_of ba) (daily_of pid daily) (cloud s) in
  let a2 := api (parent_of ba) (monthly_of pid monthly) (snd a1) in
  let a3 := api (parent_of ba) (vertex_of pid monthly) (snd a2) in
  let r := create_budgets Cloud api ba pid daily monthly s in
  fst r = Ret (answered (fst a1) + answered (fst a2) + answered (fst a3))
  /\ calls (snd r)
     = (calls s ++ [CreateBudget (parent_of ba) (daily_of pid daily);
                    CreateBudget (parent_of ba) (monthly_of pid monthly);
                    CreateBudget (parent_of ba) (vertex_of pid monthly)])%list
  /\ cloud (snd r) = snd a3
  /\ units (amount (vertex_of pid monthly)) = (monthly / 2)%Z
  /\ (2 * (monthly / 2) <= monthly < 2 * (monthly / 2) + 2)%Z
  /\ services (budget_filter (vertex_of pid monthly))
     = ["services/aiplatform.googleapis.com"].
Proof.
  intros Hsafe. cbv zeta. unfold create_budgets, bind.
  destruct (create_one_submits "daily" ba pid daily
              ("DressUp AI - Daily Budget ($" ++ str_Z daily ++ ")") None 0 s Hsafe)
    as (R1 & C1 & K1).
  destruct (create_one Cloud api "daily" ba pid daily _ None 0 s) as [o1 s1].
  cbn [fst snd] in *. subst o1.
  destruct (create_one_submits "monthly" ba pid monthly
              ("DressUp AI - Monthly Budget ($" ++ str_Z monthly ++ ")") None
              (0 + answered (fst (api (parent_of ba) (daily_of pid daily) (cloud s))))
              s1 Hsafe)
    as (R2 & C2 & K2).
  destruct (create_one Cloud api "monthly" ba pid monthly _ None _ s1) as [o2 s2].
  cbn [fst snd] in *. subst o2.
  match goal with
  | |- context [create_one Cloud api "Vertex AI" ba pid ?amt ?dn ?sv ?n s2] =>
      destruct (create_one_submits "Vertex AI" ba pid amt dn sv n s2 Hsafe)
        as (R3 & C3 & K3)
  end.
  rewrite K1 in *. rewrite K2 in *.
  split; [rewrite R3; reflexivity |].
  split; [rewrite C3, C2, C1, <- !app_assoc; reflexivity |].
  split; [exact K3 |].
  split; [reflexivity |].
  split; [| reflexivity].
  pose proof (Z.div_mod monthly 2 ltac:(lia)) as Hd.
  pose proof (Z.mod_pos_bound monthly 2 ltac:(lia)) as Hm.
  lia.
Qed.

Variable new_client : outcome unit.

(** X17.  The account identifier survives the round trip.  When
    billing is enabled and the account's resource name is
    [billingAccounts/<id>] with no further slash, the lookup returns
    [<id>] without printing anything, and the parent under which
    [create_budget] then submits a budget is the account's resource name
    again. *)
Theorem account_name_round_trip (info : ProjectBillingInfo) (id pid : string) :
  billing_enabled info = true ->
  billing_account_name info = "billingAccounts/" ++ id ->
  has_char "/" id = false ->
  (forall s : State Cloud,
      get_billing_account_id Cloud (Ret info) pid s = (Ret id, s))
  /\ (forall amount dname services_ channels (s : State Cloud),
        calls (snd (create_budget Cloud api id pid amount dname services_ channels s))
        = (calls s ++ [CreateBudget (billing_account_name info)
                         (build_budget pid amount dname services_ channels)])%list).
Proof.
  intros Hen Hname Hid. split.
  - intros s. unfold get_billing_account_id, try_except, bind, lift, ret.
    rewrite Hen, Hname. cbn [negb].
    rewrite (account_id_of_name _ Hid). reflexivity.
  - intros amount dname services_ channels s.
    rewrite Hname. apply BudgetsFacts.create_budget_calls.
Qed.

(** X18.  Without billing nothing is submitted.  When billing is
    disabled for the project, or the lookup raises an error of class
    [Exception], [main] ends with status 1 without any call to the
    budgets endpoint; the failure is printed twice, once by the lookup
    and once by [main]. *)
Theorem billing_failure_is_fatal (lookup : outcome ProjectBillingInfo)
    (args : Args) (c0 : Cloud) (e : exn) :
  (lookup = Raise e /\ is_Exception e = true)
  \/ (exists info, lookup = Ret info /\ billing_enabled info = false
                   /\ e = ApiError ("Billing is not enabled for project "
                                     ++ project_id args)) ->
  let r := main Cloud api lookup new_client args c0 in
  fst r = LogMetrics.Exit 1
  /\ calls (snd r) = []
  /\ cloud (snd r) = c0
  /\ stdout (snd r)
     = (stdout (snd (print_header Cloud args
                       {| cloud := c0; stdout := []; calls := [] |}))
        ++ [failure_line e; failure_line e])%list.
Proof.
  intros H. cbv zeta. unfold main, get_billing_account_id, try_except, bind,
    lift, raise, failure_line.
  destruct (print_header Cloud args {| cloud := c0; stdout := []; calls := [] |})
    as [o s1] eqn:Eh.
  assert (Hs1 : calls s1 = [] /\ cloud s1 = c0).
  { unfold print_header, bind, print, ret in Eh.
    destruct (email_given args); inversion Eh; subst; cbn; split; reflexivity. }
  destruct Hs1 as [Hc Hk]. cbn [snd].
  destruct H as [[Hl He] | (info & Hl & Hoff & Ee)]; subst lookup.
  - rewrite He. cbn [print fst snd]. rewrite He.
    cbn [fst snd calls cloud stdout].
    rewrite <- app_assoc. repeat split; assumption.
  - rewrite Hoff. cbn [negb is_Exception print fst snd]. subst e.
    cbn [is_Exception fst snd calls cloud stdout str_exn].
    rewrite <- app_assoc. repeat split; assumption.
Qed.

Lemma completes_create_one label ba pid amount dname services_ n :
  never_interrupts api ->
  completes (create_one Cloud api label ba pid amount dname services_ n).
Proof.
  intros Hsafe s.
  destruct (create_one_submits label ba pid amount dname services_ n s Hsafe)
    as (R & _).
  destruct (create_one Cloud api label ba pid amount dname services_ n s)
    as [o s'].
  cbn [fst] in R. subst o. eexists; eexists; reflexivity.
Qed.

Lemma completes_create_and_summarize args ba :
  never_interrupts api ->
  completes (create_and_summarize Cloud api args ba).
Proof.
  intros Hsafe. unfold create_and_summarize, create_budgets.
  apply completes_bind; [apply completes_print | intros _].
  apply completes_bind.
  { apply completes_bind; [apply completes_create_one, Hsafe | intros n1].
    apply completes_bind; [apply completes_create_one, Hsafe | intros n2].
    apply completes_create_one, Hsafe. }
  intros n.
  repeat (apply completes_bind; [apply completes_print | intros _]).
  apply completes_bind.
  { apply completes_when, completes_for_each. intros x. apply completes_print. }
  intros _. apply completes_bind; [| intros _; apply completes_ret].
  destruct (email_given args); [| apply completes_ret].
  repeat (apply completes_bind; [apply completes_print | intros _]).
  apply completes_print.
Qed.

(** X19.  The exit status does not tell refused budgets.  When billing
    is enabled and the client is built, [main] ends with status 0
    whatever the endpoint answers, short of an interrupt, also when no
    budget at all was created. *)
Theorem budgets_exit_0_whatever_refused (info : ProjectBillingInfo)
    (args : Args) (c0 : Cloud) :
  never_interrupts api ->
  billing_enabled info = true ->
  new_client = Ret tt ->
  fst (main Cloud api (Ret info) new_client args c0) = LogMetrics.Exit 0.
Proof.
  intros Hsafe Hen Hnew. unfold main, get_billing_account_id, try_except, bind,
    lift, ret.
  rewrite Hen, Hnew. cbn [negb snd].
  match goal with
  | |- context [create_and_summarize Cloud api args ?ba ?s] =>
      destruct (completes_create_and_summarize args ba Hsafe s) as (n & s' & E);
      rewrite E
  end.
  reflexivity.
Qed.

End Endpoint.

Lemma numbering_safe : never_interrupts numbering.
Proof. intros a b c. discriminate. Qed.

Lemma refusing_safe : never_interrupts refusing.
Proof. intros a b c. discriminate. Qed.

(** Witness of X16: an endpoint that refuses every budget. *)
Lemma three_budgets_are_always_submitted_witness :
  let r := create_budgets unit refusing "0X0X0X" "dressup-prod" 50 1501
             {| cloud := tt; stdout := []; calls := [] |} in
  fst r = Ret 0
  /\ calls (snd r)
     = [CreateBudget "billingAccounts/0X0X0X" (daily_of "dressup-prod" 50);
        CreateBudget "billingAccounts/0X0X0X" (monthly_of "dressup-prod" 1501);
        CreateBudget "billingAccounts/0X0X0X" (vertex_of "dressup-prod" 1501)]
  /\ units (amount (vertex_of "dressup-prod" 1501)) = 750%Z.
Proof.
  destruct (three_budgets_are_always_submitted unit refusing "0X0X0X" "dressup-prod"
              50 1501 {| cloud := tt; stdout := []; calls := [] |} refusing_safe)
    as (R & C & _ & U & _).
  split; [exact R |]. split; [exact C | exact U].
Defined.

(** Witness of X17. *)
Lemma account_name_round_trip_witness :
  get_billing_account_id unit
    (Ret {| billing_enabled := true;
            billing_account_name := "billingAccounts/0X0X0X-0X0X0X-0X0X0X" |})
    "dressup-prod" {| cloud := tt; stdout := []; calls := [] |}
  = (Ret "0X0X0X-0X0X0X-0X0X0X", {| cloud := tt; stdout := []; calls := [] |}).
Proof.
  exact (proj1 (account_name_round_trip unit refusing
                  {| billing_enabled := true;
                     billing_account_name := "billingAccounts/0X0X0X-0X0X0X-0X0X0X" |}
                  "0X0X0X-0X0X0X-0X0X0X" "dressup-prod" eq_refl eq_refl eq_refl)
           {| cloud := tt; stdout := []; calls := [] |}).
Defined.

(** Witness of X18: billing disabled. *)
Lemma billing_failure_is_fatal_witness :
  let r := main nat numbering disabled_lookup (Ret tt) sample_args 0 in
  fst r = LogMetrics.Exit 1 /\ calls (snd r) = [] /\ cloud (snd r) = 0.
Proof.
  destruct (billing_failure_is_fatal nat numbering (Ret tt) disabled_lookup
              sample_args 0
              (ApiError "Billing is not enabled for project dressup-prod"))
    as (R & C & K & _).
  - right. eexists. split; [reflexivity |]. split; reflexivity.
  - split; [exact R |]. split; [exact C | exact K].
Defined.

(** Witness of X19: every budget refused. *)
Lemma budgets_exit_0_whatever_refused_witness :
  fst (main unit refusing sample_lookup (Ret tt) sample_args tt) = LogMetrics.Exit 0.
Proof.
  exact (budgets_exit_0_whatever_refused unit refusing (Ret tt)
           {| billing_enabled := true;
              billing_account_name := "billingAccounts/0X0X0X-0X0X0X-0X0X0X" |}
           sample_args tt refusing_safe eq_refl eq_refl).
Defined.

End BudgetsMainFacts.

(** * Properties of the extraction of metric names *)

Module ExtractFacts.
Import Py Catalog DashboardConfig DashboardSpec ExtractSpec.
Import BudgetsMain.

(** ** Strings *)

Lemma startswith_within (q : ascii) (sep a b : string) :
  has_char q sep = false ->
  startswith sep (a ++ String q b) = startswith sep a.
Proof.
  revert a. induction sep as [| c sep IH]; intros a H; cbn.
  - reflexivity.
  - cbn in H. apply orb_false_iff in H. destruct H as [Hc Hs].
    destruct a as [| x a]; cbn.
    + rewrite Hc. reflexivity.
    + rewrite (IH a Hs). reflexivity.
Qed.

Lemma contains_snoc (q : ascii) (sep a : string) :
  has_char q sep = false -> sep <> EmptyString ->
  contains sep (a ++ String q EmptyString) = contains sep a.
Proof.
  intros H Hne. induction a as [| x a IH].
  - destruct sep as [| c sep]; [contradiction |].
    cbn in *. apply orb_false_iff in H. destruct H as [Hc _].
    rewrite Hc. reflexivity.
  - change ((String x a) ++ String q EmptyString)
      with (String x (a ++ String q EmptyString)).
    cbn [contains]. rewrite IH.
    change (String x (a ++ String q EmptyString))
      with ((String x a) ++ String q EmptyString).
    rewrite (startswith_within q sep (String x a) EmptyString H). reflexivity.
Qed.

Lemma contains_head sep a : contains sep a = false -> startswith sep a = false.
Proof.
  destruct a; cbn; intros H; apply orb_false_iff in H; apply H.
Qed.

Lemma contains_tail sep x a : contains sep (String x a) = false -> contains sep a = false.
Proof.
  cbn [contains]. intros H. apply orb_false_iff in H. apply H.
Qed.

Lemma until_sep_none sep a : contains sep a = false -> until_sep sep a = a.
Proof.
  induction a as [| x a IH]; intros H; cbn [until_sep].
  - reflexivity.
  - rewrite (contains_head _ _ H), (IH (contains_tail _ _ _ H)). reflexivity.
Qed.

Lemma until_sep_stop (q : ascii) (sep a b : string) :
  has_char q sep = false -> contains sep a = false ->
  until_sep sep (a ++ String q b) = a ++ until_sep sep (String q b).
Proof.
  intros Hq. induction a as [| x a IH]; intros H.
  - reflexivity.
  - change ((String x a) ++ String q b) with (String x (a ++ String q b)).
    cbn [until_sep].
    change (String x (a ++ String q b)) with ((String x a) ++ String q b).
    rewrite (startswith_within q sep (String x a) b Hq), (contains_head _ _ H).
    rewrite (IH (contains_tail _ _ _ H)). reflexivity.
Qed.

Lemma until_char (c : ascii) (a t : string) :
  has_char c a = false ->
  until_sep (String c EmptyString) (a ++ String c t) = a.
Proof.
  induction a as [| x a IH]; intros H; cbn.
  - rewrite Ascii.eqb_refl. reflexivity.
  - cbn in H. apply orb_false_iff in H. destruct H as [Hx Ha].
    rewrite Ascii.eqb_sym, Hx. cbn. rewrite (IH Ha). reflexivity.
Qed.

Lemma until_char_none (c : ascii) (a : string) :
  has_char c a = false -> until_sep (String c EmptyString) a = a.
Proof.
  induction a as [| x a IH]; intros H; cbn.
  - reflexivity.
  - cbn in H. apply orb_false_iff in H. destruct H as [Hx Ha].
    rewrite Ascii.eqb_sym, Hx. cbn. rewrite (IH Ha). reflexivity.
Qed.

Lemma rstrip_none (c : ascii) (a : string) :
  has_char c a = false -> rstrip c a = a.
Proof.
  induction a as [| x a IH]; intros H; cbn.
  - reflexivity.
  - cbn in H. apply orb_false_iff in H. destruct H as [Hx Ha].
    rewrite (IH Ha). destruct a; [rewrite Hx |]; reflexivity.
Qed.

Lemma rstrip_snoc (c : ascii) (a : string) :
  rstrip c (a ++ String c EmptyString) = rstrip c a.
Proof.
  induction a as [| x a IH]; cbn.
  - rewrite Ascii.eqb_refl. reflexivity.
  - rewrite IH. reflexivity.
Qed.

Lemma replace_none (old new m : string) :
  contains old m = false -> replace_from old new 0 m = m.
Proof.
  induction m as [| x m IH]; intros H; cbn [replace_from].
  - reflexivity.
  - rewrite (contains_head _ _ H), (IH (contains_tail _ _ _ H)). reflexivity.
Qed.

Lemma has_char_app c a b :
  has_char c (a ++ b) = has_char c a || has_char c b.
Proof.
  induction a as [| x a IH]; cbn; [reflexivity |].
  rewrite IH, orb_assoc. reflexivity.
Qed.

(** ** The round trip *)

Lemma append_assoc_str (a b c : string) : a ++ b ++ c = (a ++ b) ++ c.
Proof.
  induction a as [| x a IH]; cbn; [reflexivity | f_equal; exact IH].
Qed.

Lemma append_empty_r (a : string) : a ++ EmptyString = a.
Proof.
  induction a as [| x a IH]; cbn; [reflexivity | f_equal; exact IH].
Qed.

Lemma quoted_free (m : string) :
  plain_name m ->
  contains "metric.type=" (dq ++ user_prefix ++ m ++ dq) = false
  /\ has_char " " (dq ++ user_prefix ++ m ++ dq) = false.
Proof.
  intros (Hsp & Hq & Hp & Hs). split.
  - unfold dq, user_prefix. cbn [append contains startswith Ascii.eqb Bool.eqb andb orb].
    change (String (ascii_of_nat 34) EmptyString) with dq.
    unfold dq. rewrite contains_snoc; [exact Hs | reflexivity | discriminate].
  - rewrite !has_char_app, Hsp. reflexivity.
Qed.

Lemma strip_quoted (m : string) :
  has_char (ascii_of_nat 34) m = false ->
  strip (ascii_of_nat 34) (dq ++ user_prefix ++ m ++ dq) = user_prefix ++ m.
Proof.
  intros Hq. unfold strip.
  change (lstrip (ascii_of_nat 34) (dq ++ user_prefix ++ m ++ dq))
    with (user_prefix ++ m ++ dq).
  replace (user_prefix ++ m ++ dq) with ((user_prefix ++ m) ++ dq).
  - unfold dq. rewrite rstrip_snoc. apply rstrip_none.
    rewrite has_char_app, Hq. reflexivity.
  - unfold user_prefix. reflexivity.
Qed.

Lemma first_word (m tail : string) :
  plain_name m -> separated tail ->
  split_0 " " (until_sep "metric.type=" (dq ++ user_prefix ++ m ++ dq ++ tail))
  = dq ++ user_prefix ++ m ++ dq.
Proof.
  intros Hm Ht. destruct (quoted_free m Hm) as [Hc Hs].
  set (X := dq ++ user_prefix ++ m ++ dq) in *.
  assert (E : dq ++ user_prefix ++ m ++ dq ++ tail = X ++ tail).
  { unfold X, dq, user_prefix. cbn [append].
    do 29 f_equal. apply (append_assoc_str m dq tail). }
  rewrite E. unfold split_0. destruct Ht as [-> | [t ->]].
  - rewrite append_empty_r, (until_sep_none _ _ Hc). apply until_char_none. exact Hs.
  - change (" " ++ t) with (String " " t).
    rewrite (until_sep_stop " " "metric.type=" X t eq_refl Hc).
    change (until_sep "metric.type=" (String " " t))
      with (String " " (until_sep "metric.type=" t)).
    apply until_char. exact Hs.
Qed.

(** X20.  The extraction of a metric name inverts the convention for
    writing a filter: from [metric.type="logging.googleapis.com/user/<m>"],
    alone or followed by a space and any further text, the validation
    of the dashboard reads back exactly [m], for every name [m] without
    a space, a double quote, the user prefix or the text [metric.type=]
    inside it. *)
Theorem referenced_metric_round_trip (m tail : string) :
  plain_name m -> separated tail ->
  referenced_metric (conventional_filter m tail) = Some m.
Proof.
  intros Hm Ht. unfold referenced_metric, conventional_filter.
  change (contains "metric.type=" ("metric.type=" ++ dq ++ user_prefix ++ m ++ dq ++ tail))
    with true.
  change (split_1 "metric.type=" ("metric.type=" ++ dq ++ user_prefix ++ m ++ dq ++ tail))
    with (Some (until_sep "metric.type=" (dq ++ user_prefix ++ m ++ dq ++ tail))).
  cbv beta iota zeta.
  change (until_sep " " ?x) with (split_0 " " x).
  rewrite (first_word m tail Hm Ht).
  destruct Hm as (Hsp & Hq & Hp & Hs).
  rewrite (strip_quoted m Hq).
  change (startswith user_prefix (user_prefix ++ m)) with true. cbv iota.
  f_equal. unfold replace.
  change (replace_from user_prefix EmptyString 0 (user_prefix ++ m))
    with (replace_from user_prefix EmptyString 0 m).
  apply replace_none. exact Hp.
Qed.

Lemma referenced_metric_round_trip_witness :
  referenced_metric (user_filter "latency_p99") = Some "latency_p99".
Proof.
  apply (referenced_metric_round_trip "latency_p99"
           (" resource.type=" ++ dq ++ "cloud_function" ++ dq)).
  - repeat split; reflexivity.
  - right. eexists. reflexivity.
Defined.

End ExtractFacts.

(** * Properties of the dashboard tool *)

Module DashboardMainFacts.
Import Py Catalog DashboardConfig DashboardMain.

(** ** The catalog *)

Lemma named_or_nameless (l : list MetricConfig) :
  In None (map name l) \/ exists names, map name l = map Some names.
Proof.
  induction l as [| m l IH].
  - right. exists []. reflexivity.
  - cbn [map]. destruct (name m) as [n |].
    + destruct IH as [H | [names H]].
      * left. right. exact H.
      * right. exists (n :: names). cbn. rewrite H. reflexivity.
    + left. left. reflexivity.
Qed.

Lemma validate_returns d c :
  ~ has_nameless c -> exists issues, validate_metrics_references d c = Ret issues.
Proof.
  intros H. unfold validate_metrics_references, defined_metrics.
  destruct (named_or_nameless (metrics_or_empty c)) as [Hn | [names Hn]].
  - contradiction.
  - destruct (DashboardFacts.defined_metrics_from_names _ names [] Hn) as (s & E & _).
    rewrite E. eexists. reflexivity.
Qed.

Lemma validate_raises d c :
  has_nameless c -> validate_metrics_references d c = Raise (KeyError "name").
Proof.
  intros H. unfold validate_metrics_references, defined_metrics.
  rewrite (DashboardFacts.defined_metrics_from_nameless _ [] H). reflexivity.
Qed.

Lemma nameless_has_metrics c : has_nameless c -> has_metrics c = true.
Proof.
  unfold has_nameless, has_metrics, metrics_or_empty.
  destruct (metrics c) as [[| m l] |]; cbn; intros H; try contradiction.
  reflexivity.
Qed.

(** X21.  The validation of the dashboard raises exactly when the
    catalog has an entry without a name: then it raises [KeyError] for
    ['name'], whatever the layout is; otherwise it returns a list of
    issues. *)
Theorem validation_raises_iff_nameless (d : DashboardConfig.Config)
    (c : Catalog.Config) :
  (has_nameless c ->
   validate_metrics_references d c = Raise (KeyError "name"))
  /\ (~ has_nameless c ->
      exists issues, validate_metrics_references d c = Ret issues).
Proof.
  split; [apply validate_raises | apply validate_returns].
Qed.

Lemma validation_raises_iff_nameless_witness :
  validate_metrics_references DashboardSpec.sample_layout nameless_catalog
  = Raise (KeyError "name")
  /\ exists issues,
       validate_metrics_references DashboardSpec.sample_layout
         DashboardSpec.sample_catalog = Ret issues.
Proof.
  split.
  - apply (proj1 (validation_raises_iff_nameless _ nameless_catalog)).
    right. left. reflexivity.
  - apply (proj2 (validation_raises_iff_nameless _ DashboardSpec.sample_catalog)).
    intros [H | [H | []]]; discriminate.
Defined.

(** ** The last segment of a resource name *)

Lemma rsplit_last_from_segment (c : ascii) (id a : string) :
  BudgetsMain.has_char c id = false ->
  forall acc, rsplit_last_from c acc (a ++ String c id) = id.
Proof.
  intros H. induction a as [| x a IH]; intros acc; cbn.
  - rewrite Ascii.eqb_refl.
    apply BudgetsMainFacts.rsplit_last_from_none, H.
  - destruct (Ascii.eqb x c); apply IH.
Qed.

Lemma rsplit_last_segment (c : ascii) (id a : string) :
  BudgetsMain.has_char c id = false ->
  rsplit_last c (a ++ String c id) = id.
Proof.
  intros H. apply rsplit_last_from_segment, H.
Qed.

Section Endpoint.

Variable Cloud : Type.
Variable api : string -> Dashboard -> Cloud -> outcome Dashboard * Cloud.

(** ** The steps of [main] *)

Lemma for_each_print (g : string -> string) (l : list string) :
  forall s : State Cloud,
    for_each l (fun x => print (g x)) s
    = (Ret tt, {| cloud := cloud s;
                  stdout := (stdout s ++ map g l)%list;
                  calls := calls s |}).
Proof.
  induction l as [| x l IH]; intros s; cbn [for_each map].
  - rewrite app_nil_r. destruct s. reflexivity.
  - unfold bind at 1. unfold print at 1. rewrite IH. cbn [cloud stdout calls].
    rewrite <- app_assoc. reflexivity.
Qed.

Lemma print_bind {B} (line : string) (k : unit -> M (State Cloud) B)
    (s : State Cloud) :
  bind (print line) k s
  = k tt {| cloud := cloud s;
            stdout := (stdout s ++ [line])%list;
            calls := calls s |}.
Proof. reflexivity. Qed.

Lemma bind_bind {A B C} (m : M (State Cloud) A) (k1 : A -> M (State Cloud) B)
    (k2 : B -> M (State Cloud) C) (s : State Cloud) :
  bind (bind m k1) k2 s = bind m (fun x => bind (k1 x) k2) s.
Proof.
  unfold bind. destruct (m s) as [[a | e] s1]; reflexivity.
Qed.

Lemma lift_bind {A B} (a : A) (k : A -> M (State Cloud) B) (s : State Cloud) :
  bind (lift (Ret a)) k s = k a s.
Proof. reflexivity. Qed.

Lemma ret_bind {A B} (a : A) (k : A -> M (State Cloud) B) (s : State Cloud) :
  bind (ret a) k s = k a s.
Proof. reflexivity. Qed.

Lemma validate_step_returns f c (s : State Cloud) :
  ~ has_nameless c ->
  exists out,
    validate_step Cloud f c s
    = (Ret tt, {| cloud := cloud s;
                  stdout := (stdout s ++ out)%list;
                  calls := calls s |}).
Proof.
  intros H. unfold validate_step, when.
  destruct (has_metrics c).
  - destruct (validate_returns (config f) c H) as [issues E].
    unfold bind at 1. unfold print at 1.
    unfold bind at 1. unfold lift at 1. rewrite E.
    destruct issues as [| i issues].
    + unfold print. cbn [cloud stdout calls].
      rewrite <- app_assoc. eexists. reflexivity.
    + unfold bind at 1. unfold print at 1.
      unfold bind at 1. rewrite for_each_print. unfold print.
      cbn [cloud stdout calls].
      rewrite <- !app_assoc. eexists. reflexivity.
  - exists []. unfold ret. rewrite app_nil_r. destruct s. reflexivity.
Qed.

Lemma validate_step_raises f c (s : State Cloud) :
  has_nameless c ->
  validate_step Cloud f c s
  = (Raise (KeyError "name"),
     {| cloud := cloud s;
        stdout := (stdout s ++ ["🔍 Validating metric references..."])%list;
        calls := calls s |}).
Proof.
  intros H. unfold validate_step, when.
  rewrite (nameless_has_metrics c H).
  unfold bind at 1. unfold print at 1.
  unfold bind at 1. unfold lift at 1.
  rewrite (validate_raises _ c H). reflexivity.
Qed.

Lemma create_dashboard_unbuilt pid f e (s : State Cloud) :
  build_dashboard f = Raise e ->
  create_dashboard Cloud api pid f s = (Raise e, s).
Proof.
  intros H. unfold create_dashboard, bind, lift. rewrite H. reflexivity.
Qed.

Lemma create_dashboard_built pid f d (s : State Cloud) :
  build_dashboard f = Ret d ->
  create_dashboard Cloud api pid f s
  = let call := CreateDashboard ("projects/" ++ pid) d in
    match api ("projects/" ++ pid) d (cloud s) with
    | (Ret r, c) =>
        (Ret r, {| cloud := c; stdout := stdout s;
                   calls := (calls s ++ [call])%list |})
    | (Raise e, c) =>
        (Raise e,
         {| cloud := c;
            stdout := (stdout s
                       ++ (if is_Exception e then [create_failure_line e] else []))%list;
            calls := (calls s ++ [call])%list |})
    end.
Proof.
  intros H. unfold create_dashboard, bind, lift, try_except, client_create.
  rewrite H. cbv zeta.
  destruct (api ("projects/" ++ pid) d (cloud s)) as [[r | e] c].
  - reflexivity.
  - destruct (is_Exception e).
    + reflexivity.
    + rewrite app_nil_r. reflexivity.
Qed.

Lemma build_dashboard_raises f e :
  build_dashboard f = Raise e ->
  (displayName (config f) = None /\ e = KeyError "displayName")
  \/ (mosaicLayout (config f) = None /\ e = KeyError "mosaicLayout").
Proof.
  unfold build_dashboard.
  destruct (displayName (config f)); [destruct (mosaicLayout (config f)) |];
    intros H; inversion H; auto.
Qed.

Lemma build_dashboard_fields f d :
  build_dashboard f = Ret d ->
  displayName (config f) = Some (display_name d)
  /\ mosaicLayout (config f) = Some (mosaic_layout d)
  /\ dashboard_filters d = dashboardFilters f.
Proof.
  unfold build_dashboard.
  destruct (displayName (config f)); [destruct (mosaicLayout (config f)) |];
    intros H; inversion H; auto.
Qed.

Lemma create_and_describe_unbuilt pid f c e (s : State Cloud) :
  build_dashboard f = Raise e ->
  create_and_describe Cloud api pid f c s
  = (Raise e, {| cloud := cloud s;
                 stdout := (stdout s ++ [creating_line])%list;
                 calls := calls s |}).
Proof.
  intros H. unfold create_and_describe.
  unfold bind at 1. unfold print at 1.
  unfold bind at 1. rewrite (create_dashboard_unbuilt pid f e _ H). reflexivity.
Qed.

Lemma create_and_describe_refused pid f c d e cl (s : State Cloud) :
  build_dashboard f = Ret d ->
  api ("projects/" ++ pid) d (cloud s) = (Raise e, cl) ->
  create_and_describe Cloud api pid f c s
  = (Raise e,
     {| cloud := cl;
        stdout := (stdout s ++ creating_line
                     :: (if is_Exception e then [create_failure_line e] else []))%list;
        calls := (calls s ++ [CreateDashboard ("projects/" ++ pid) d])%list |}).
Proof.
  intros H Ha. unfold create_and_describe.
  unfold bind at 1. unfold print at 1.
  unfold bind at 1. rewrite (create_dashboard_built pid f d _ H).
  cbv zeta. cbn [cloud stdout calls]. rewrite Ha.
  rewrite <- app_assoc. reflexivity.
Qed.

Lemma create_and_describe_created pid f c d r cl (s : State Cloud) :
  build_dashboard f = Ret d ->
  api ("projects/" ++ pid) d (cloud s) = (Ret r, cl) ->
  exists out,
    create_and_describe Cloud api pid f c s
    = (Ret tt,
       {| cloud := cl;
          stdout := (stdout s ++ out)%list;
          calls := (calls s ++ [CreateDashboard ("projects/" ++ pid) d])%list |})
    /\ In ("   Name: " ++ display_name d) out
    /\ In ("   ID: " ++ rsplit_last "/" (d_name r)) out
    /\ In ("   https://console.cloud.google.com/monitoring/dashboards/custom/"
           ++ rsplit_last "/" (d_name r) ++ "?project=" ++ pid) out.
Proof.
  intros H Ha. unfold create_and_describe.
  unfold bind at 1. unfold print at 1.
  unfold bind at 1. rewrite (create_dashboard_built pid f d _ H).
  cbv zeta. cbn [cloud stdout calls]. rewrite Ha.
  destruct (build_dashboard_fields f d H) as (Hn & _ & _). rewrite Hn.
  unfold LogMetrics.item.
  destruct (has_metrics c); cbn [negb when];
    repeat (first [rewrite print_bind | rewrite lift_bind | rewrite ret_bind
                  | rewrite bind_bind];
            cbn [cloud stdout calls]);
    unfold print; cbn [cloud stdout calls];
    rewrite <- !app_assoc; cbn [app];
    (eexists; split; [reflexivity |]);
    repeat split; cbn [In]; auto 30.
Qed.

(** ** The whole run *)

Lemma main_validates a pid f lm c0 :
  usable lm ->
  exists c (s : State Cloud),
    main Cloud api [a; pid] (JsonLoaded f) lm (Ret tt) c0
    = validate_and_create Cloud api pid f c (Ret tt) s
    /\ ~ has_nameless c /\ cloud s = c0 /\ calls s = [].
Proof.
  intros [(c & -> & Hc) | (p & ->)].
  - eexists c, _. split; [reflexivity |]. cbn. auto.
  - eexists _, _. split; [reflexivity |]. cbn. split; [| auto]. intros [].
Qed.

Lemma validate_and_create_creates pid f c (s : State Cloud) :
  ~ has_nameless c ->
  exists s3,
    validate_and_create Cloud api pid f c (Ret tt) s
    = match create_and_describe Cloud api pid f c s3 with
      | (Ret _, s4) => (LogMetrics.Exit 0, s4)
      | (Raise e, s4) =>
          if is_Exception e
          then (LogMetrics.Exit 1, snd (print (create_failure_line e) s4))
          else (LogMetrics.Uncaught e, s4)
      end
    /\ cloud s3 = cloud s /\ calls s3 = calls s.
Proof.
  intros H. unfold validate_and_create.
  destruct (validate_step_returns f c s H) as [out ->].
  eexists. split; [reflexivity |]. cbn. auto.
Qed.

Lemma main_creates a pid f lm c0 :
  usable lm ->
  exists c (s3 : State Cloud),
    main Cloud api [a; pid] (JsonLoaded f) lm (Ret tt) c0
    = match create_and_describe Cloud api pid f c s3 with
      | (Ret _, s4) => (LogMetrics.Exit 0, s4)
      | (Raise e, s4) =>
          if is_Exception e
          then (LogMetrics.Exit 1, snd (print (create_failure_line e) s4))
          else (LogMetrics.Uncaught e, s4)
      end
    /\ cloud s3 = c0 /\ calls s3 = [].
Proof.
  intros H. destruct (main_validates a pid f lm c0 H) as (c & s & E & Hc & Hs & Hk).
  destruct (validate_and_create_creates pid f c s Hc) as (s3 & E3 & H3 & K3).
  exists c, s3. rewrite E, E3, H3, K3. auto.
Qed.

(** X22.  Validation issues never block the creation.  Whenever the
    layout has a display name and a mosaic layout, the client can be
    built and the catalog was read without a nameless entry (or its
    file is absent), [main] submits the dashboard built from the
    layout exactly once, whatever issues the validation found; the run
    ends with status 0 when the endpoint answers, with status 1 when it
    raises an error of class [Exception]. *)
Theorem issues_never_block_creation (a pid : string) (f : DashboardFile)
    (d : Dashboard) (lm : outcome Catalog.Config) (c0 : Cloud) :
  build_dashboard f = Ret d ->
  usable lm ->
  let r := main Cloud api [a; pid] (JsonLoaded f) lm (Ret tt) c0 in
  let answer := api ("projects/" ++ pid) d c0 in
  calls (snd r) = [CreateDashboard ("projects/" ++ pid) d]
  /\ fst r = ending (fst answer)
  /\ cloud (snd r) = snd answer.
Proof.
  intros Hb Hu r answer. subst r answer.
  destruct (main_creates a pid f lm c0 Hu) as (c & s3 & -> & Hs & Hk).
  destruct (api ("projects/" ++ pid) d c0) as [[res | e] cl] eqn:Ha;
    rewrite <- Hs in Ha.
  - destruct (create_and_describe_created pid f c d res cl s3 Hb Ha)
      as (out & -> & _).
    cbn. rewrite Hk. auto.
  - rewrite (create_and_describe_refused pid f c d e cl s3 Hb Ha).
    cbn [ending fst snd]. destruct (is_Exception e); cbn; rewrite Hk; auto.
Qed.

(** X23.  A layout without ['displayName'] or ['mosaicLayout'] is never
    submitted: the [KeyError] is raised before the call and caught by
    [main], which ends with status 1, its last line naming the missing
    key. *)
Theorem incomplete_layout_is_not_submitted (a pid : string)
    (f : DashboardFile) (lm : outcome Catalog.Config) (c0 : Cloud) :
  displayName (config f) = None \/ mosaicLayout (config f) = None ->
  usable lm ->
  let r := main Cloud api [a; pid] (JsonLoaded f) lm (Ret tt) c0 in
  exists k,
    (k = "displayName" \/ k = "mosaicLayout")
    /\ fst r = LogMetrics.Exit 1
    /\ calls (snd r) = []
    /\ cloud (snd r) = c0
    /\ last (stdout (snd r)) EmptyString = create_failure_line (KeyError k).
Proof.
  intros Hf Hu r. subst r.
  assert (Hb : exists k, (k = "displayName" \/ k = "mosaicLayout")
                         /\ build_dashboard f = Raise (KeyError k)).
  { unfold build_dashboard.
    destruct (displayName (config f)); [| eauto].
    destruct (mosaicLayout (config f)); [| eauto].
    destruct Hf; discriminate. }
  destruct Hb as (k & Hk & Hb). exists k. split; [exact Hk |].
  destruct (main_creates a pid f lm c0 Hu) as (c & s3 & -> & Hs & Hc).
  rewrite (create_and_describe_unbuilt pid f c _ s3 Hb).
  cbn. rewrite last_last. auto.
Qed.

(** X24.  A refusal is reported twice.  When the endpoint raises an
    error of class [Exception], [create_dashboard] prints the failure
    and raises it again, and [main] prints the same line once more
    before it ends with status 1: the output ends with the line twice. *)
Theorem refusal_is_reported_twice (a pid : string) (f : DashboardFile)
    (d : Dashboard) (lm : outcome Catalog.Config) (c0 : Cloud) (e : exn) :
  build_dashboard f = Ret d ->
  usable lm ->
  fst (api ("projects/" ++ pid) d c0) = Raise e ->
  is_Exception e = true ->
  let r := main Cloud api [a; pid] (JsonLoaded f) lm (Ret tt) c0 in
  fst r = LogMetrics.Exit 1
  /\ exists before,
       stdout (snd r)
       = (before ++ [creating_line; create_failure_line e;
                     create_failure_line e])%list.
Proof.
  intros Hb Hu Ha He r. subst r.
  destruct (main_creates a pid f lm c0 Hu) as (c & s3 & -> & Hs & Hk).
  destruct (api ("projects/" ++ pid) d c0) as [o cl] eqn:E.
  cbn [fst] in Ha. subst o. rewrite <- Hs in E.
  rewrite (create_and_describe_refused pid f c d e cl s3 Hb E).
  rewrite He. cbn. split; [reflexivity |].
  exists (stdout s3). rewrite <- app_assoc. reflexivity.
Qed.

(** X25.  The identifier shown to the user is the last segment of the
    resource name.  When the endpoint answers a dashboard named
    [<parent>/<id>], [<id>] without a slash, the run ends with status 0
    and prints the layout's display name, [<id>] as the identifier and
    the console address built from [<id>] and the project. *)
Theorem dashboard_id_is_last_segment (a pid : string) (f : DashboardFile)
    (d res : Dashboard) (lm : outcome Catalog.Config) (c0 : Cloud)
    (parent id : string) :
  build_dashboard f = Ret d ->
  usable lm ->
  fst (api ("projects/" ++ pid) d c0) = Ret res ->
  d_name res = parent ++ "/" ++ id ->
  BudgetsMain.has_char "/" id = false ->
  let r := main Cloud api [a; pid] (JsonLoaded f) lm (Ret tt) c0 in
  fst r = LogMetrics.Exit 0
  /\ In ("   Name: " ++ display_name d) (stdout (snd r))
  /\ In ("   ID: " ++ id) (stdout (snd r))
  /\ In ("   https://console.cloud.google.com/monitoring/dashboards/custom/"
         ++ id ++ "?project=" ++ pid) (stdout (snd r)).
Proof.
  intros Hb Hu Ha Hn Hid r. subst r.
  destruct (main_creates a pid f lm c0 Hu) as (c & s3 & -> & Hs & Hk).
  destruct (api ("projects/" ++ pid) d c0) as [o cl] eqn:E.
  cbn [fst] in Ha. subst o. rewrite <- Hs in E.
  destruct (create_and_describe_created pid f c d res cl s3 Hb E)
    as (out & -> & H1 & H2 & H3).
  rewrite Hn in H2, H3.
  change (parent ++ "/" ++ id) with (parent ++ String "/" id) in H2, H3.
  rewrite (rsplit_last_segment "/" id parent Hid) in H2, H3.
  cbn. repeat split; apply in_or_app; right; assumption.
Qed.

(** X26.  A catalog entry without a name stops the tool before the
    dashboard is created.  When the catalog is read and one of its
    entries lacks ['name'], the validation's [KeyError] leaves [main]
    unhandled, whatever the layout and the client are: no call is
    issued. *)
Theorem nameless_catalog_stops_the_tool (a pid : string) (f : DashboardFile)
    (c : Catalog.Config) (new_client : outcome unit) (c0 : Cloud) :
  has_nameless c ->
  let r := main Cloud api [a; pid] (JsonLoaded f) (Ret c) new_client c0 in
  fst r = LogMetrics.Uncaught (KeyError "name")
  /\ calls (snd r) = []
  /\ cloud (snd r) = c0.
Proof.
  intros H r. subst r. unfold main, validate_and_create.
  rewrite (validate_step_raises f c _ H). cbn. auto.
Qed.

End Endpoint.

(** ** Examples *)

Lemma sample_usable : usable (Ret DashboardSpec.sample_catalog).
Proof.
  left. eexists. split; [reflexivity |].
  intros [H | [H | []]]; discriminate.
Qed.

Lemma issues_never_block_creation_witness :
  let r := main nat numbering sample_argv (JsonLoaded sample_file)
             (Ret DashboardSpec.sample_catalog) (Ret tt) 7 in
  calls (snd r) = [CreateDashboard "projects/dressup-prod" sample_dashboard]
  /\ fst r = LogMetrics.Exit 0
  /\ cloud (snd r) = 8.
Proof.
  apply (issues_never_block_creation nat numbering "create-dashboard.py"
           "dressup-prod" sample_file sample_dashboard
           (Ret DashboardSpec.sample_catalog) 7).
  - reflexivity.
  - exact sample_usable.
Defined.

Lemma incomplete_layout_is_not_submitted_witness :
  let r := main nat numbering sample_argv (JsonLoaded untitled_file)
             (Ret DashboardSpec.sample_catalog) (Ret tt) 7 in
  exists k,
    (k = "displayName" \/ k = "mosaicLayout")
    /\ fst r = LogMetrics.Exit 1
    /\ calls (snd r) = []
    /\ cloud (snd r) = 7
    /\ last (stdout (snd r)) EmptyString = create_failure_line (KeyError k).
Proof.
  apply (incomplete_layout_is_not_submitted nat numbering "create-dashboard.py"
           "dressup-prod" untitled_file (Ret DashboardSpec.sample_catalog) 7).
  - left. reflexivity.
  - exact sample_usable.
Defined.

Lemma refusal_is_reported_twice_witness :
  let r := main unit refusing sample_argv (JsonLoaded sample_file)
             (Raise (FileNotFoundError "log-metrics.yaml")) (Ret tt) tt in
  fst r = LogMetrics.Exit 1
  /\ exists before,
       stdout (snd r)
       = (before ++ [creating_line;
                     create_failure_line (ApiError "403 Permission denied");
                     create_failure_line (ApiError "403 Permission denied")])%list.
Proof.
  apply (refusal_is_reported_twice unit refusing "create-dashboard.py"
           "dressup-prod" sample_file sample_dashboard
           (Raise (FileNotFoundError "log-metrics.yaml")) tt
           (ApiError "403 Permission denied")).
  - reflexivity.
  - right. eexists. reflexivity.
  - reflexivity.
  - reflexivity.
Defined.

Lemma dashboard_id_is_last_segment_witness :
  let r := main nat numbering sample_argv (JsonLoaded sample_file)
             (Ret DashboardSpec.sample_catalog) (Ret tt) 7 in
  fst r = LogMetrics.Exit 0
  /\ In "   Name: DressUp AI - Operations" (stdout (snd r))
  /\ In "   ID: 7" (stdout (snd r))
  /\ In "   https://console.cloud.google.com/monitoring/dashboards/custom/7?project=dressup-prod"
        (stdout (snd r)).
Proof.
  apply (dashboard_id_is_last_segment nat numbering "create-dashboard.py"
           "dressup-prod" sample_file sample_dashboard sample_answer
           (Ret DashboardSpec.sample_catalog) 7
           "projects/dressup-prod/dashboards" "7").
  - reflexivity.
  - exact sample_usable.
  - reflexivity.
  - reflexivity.
  - reflexivity.
Defined.

Lemma nameless_catalog_stops_the_tool_witness :
  let r := main nat numbering sample_argv (JsonLoaded sample_file)
             (Ret nameless_catalog) (Ret tt) 7 in
  fst r = LogMetrics.Uncaught (KeyError "name")
  /\ calls (snd r) = []
  /\ cloud (snd r) = 7.
Proof.
  apply (nameless_catalog_stops_the_tool nat numbering "create-dashboard.py"
           "dressup-prod" sample_file nameless_catalog (Ret tt) 7).
  right. left. reflexivity.
Defined.

End DashboardMainFacts.
